(** * shouldITakeClass: attendance engine and day-schedule optimizer

    A shallow embedding of [lib/attendanceCalculator.ts],
    [lib/scheduleOptimizer.ts], [lib/dataManager.ts] and
    [lib/collegeDecisionEngine.ts], with the properties the specification
    states about them.

    Conventions of the embedding.
    - Counters, minutes and list lengths are JS numbers holding integers:
      they are [Z].  Percentages and scores are JS numbers holding
      fractions, that is doubles: they are the rationals [Q] a double can
      hold, and every division, product, sum or difference that can leave a
      fraction is followed by [JS.fl], the rounding to the nearest double
      (53 significant bits, ties to the even significand).  Equality on [Q]
      is [==].  Integers are taken to lie below 2^53 and doubles within the
      exponent range, as the attendance counters and minutes of a day do.
      Where the source divides by a value that can be zero, the result is
      a [number], which adds the two infinities and NaN to [Q].
    - [Math.round x] is [floor (x + 1/2)] and [Math.ceil] is [Qceiling],
      both exact on the double they are given.
    - Three comparisons are written on the exact values, which decide them
      as the doubles do: an integer against [count * 0.8] (the double
      product is the exact one when that is an integer, and lies between
      the same two integers otherwise), and
      [minutes / 240] against 0.5, 1 and 1.5 (doubles themselves, which
      the quotient of an integer by 240 equals or misses by 1/240 at
      least).
    - Times are the "HH:MM" strings of [ClassTime]; [Number] reads a string
      of decimal digits.  Strings on which JS would yield NaN are outside
      the model.
    - Dates are ISO date strings.  What [Date] computes from a valid one
      (its weekday, the days that follow it) is a [Variable] of the sections
      that need it, as is the text JS prints for a number.
    - [Array.prototype.sort] is stable; it is an insertion sort that keeps
      the input order of elements the comparator does not separate.
    - A JS object used as a dictionary is a [gmap]; where the order of its
      keys is read ([Object.keys]), it is an association list in insertion
      order.  A [gmap] holds the object's own keys only: the keys looked up
      are not names of members inherited from [Object.prototype].
    - Texts are ASCII, as the day names, ids and times of the source are;
      [toLowerCase] folds the letters A-Z.
    - The methods of [DataManager] and of the engine that holds one are
      computations [DM] over the data manager, so that what a call leaves
      in the stored courses can be stated. *)

From Stdlib Require Import ZArith QArith Qround Qpower Qabs Lqa.
From Stdlib Require Import List String Ascii Lia Bool.
From Stdlib Require Import DecimalString DecimalNat.
From Stdlib Require Import Permutation Sorted.
From stdpp Require Import gmap strings.
Import ListNotations.

#[local] Open Scope string_scope.
#[local] Open Scope list_scope.
#[local] Open Scope Z_scope.

(** ** JS numbers *)

Module JS.

(** [2 ** e] *)
Definition pow2 (e : Z) : Q := Qpower 2 e.

(** The exponent of a positive [x]: the [l] with [2^l <= x < 2^(l+1)]. *)
Definition floorLog2 (x : Q) : Z :=
  let l := Z.log2 (Qnum x) - Z.log2 (Zpos (Qden x)) in
  if Qle_bool (pow2 l) x then l else l - 1.

(** The nearest integer, a half going to the even neighbour. *)
Definition nearestEven (x : Q) : Z :=
  let f := Qfloor x in
  match Qcompare (x - inject_Z f) (1 # 2) with
  | Lt => f
  | Gt => f + 1
  | Eq => if Z.even f then f else f + 1
  end.

(** The nearest double to a positive [x]: a significand of 53 bits. *)
Definition flPositive (x : Q) : Q :=
  let e := floorLog2 x - 52 in
  (inject_Z (nearestEven (x / pow2 e)) * pow2 e)%Q.

(** The double an arithmetic operation returns for the exact result [x]:
    the nearest one, ties to even (IEEE 754 round-to-nearest). *)
Definition fl (x : Q) : Q :=
  let r := Qred x in
  Qred (match Z.compare (Qnum r) 0 with
        | Eq => 0%Q
        | Gt => flPositive r
        | Lt => Qopp (flPositive (Qopp r))
        end).

(** The relative error of a rounding: 2^-53. *)
Definition ulpHalf : Q := 1 # 9007199254740992.

(** [Math.round]: the nearest integer, halves rounded up. *)
Definition round (x : Q) : Z := Qfloor (x + (1 # 2)).

(** [Math.round(x * 100) / 100] *)
Definition round2 (x : Q) : Q := fl (inject_Z (round (fl (x * 100))) / 100).

(** [Math.round(x * 10) / 10] *)
Definition round1 (x : Q) : Q := fl (inject_Z (round (fl (x * 10))) / 10).

(** [a > b] on fractions. *)
Definition gtb (a b : Q) : bool := negb (Qle_bool a b).

(** [a < b] on fractions. *)
Definition ltb (a b : Q) : bool := negb (Qle_bool b a).

(** The result of a division whose divisor may be zero. *)
Inductive number : Type :=
| Finite (q : Q)
| PosInfinity
| NegInfinity
| NaN.

(** [a / b] on integers. *)
Definition div (a b : Z) : number :=
  if b =? 0 then
    (if a =? 0 then NaN else if 0 <? a then PosInfinity else NegInfinity)
  else Finite (fl (inject_Z a / inject_Z b)).

(** [x * 100] *)
Definition times100 (x : number) : number :=
  match x with
  | Finite q => Finite (fl (q * 100))
  | other => other
  end.

(** [x < q]; false on NaN. *)
Definition num_ltb (x : number) (q : Q) : bool :=
  match x with
  | Finite p => ltb p q
  | NegInfinity => true
  | PosInfinity | NaN => false
  end.

(** [x >= q]; false on NaN. *)
Definition num_geb (x : number) (q : Q) : bool :=
  match x with
  | Finite p => Qle_bool q p
  | PosInfinity => true
  | NegInfinity | NaN => false
  end.

(** [Math.round(x * 100) / 100] on a [number]. *)
Definition num_round2 (x : number) : number :=
  match x with
  | Finite q => Finite (round2 q)
  | other => other
  end.

(** [xs.includes(x)] on strings. *)
Definition includes (xs : list string) (x : string) : bool :=
  existsb (String.eqb x) xs.

(** [Array.prototype.sort(cmp)]: stable; [x] goes before the first
    element it does not compare greater than. *)
Section Sort.
Context {A : Type} (cmp : A -> A -> Z).

Fixpoint insert_sorted (x : A) (l : list A) : list A :=
  match l with
  | [] => [x]
  | y :: l' => if 0 <? cmp x y then y :: insert_sorted x l' else x :: l
  end.

Definition sort (l : list A) : list A := fold_right insert_sorted [] l.
End Sort.

End JS.

(** ** types/attendance.ts *)

Record Course : Type := mkCourse {
  id : string;
  name : string;
  requiredAttendancePercentage : Q;
  totalClassesScheduled : Z;
  classesAttended : Z;
  classesCancelled : Z
}.

Record ClassTime : Type := mkClassTime {
  startTime : string;
  endTime : string;
  courseId : string;
  location : option string
}.

Record UserPreferences : Type := mkUserPreferences {
  minimizeCollegeDays : bool;
  maxGapBetweenClasses : Z;
  priorityCourses : list string;
  minimumClassesPerDay : Z
}.

(** An entry of [DayAnalysis.timeGaps]. *)
Record TimeGap : Type := mkTimeGap {
  gap_start : string;
  gap_end : string;
  duration : Z
}.

Record ScheduleOverride : Type := mkScheduleOverride {
  date : string;
  classes : list ClassTime;
  reason : option string
}.

Record AttendanceRecord : Type := mkAttendanceRecord {
  record_date : string;
  record_courseId : string;
  attended : bool;
  cancelled : option bool;
  record_reason : option string
}.

(** An entry of [DayAnalysis.attendanceImpact]. *)
Record Impact : Type := mkImpact {
  impact_currentPercentage : Q;
  afterAttending : JS.number;
  afterSkipping : JS.number;
  isRequired : bool
}.

Record DayAnalysis : Type := mkDayAnalysis {
  analysis_date : string;
  scheduledClasses : list ClassTime;
  shouldGo : bool;
  recommendedClasses : list string;
  reasoning : list string;
  timeGaps : list TimeGap;
  attendanceImpact : list (string * Impact)
}.

Record AttendanceStatus : Type := mkAttendanceStatus {
  status_courseId : string;
  courseName : string;
  status_classesAttended : Z;
  totalClassesHeld : Z;
  currentPercentage : Q;
  classesNeededFor75Percent : Z;
  remainingClassesScheduled : Z;
  canSkip : Z;
  isAtRisk : bool
}.

Record DecisionContext : Type := mkDecisionContext {
  context_date : string;
  context_courses : list Course;
  daySchedule : list ClassTime;
  attendanceStatuses : list AttendanceStatus;
  context_preferences : UserPreferences;
  upcomingSchedule : list ScheduleOverride
}.

(** ** lib/attendanceCalculator.ts *)

Module AttendanceCalculator.

(** [courses.find(c => c.id === courseId)] *)
Definition findCourse (courses : list Course) (wanted : string) : option Course :=
  List.find (fun c => String.eqb (id c) wanted) courses.

(** [impact[key] = value] on an object whose keys are read in insertion
    order: an existing key keeps its place.  (JS lists keys that are array
    indices first; course ids such as CS101 are not.) *)
Fixpoint setKey {V : Type} (key : string) (value : V) (object : list (string * V))
    : list (string * V) :=
  match object with
  | [] => [(key, value)]
  | (k, v) :: rest =>
      if String.eqb k key then (key, value) :: rest
      else (k, v) :: setKey key value rest
  end.

(** [Math.ceil((requiredAttendancePercentage / 100) * n)] *)
Definition requiredOutOf (course : Course) (n : Z) : Z :=
  Qceiling (JS.fl (JS.fl (requiredAttendancePercentage course / 100) * inject_Z n)).

Definition calculateAttendanceStatus (course : Course) : AttendanceStatus :=
  let totalClassesHeld := totalClassesScheduled course - classesCancelled course in
  let currentPercentage :=
    if 0 <? totalClassesHeld
    then JS.fl (JS.fl (inject_Z (classesAttended course) / inject_Z totalClassesHeld)
                * 100)
    else 0%Q in
  let requiredClasses := requiredOutOf course totalClassesHeld in
  let classesNeededFor75Percent := Z.max 0 (requiredClasses - classesAttended course) in
  let remainingClassesScheduled := totalClassesScheduled course - totalClassesHeld in
  let maxSkippableClasses := classesAttended course - requiredClasses in
  let canSkip := Z.max 0 maxSkippableClasses in
  let futureClassesNeeded := classesNeededFor75Percent in
  let isAtRisk :=
    JS.gtb (inject_Z futureClassesNeeded)
      (inject_Z remainingClassesScheduled * (8 # 10)) in
  mkAttendanceStatus (id course) (name course) (classesAttended course)
    totalClassesHeld (JS.round2 currentPercentage) classesNeededFor75Percent
    remainingClassesScheduled canSkip isAtRisk.

Definition calculateDayImpact (courses : list Course) (dayClasses : list ClassTime)
    (totalRemainingClasses : gmap string Z) : list (string * Impact) :=
  fold_left
    (fun impact classTime =>
       match findCourse courses (courseId classTime) with
       | None => impact
       | Some course =>
           let currentStatus := calculateAttendanceStatus course in
           let totalClassesHeld :=
             totalClassesScheduled course - classesCancelled course in
           let remainingTotal := default 0 (totalRemainingClasses !! id course) in
           let afterAttending :=
             JS.times100 (JS.div (classesAttended course + 1) (totalClassesHeld + 1)) in
           let afterSkipping :=
             JS.times100 (JS.div (classesAttended course) (totalClassesHeld + 1)) in
           let requiredClasses :=
             requiredOutOf course (totalClassesHeld + remainingTotal) in
           let isRequired :=
             (classesAttended course <? requiredClasses)
             && (classesAttended course + remainingTotal <=? requiredClasses) in
           setKey (courseId classTime)
             (mkImpact (currentPercentage currentStatus)
                (JS.num_round2 afterAttending) (JS.num_round2 afterSkipping)
                isRequired)
             impact
       end)
    dayClasses [].

Definition isAttendanceRecoverable (course : Course)
    (remainingClassesInSchedule : Z) : bool :=
  let totalFutureClasses :=
    totalClassesScheduled course - classesCancelled course
    + remainingClassesInSchedule in
  let maxPossibleAttended := classesAttended course + remainingClassesInSchedule in
  let maxPossiblePercentage :=
    JS.times100 (JS.div maxPossibleAttended totalFutureClasses) in
  JS.num_geb maxPossiblePercentage (requiredAttendancePercentage course).

Definition getAttendanceSummary (courses : list Course) : list AttendanceStatus :=
  map calculateAttendanceStatus courses.

(** What [predictFutureRequirements] returns: minimumToAttend, canSkip,
    mustAttendPercentage. *)
Record FutureRequirements : Type := mkFutureRequirements {
  minimumToAttend : Z;
  future_canSkip : Z;
  mustAttendPercentage : Q
}.

Definition predictFutureRequirements (course : Course)
    (remainingClassesInSchedule : Z) : FutureRequirements :=
  let totalFutureClasses :=
    totalClassesScheduled course - classesCancelled course
    + remainingClassesInSchedule in
  let requiredClasses := requiredOutOf course totalFutureClasses in
  let minimumToAttend := Z.max 0 (requiredClasses - classesAttended course) in
  let canSkip := Z.max 0 (remainingClassesInSchedule - minimumToAttend) in
  let mustAttendPercentage :=
    if 0 <? remainingClassesInSchedule
    then JS.fl (JS.fl (inject_Z minimumToAttend / inject_Z remainingClassesInSchedule)
                * 100)
    else 0%Q in
  mkFutureRequirements minimumToAttend canSkip (JS.round2 mustAttendPercentage).

(** What [calculateOptimalStrategy] returns: mustAttend, canSkip, recommended. *)
Record Strategy : Type := mkStrategy {
  strategy_mustAttend : list string;
  strategy_canSkip : list string;
  strategy_recommended : list string
}.

(** The body of the [forEach] of [calculateOptimalStrategy]. *)
Definition strategyStep (courses : list Course) (remainingClassCounts : gmap string Z)
    (strategy : Strategy) (classTime : ClassTime) : Strategy :=
  match findCourse courses (courseId classTime) with
  | None => strategy
  | Some course =>
      let future :=
        predictFutureRequirements course
          (default 0 (remainingClassCounts !! id course)) in
      if future_canSkip future <? minimumToAttend future
      then mkStrategy (strategy_mustAttend strategy ++ [courseId classTime])
             (strategy_canSkip strategy) (strategy_recommended strategy)
      else if minimumToAttend future * 2 <? future_canSkip future
      then mkStrategy (strategy_mustAttend strategy)
             (strategy_canSkip strategy ++ [courseId classTime])
             (strategy_recommended strategy)
      else mkStrategy (strategy_mustAttend strategy) (strategy_canSkip strategy)
             (strategy_recommended strategy ++ [courseId classTime])
  end.

Definition calculateOptimalStrategy (courses : list Course)
    (upcomingClasses : list ClassTime) (remainingClassCounts : gmap string Z)
    : Strategy :=
  fold_left (strategyStep courses remainingClassCounts) upcomingClasses
    (mkStrategy [] [] []).

End AttendanceCalculator.

(** ** lib/scheduleOptimizer.ts: times, gaps, day duration *)

Module ScheduleOptimizer.

(** [time.split(':')] *)
Fixpoint split (sep : ascii) (s : string) : list string :=
  match s with
  | EmptyString => [EmptyString]
  | String c r =>
      if Ascii.eqb c sep then EmptyString :: split sep r
      else match split sep r with
           | h :: t => String c h :: t
           | [] => [String c EmptyString]
           end
  end.

Fixpoint digits (acc : Z) (s : string) : Z :=
  match s with
  | EmptyString => acc
  | String c r => digits (10 * acc + (Z.of_nat (nat_of_ascii c) - 48)) r
  end.

(** [Number(s)] for a string of decimal digits. *)
Definition Number (s : string) : Z := digits 0 s.

Definition timeToMinutes (time : string) : Z :=
  match map Number (split ":" time) with
  | hours :: minutes :: _ => hours * 60 + minutes
  | _ => 0
  end.

(** [n.toString()] for an integer. *)
Definition toString (n : Z) : string :=
  if n <? 0
  then "-" +:+ NilZero.string_of_uint (Nat.to_uint (Z.to_nat (- n)))
  else NilZero.string_of_uint (Nat.to_uint (Z.to_nat n)).

Fixpoint zeros (n : nat) : string :=
  match n with
  | O => EmptyString
  | S n' => String "0" (zeros n')
  end.

(** [s.padStart(2, '0')] *)
Definition padStart2 (s : string) : string :=
  zeros (2 - String.length s) +:+ s.

(** [minutes] is an integer; [Math.floor(minutes / 60)] is [Z.div] and
    [minutes % 60] is [Z.rem]. *)
Definition minutesToTime (minutes : Z) : string :=
  let hours := minutes / 60 in
  let mins := Z.rem minutes 60 in
  padStart2 (toString hours) +:+ ":" +:+ padStart2 (toString mins).

(** The comparator both sorts of this file pass to [sort]. *)
Definition byStartTime (a b : ClassTime) : Z :=
  timeToMinutes (startTime a) - timeToMinutes (startTime b).

(** The loop of [calculateTimeGaps] over the sorted classes. *)
Fixpoint gapsBetween (sortedClasses : list ClassTime) : list TimeGap :=
  match sortedClasses with
  | [] => []
  | current :: rest =>
      match rest with
      | [] => []
      | next :: _ =>
          let currentEnd := endTime current in
          let nextStart := startTime next in
          let gapDuration := timeToMinutes nextStart - timeToMinutes currentEnd in
          if 0 <? gapDuration
          then mkTimeGap currentEnd nextStart gapDuration :: gapsBetween rest
          else gapsBetween rest
      end
  end.

Definition calculateTimeGaps (classes : list ClassTime) : list TimeGap :=
  if (Z.of_nat (length classes) <=? 1) then []
  else gapsBetween (JS.sort byStartTime classes).

Definition calculateDayDuration (classes : list ClassTime) : Z :=
  match classes with
  | [] => 0
  | [c] => timeToMinutes (endTime c) - timeToMinutes (startTime c)
  | first :: _ =>
      let sortedClasses := JS.sort byStartTime classes in
      let firstClassStart := timeToMinutes (startTime (List.hd first sortedClasses)) in
      let lastClassEnd := timeToMinutes (endTime (List.last sortedClasses first)) in
      lastClassEnd - firstClassStart
  end.

(** [gaps.length > 0 ? Math.max(...gaps.map(g => g.duration)) : 0] *)
Definition maxGapOf (gaps : list TimeGap) : Z :=
  match gaps with
  | [] => 0
  | g :: gs => fold_left Z.max (map duration gs) (duration g)
  end.

(** [Math.round(minutes / 60 * 10) / 10], the hours shown in messages. *)
Definition hoursShown (minutes : Z) : Q :=
  JS.round1 (JS.fl (inject_Z minutes / 60)).

Definition countWhere {A : Type} (p : A -> bool) (l : list A) : Z :=
  Z.of_nat (length (List.filter p l)).

Definition calculateDayScore (classes : list ClassTime)
    (preferences : UserPreferences) (mustAttendClasses : list string) : Q :=
  match classes with
  | [] => 0%Q
  | _ :: _ =>
      let score := 0%Q in
      (* base score for number of classes *)
      let score := (score + inject_Z (Z.of_nat (length classes)) * 10)%Q in
      (* bonus for must-attend classes *)
      let mustAttendCount :=
        countWhere (fun c => JS.includes mustAttendClasses (courseId c)) classes in
      let score := (score + inject_Z mustAttendCount * 20)%Q in
      (* penalty for gaps *)
      let gaps := calculateTimeGaps classes in
      let totalGapTime := fold_left (fun sum gap => sum + duration gap) gaps 0 in
      let score := JS.fl (score - JS.fl (inject_Z totalGapTime / 60)) in
      (* large penalty for violating the gap limit *)
      let maxGap := maxGapOf gaps in
      let score :=
        if maxGapBetweenClasses preferences <? maxGap then JS.fl (score - 50) else score in
      (* penalty for being below minimum classes *)
      let score :=
        if Z.of_nat (length classes) <? minimumClassesPerDay preferences
        then JS.fl (score - 30) else score in
      (* bonus for priority courses *)
      let priorityCount :=
        countWhere (fun c => JS.includes (priorityCourses preferences) (courseId c))
          classes in
      let score := JS.fl (score + inject_Z priorityCount * 5) in
      JS.round1 score
  end.

Record Violations : Type := mkViolations {
  violatesGapLimit : bool;
  violatesMinimumClasses : bool;
  maxGapDuration : Z;
  reasons : list string
}.

Record Optimization : Type := mkOptimization {
  selectedClasses : list ClassTime;
  skippedClasses : list ClassTime;
  score : Q;
  opt_reasoning : list string
}.

(** What [shouldGoToCollege] returns: shouldGo, confidence, reasoning. *)
Record Decision : Type := mkDecision {
  decision_shouldGo : bool;
  decision_confidence : Z;
  decision_reasoning : list string
}.

(** [remainingOptional.splice(i, 1)] *)
Definition splice1 {A : Type} (i : nat) (l : list A) : list A :=
  firstn i l ++ skipn (S i) l.

(** The inner [for .. of remainingOptional] of [optimizeClassSelection].
    [bestAddition] is kept with the index it was read at, which is the
    index [indexOf] finds: a later copy of the same class never scores
    strictly higher. *)
Fixpoint scanAdditions (bestSelection : list ClassTime)
    (preferences : UserPreferences) (mustAttendClasses : list string)
    (candidates : list ClassTime) (i : nat)
    (bestAddition : option (nat * ClassTime)) (bestNewScore : Q)
    : option (nat * ClassTime) * Q :=
  match candidates with
  | [] => (bestAddition, bestNewScore)
  | optionalClass :: rest =>
      let testSelection := bestSelection ++ [optionalClass] in
      let testScore := calculateDayScore testSelection preferences mustAttendClasses in
      if JS.gtb testScore bestNewScore
      then scanAdditions bestSelection preferences mustAttendClasses rest (S i)
             (Some (i, optionalClass)) testScore
      else scanAdditions bestSelection preferences mustAttendClasses rest (S i)
             bestAddition bestNewScore
  end.

Section Messages.

(** The conversion of a number to a string in a template literal. *)
Variable showNumber : Q -> string.

Definition showCount {A : Type} (l : list A) : string :=
  showNumber (inject_Z (Z.of_nat (length l))).

Definition violatesPreferences (classes : list ClassTime)
    (preferences : UserPreferences) : Violations :=
  let gaps := calculateTimeGaps classes in
  let maxGap := maxGapOf gaps in
  let violatesGapLimit := maxGapBetweenClasses preferences <? maxGap in
  let violatesMinimumClasses :=
    Z.of_nat (length classes) <? minimumClassesPerDay preferences in
  let reasons :=
    (if violatesGapLimit
     then ["Gap of " +:+ showNumber (hoursShown maxGap)
           +:+ " hours exceeds limit of "
           +:+ showNumber (hoursShown (maxGapBetweenClasses preferences))
           +:+ " hours"]
     else [])
    ++
    (if violatesMinimumClasses
     then ["Only " +:+ showCount classes +:+ " classes, minimum is "
           +:+ showNumber (inject_Z (minimumClassesPerDay preferences))]
     else []) in
  mkViolations violatesGapLimit violatesMinimumClasses maxGap reasons.

(** The [while (remainingOptional.length > 0)] loop.  Every turn that
    does not leave the loop removes one class from [remainingOptional],
    so [length remainingOptional] turns are enough. *)
Fixpoint greedyLoop (turns : nat) (preferences : UserPreferences)
    (mustAttendClasses : list string)
    (bestSelection : list ClassTime) (bestScore : Q)
    (reasoning : list string) (remainingOptional : list ClassTime)
    : list ClassTime * Q * list string :=
  match turns, remainingOptional with
  | S turns', _ :: _ =>
      match scanAdditions bestSelection preferences mustAttendClasses
              remainingOptional 0%nat None bestScore with
      | (Some (i, bestAddition), bestNewScore) =>
          if JS.gtb bestNewScore bestScore then
            let bestSelection' := bestSelection ++ [bestAddition] in
            let remainingOptional' := splice1 i remainingOptional in
            let violations := violatesPreferences bestSelection' preferences in
            let line :=
              if violatesGapLimit violations || violatesMinimumClasses violations
              then "Added " +:+ courseId bestAddition +:+ " despite "
                   +:+ String.concat ", " (reasons violations)
              else "Added optional class " +:+ courseId bestAddition in
            greedyLoop turns' preferences mustAttendClasses bestSelection'
              bestNewScore (reasoning ++ [line]) remainingOptional'
          else (bestSelection, bestScore, reasoning)
      | (None, _) => (bestSelection, bestScore, reasoning)
      end
  | _, _ => (bestSelection, bestScore, reasoning)
  end.

Definition optimizeClassSelection (allDayClasses : list ClassTime)
    (mustAttendClasses : list string) (preferences : UserPreferences)
    : Optimization :=
  let mustAttend :=
    List.filter (fun c => JS.includes mustAttendClasses (courseId c)) allDayClasses in
  let optional :=
    List.filter (fun c => negb (JS.includes mustAttendClasses (courseId c)))
      allDayClasses in
  (* always include must-attend classes *)
  let bestSelection := mustAttend in
  let bestScore := calculateDayScore bestSelection preferences mustAttendClasses in
  let reasoning := ["Including " +:+ showCount mustAttend +:+ " required classes"] in
  let remainingOptional := optional in
  let '(bestSelection, bestScore, reasoning) :=
    greedyLoop (length remainingOptional) preferences mustAttendClasses
      bestSelection bestScore reasoning remainingOptional in
  let skippedClasses :=
    List.filter (fun c =>
              negb (existsb (fun selected => String.eqb (courseId selected) (courseId c))
                      bestSelection))
      allDayClasses in
  let reasoning :=
    match skippedClasses with
    | [] => reasoning
    | _ :: _ =>
        reasoning ++
        ["Skipping " +:+ showCount skippedClasses +:+ " classes: "
         +:+ String.concat ", " (map courseId skippedClasses)]
    end in
  mkOptimization bestSelection skippedClasses bestScore reasoning.

Definition clamp100 (c : Z) : Z := Z.max 0 (Z.min 100 c).

Definition shouldGoToCollege (dayClasses : list ClassTime)
    (mustAttendClasses : list string) (preferences : UserPreferences)
    : Decision :=
  match dayClasses with
  | [] => mkDecision false 100 ["No classes scheduled"]
  | _ :: _ =>
      let mustAttendCount :=
        List.filter (fun c => JS.includes mustAttendClasses (courseId c)) dayClasses in
      match mustAttendCount with
      | _ :: _ =>
          (* must go if there are required classes *)
          mkDecision true 100
            [showCount mustAttendCount
             +:+ " required classes to maintain attendance"]
      | [] =>
          let optimized :=
            optimizeClassSelection dayClasses mustAttendClasses preferences in
          let violations :=
            violatesPreferences (selectedClasses optimized) preferences in
          let shouldGo := true in
          let confidence := 70 in
          let reasoning := [] in
          (* minimum classes threshold *)
          let belowMinimum :=
            Z.of_nat (length (selectedClasses optimized))
            <? minimumClassesPerDay preferences in
          let shouldGo := if belowMinimum then false else shouldGo in
          let confidence := if belowMinimum then 80 else confidence in
          let reasoning :=
            if belowMinimum
            then reasoning ++
                 ["Only " +:+ showCount (selectedClasses optimized)
                  +:+ " classes, below minimum of "
                  +:+ showNumber (inject_Z (minimumClassesPerDay preferences))]
            else reasoning in
          (* gap violations *)
          let shouldGo := if violatesGapLimit violations then false else shouldGo in
          let confidence := if violatesGapLimit violations then 85 else confidence in
          let reasoning :=
            if violatesGapLimit violations
            then reasoning ++
                 ["Time gaps too large: "
                  +:+ String.concat ", " (reasons violations)]
            else reasoning in
          (* travel time, 4 hours in total *)
          let totalCollegeTime := calculateDayDuration (selectedClasses optimized) in
          let confidence :=
            if totalCollegeTime <? 240 then confidence - 20 else confidence in
          let reasoning :=
            if totalCollegeTime <? 240
            then reasoning ++
                 ["Only " +:+ showNumber (hoursShown totalCollegeTime)
                  +:+ " hours at college vs 4 hours travel time"]
            else reasoning in
          let reasoning :=
            if shouldGo &&
               (violatesGapLimit violations || violatesMinimumClasses violations)
            then reasoning ++
                 ["Going anyway due to attendance requirements or priority courses"]
            else reasoning in
          mkDecision shouldGo (clamp100 confidence) reasoning
      end
  end.

End Messages.

End ScheduleOptimizer.

(** ** lib/dataManager.ts *)

Record DataManager : Type := mkDataManager {
  courses : list Course;
  weeklySchedule : gmap string (list ClassTime);
  scheduleOverrides : list ScheduleOverride;
  attendanceRecords : list AttendanceRecord;
  preferences : UserPreferences
}.

(** Methods of the data manager and of the engine that holds it read and
    write its fields: they are computations over the [DataManager]. *)
Definition DM (A : Type) : Type := DataManager -> A * DataManager.

Definition ret {A : Type} (a : A) : DM A := fun dm => (a, dm).

Definition bind {A B : Type} (c : DM A) (k : A -> DM B) : DM B :=
  fun dm => let '(a, dm') := c dm in k a dm'.

Definition reads {A : Type} (f : DataManager -> A) : DM A := fun dm => (f dm, dm).

Definition writes (f : DataManager -> DataManager) : DM unit := fun dm => (tt, f dm).

Notation "'let*' x ':=' c 'in' k" := (bind c (fun x => k))
  (at level 10, x name, c at level 99, k at level 200).

(** [list.forEach] with a body that updates [acc]. *)
Fixpoint forEach {A B : Type} (l : list A) (body : B -> A -> DM B) (acc : B) : DM B :=
  match l with
  | [] => ret acc
  | x :: rest => let* acc' := body acc x in forEach rest body acc'
  end.

Definition result {A : Type} (c : DM A) (dm : DataManager) : A := fst (c dm).

Definition after {A : Type} (c : DM A) (dm : DataManager) : DataManager := snd (c dm).

(** [String.prototype.toLowerCase] on ASCII text. *)
Definition toLowerAscii (c : ascii) : ascii :=
  let n := nat_of_ascii c in
  if ((65 <=? n) && (n <=? 90))%nat then ascii_of_nat (n + 32) else c.

Fixpoint toLowerCase (s : string) : string :=
  match s with
  | EmptyString => EmptyString
  | String c r => String (toLowerAscii c) (toLowerCase r)
  end.

Definition withCourses (f : list Course -> list Course) (dm : DataManager) : DataManager :=
  mkDataManager (f (courses dm)) (weeklySchedule dm) (scheduleOverrides dm)
    (attendanceRecords dm) (preferences dm).

Module DataManagerMethods.

(** [this.courses[existingIndex] = course], or [push] when there is none. *)
Fixpoint replaceOrPush (course : Course) (cs : list Course) : list Course :=
  match cs with
  | [] => [course]
  | c :: rest =>
      if String.eqb (id c) (id course) then course :: rest
      else c :: replaceOrPush course rest
  end.

Definition addCourse (course : Course) : DM unit :=
  writes (withCourses (replaceOrPush course)).

Definition getCourse (wanted : string) : DM (option Course) :=
  reads (fun dm => AttendanceCalculator.findCourse (courses dm) wanted).

Definition getAllCourses : DM (list Course) := reads courses.

(** The course [getCourse] finds is the stored object: assigning its
    fields changes the first course with that id. *)
Fixpoint assignFirst (wanted : string) (f : Course -> Course) (cs : list Course)
    : list Course :=
  match cs with
  | [] => []
  | c :: rest =>
      if String.eqb (id c) wanted then f c :: rest
      else c :: assignFirst wanted f rest
  end.

Definition updateCourseAttendance (wanted : string) (attended total cancelled : Z)
    : DM bool :=
  let* course := getCourse wanted in
  match course with
  | None => ret false
  | Some _ =>
      let* _ := writes (withCourses (assignFirst wanted (fun c =>
             mkCourse (id c) (name c) (requiredAttendancePercentage c)
               total attended cancelled))) in
      ret true
  end.

Definition addScheduleOverride (override : ScheduleOverride) : DM unit :=
  writes (fun dm =>
    mkDataManager (courses dm) (weeklySchedule dm)
      (List.filter (fun o => negb (String.eqb (date o) (date override)))
         (scheduleOverrides dm) ++ [override])
      (attendanceRecords dm) (preferences dm)).

(** [[...(this.weeklySchedule[day.toLowerCase()] || [])]] for a key that
    is the object's own or absent; a stored array, even an empty one, is
    truthy. *)
Definition getDaySchedule (day : string) : DM (list ClassTime) :=
  reads (fun dm => default [] (weeklySchedule dm !! toLowerCase day)).

Definition getScheduleOverride (wanted : string) : DM (option ScheduleOverride) :=
  reads (fun dm =>
    List.find (fun o => String.eqb (date o) wanted) (scheduleOverrides dm)).

Definition getPreferences : DM UserPreferences := reads preferences.

Definition withOverrides (f : list ScheduleOverride -> list ScheduleOverride)
    (dm : DataManager) : DataManager :=
  mkDataManager (courses dm) (weeklySchedule dm) (f (scheduleOverrides dm))
    (attendanceRecords dm) (preferences dm).

Definition removeScheduleOverride (wanted : string) : DM bool :=
  let* initialLength := reads (fun dm => length (scheduleOverrides dm)) in
  let* _ := writes (withOverrides
                      (List.filter (fun o => negb (String.eqb (date o) wanted)))) in
  let* finalLength := reads (fun dm => length (scheduleOverrides dm)) in
  ret (finalLength <? initialLength)%nat.

Definition setWeeklySchedule (schedule : gmap string (list ClassTime)) : DM unit :=
  writes (fun dm =>
    mkDataManager (courses dm) schedule (scheduleOverrides dm)
      (attendanceRecords dm) (preferences dm)).

Definition addDayToSchedule (day : string) (dayClasses : list ClassTime) : DM unit :=
  writes (fun dm =>
    mkDataManager (courses dm) (<[toLowerCase day := dayClasses]> (weeklySchedule dm))
      (scheduleOverrides dm) (attendanceRecords dm) (preferences dm)).

(** An optional string argument that is given and not empty. *)
Definition given (argument : option string) : bool :=
  match argument with
  | Some EmptyString | None => false
  | Some _ => true
  end.

(** [r.cancelled], which may be left out of a record. *)
Definition isCancelled (r : AttendanceRecord) : bool :=
  match cancelled r with
  | Some true => true
  | _ => false
  end.

(** [getAttendanceRecords(courseId?, startDate?, endDate?)] on the stored
    records; dates compare as strings. *)
Definition selectRecords (records : list AttendanceRecord)
    (wantedCourse startDate endDate : option string) : list AttendanceRecord :=
  let records :=
    if given wantedCourse
    then List.filter
           (fun r => String.eqb (record_courseId r) (default "" wantedCourse)) records
    else records in
  let records :=
    if given startDate
    then List.filter (fun r => String.leb (default "" startDate) (record_date r)) records
    else records in
  let records :=
    if given endDate
    then List.filter (fun r => String.leb (record_date r) (default "" endDate)) records
    else records in
  records.

Definition getAttendanceRecords (wantedCourse startDate endDate : option string)
    : DM (list AttendanceRecord) :=
  reads (fun dm => selectRecords (attendanceRecords dm) wantedCourse startDate endDate).

(** The assignments of [updateCourseFromAttendanceRecords] to one course. *)
Definition recount (records : list AttendanceRecord) (course : Course) : Course :=
  let mine := selectRecords records (Some (id course)) None None in
  let attendedCount :=
    Z.of_nat (length (List.filter (fun r => attended r && negb (isCancelled r)) mine)) in
  let cancelledCount := Z.of_nat (length (List.filter isCancelled mine)) in
  mkCourse (id course) (name course) (requiredAttendancePercentage course)
    (totalClassesScheduled course) attendedCount cancelledCount.

Definition updateCourseFromAttendanceRecords : DM unit :=
  writes (fun dm => withCourses (map (recount (attendanceRecords dm))) dm).

Definition sameClass (a b : AttendanceRecord) : bool :=
  String.eqb (record_date a) (record_date b)
  && String.eqb (record_courseId a) (record_courseId b).

Definition addAttendanceRecord (record : AttendanceRecord) : DM unit :=
  (* the record replaces the one for the same date and course *)
  let* _ := writes (fun dm =>
              mkDataManager (courses dm) (weeklySchedule dm) (scheduleOverrides dm)
                (List.filter (fun r => negb (sameClass r record)) (attendanceRecords dm)
                 ++ [record])
                (preferences dm)) in
  updateCourseFromAttendanceRecords.

Definition markClassCancelled (day wanted : string) (why : option string) : DM unit :=
  addAttendanceRecord
    (mkAttendanceRecord day wanted false (Some true)
       (Some (if given why then default "" why else "Class cancelled"))).

(** The argument of [importData]: every field may be left out. *)
Record ImportData : Type := mkImportData {
  import_courses : option (list Course);
  import_weeklySchedule : option (gmap string (list ClassTime));
  import_scheduleOverrides : option (list ScheduleOverride);
  import_attendanceRecords : option (list AttendanceRecord);
  import_preferences : option UserPreferences
}.

(** [exportData] returns the five fields, which is a [DataManager] record. *)
Definition exportData : DM DataManager := reads (fun dm => dm).

Definition importData (data : ImportData) : DM unit :=
  writes (fun dm =>
    mkDataManager
      (default (courses dm) (import_courses data))
      (default (weeklySchedule dm) (import_weeklySchedule data))
      (default (scheduleOverrides dm) (import_scheduleOverrides data))
      (default (attendanceRecords dm) (import_attendanceRecords data))
      (default (preferences dm) (import_preferences data))).

Definition emptyManager : DataManager :=
  mkDataManager [] ∅ [] [] (mkUserPreferences true 180 [] 2).

Definition clearAllData : DM unit := writes (fun _ => emptyManager).

Section Calendar.

(** [new Date(dateString).getDay()], for a valid ISO date. *)
Variable getDay : string -> nat.

(** The dates [d.toISOString().split('T')[0]] for [d] from [startDate]
    to [endDate], one day apart. *)
Variable datesBetween : string -> string -> list string.

Definition days : list string :=
  ["sunday"; "monday"; "tuesday"; "wednesday"; "thursday"; "friday"; "saturday"].

Definition getDayOfWeek (dateString : string) : string :=
  nth (getDay dateString) days "".

Definition getScheduleForDate (wanted : string) : DM (list ClassTime) :=
  (* check for an override first *)
  let* override := getScheduleOverride wanted in
  match override with
  | Some o => ret (classes o)
  | None =>
      (* fall back to the weekly schedule *)
      let dayOfWeek := getDayOfWeek wanted in
      getDaySchedule dayOfWeek
  end.

Definition getUpcomingSchedule (startDate endDate : string)
    : DM (list ScheduleOverride) :=
  forEach (datesBetween startDate endDate)
    (fun upcoming dateStr =>
       let* schedule := getScheduleForDate dateStr in
       match schedule with
       | [] => ret upcoming
       | _ :: _ =>
           ret (upcoming ++ [mkScheduleOverride dateStr schedule (Some "scheduled")])
       end)
    [].

End Calendar.

End DataManagerMethods.

(** ** lib/collegeDecisionEngine.ts *)

(** An entry of the object [simulateAttendanceDecision] returns. *)
Record Simulated : Type := mkSimulated {
  newPercentage : JS.number;
  impact : string
}.

Module CollegeDecisionEngine.

Import DataManagerMethods.

(** [calculateAttendanceImpact]: the remaining classes of every course,
    then the impact of the day. *)
Definition calculateAttendanceImpact (scheduledClasses : list ClassTime)
    (context : DecisionContext) : list (string * Impact) :=
  let remainingClassCounts : gmap string Z :=
    fold_left
      (fun counts course =>
         let remaining :=
           Z.max 0 (totalClassesScheduled course
                    - (classesAttended course + classesCancelled course)) in
         <[id course := remaining]> counts)
      (context_courses context) ∅ in
  AttendanceCalculator.calculateDayImpact (context_courses context)
    scheduledClasses remainingClassCounts.

(** The test of [findMustAttendClasses] on one course. *)
Definition mustAttendCourse (course : Course) : bool :=
  let status := AttendanceCalculator.calculateAttendanceStatus course in
  JS.ltb (currentPercentage status) (requiredAttendancePercentage course)
  || (canSkip status =? 0)
  || isAtRisk status.

Definition findMustAttendClasses (context : DecisionContext) : list string :=
  fold_left
    (fun mustAttend classTime =>
       match AttendanceCalculator.findCourse (context_courses context)
               (courseId classTime) with
       | None => mustAttend
       | Some course =>
           if mustAttendCourse course
           then mustAttend ++ [courseId classTime]
           else mustAttend
       end)
    (daySchedule context) [].

Definition calculateConfidenceScore (analysis : DayAnalysis) : Z :=
  if negb (shouldGo analysis) && (length (scheduledClasses analysis) =? 0)%nat
  then 100 (* very confident when no classes *)
  else if shouldGo analysis && (length (recommendedClasses analysis) =? 0)%nat
  then 20 (* should go but no classes recommended *)
  else
    let confidence := 70 in
    (* must-attend classes *)
    let mustAttendCount :=
      ScheduleOptimizer.countWhere isRequired (map snd (attendanceImpact analysis)) in
    let confidence := confidence + mustAttendCount * 10 in
    (* large gaps *)
    let maxGap := ScheduleOptimizer.maxGapOf (timeGaps analysis) in
    let confidence := if 180 <? maxGap then confidence - 15 else confidence in
    (* travel efficiency *)
    let confidence :=
      if (0 <? length (recommendedClasses analysis))%nat then
        let totalTime :=
          ScheduleOptimizer.calculateDayDuration
            (List.filter (fun c => JS.includes (recommendedClasses analysis) (courseId c))
               (scheduledClasses analysis)) in
        let efficiency := (inject_Z totalTime / 240)%Q in
        if JS.ltb efficiency (5 # 10) then confidence - 20
        else if JS.gtb efficiency (15 # 10) then confidence + 10
        else confidence
      else confidence in
    Z.max 0 (Z.min 100 (JS.round (inject_Z confidence))).

(** A row of [getCourseSummary]. *)
Record CourseSummary : Type := mkCourseSummary {
  summary_courseId : string;
  summary_name : string;
  attendancePercentage : Q;
  summary_status : string;
  classesCanSkip : Z;
  classesNeeded : Z
}.

Definition getAttendanceStatusSummary : DM (list AttendanceStatus) :=
  let* courses := getAllCourses in
  ret (AttendanceCalculator.getAttendanceSummary courses).

Definition getCourseSummary : DM (list CourseSummary) :=
  let* statuses := getAttendanceStatusSummary in
  ret (map (fun status =>
              mkCourseSummary (status_courseId status) (courseName status)
                (currentPercentage status)
                (if isAtRisk status then "critical"
                 else if JS.ltb (currentPercentage status) 80 then "warning"
                 else "safe")
                (canSkip status) (classesNeededFor75Percent status))
         statuses).

(** The body of the [forEach] of [simulateAttendanceDecision]. *)
Definition simulateClass (attendedCourseIds : list string)
    (result : gmap string Simulated) (classTime : ClassTime)
    : DM (gmap string Simulated) :=
  let* course := getCourse (courseId classTime) in
  match course with
  | None => ret result
  | Some course =>
      let attended := JS.includes attendedCourseIds (courseId classTime) in
      let newAttended := classesAttended course + (if attended then 1 else 0) in
      let newTotal := totalClassesScheduled course - classesCancelled course + 1 in
      let newPercentage := JS.times100 (JS.div newAttended newTotal) in
      let impact :=
        if JS.num_ltb newPercentage (requiredAttendancePercentage course)
        then "critical"
        else if JS.num_ltb newPercentage
                  (JS.fl (requiredAttendancePercentage course + 5))
        then "warning"
        else "safe" in
      ret (<[courseId classTime := mkSimulated (JS.num_round2 newPercentage) impact]>
             result)
  end.

Section Engine.

Variable getDay : string -> nat.
Variable datesBetween : string -> string -> list string.

(** The date 30 days after a date, as [toISOString().split('T')[0]]. *)
Variable thirtyDaysAfter : string -> string.

(** [new Date().toISOString().split('T')[0]] *)
Variable today : string.

Variable showNumber : Q -> string.

Definition buildDecisionContext (date : string) : DM DecisionContext :=
  let* courses := getAllCourses in
  let* daySchedule := getScheduleForDate getDay date in
  let attendanceStatuses := AttendanceCalculator.getAttendanceSummary courses in
  let* preferences := getPreferences in
  (* look 30 days ahead *)
  let endDate := thirtyDaysAfter date in
  let* upcomingSchedule :=
    getUpcomingSchedule getDay datesBetween date endDate in
  ret (mkDecisionContext date courses daySchedule attendanceStatuses preferences
         upcomingSchedule).

Definition buildReasoning (decision : ScheduleOptimizer.Decision)
    (optimization : ScheduleOptimizer.Optimization)
    (attendanceImpact : list (string * Impact)) (context : DecisionContext)
    : list string :=
  (* the main decision reasoning *)
  let reasoning := ScheduleOptimizer.decision_reasoning decision in
  (* attendance-specific reasoning *)
  let criticalCourses :=
    map fst (List.filter (fun entry => isRequired (snd entry)) attendanceImpact) in
  let reasoning :=
    match criticalCourses with
    | [] => reasoning
    | _ :: _ =>
        let courseNames :=
          map (fun courseId =>
                 match AttendanceCalculator.findCourse (context_courses context)
                         courseId with
                 | Some course => name course
                 | None => courseId
                 end)
            criticalCourses in
        reasoning ++ ["Critical attendance: " +:+ String.concat ", " courseNames]
    end in
  (* optimization reasoning *)
  let reasoning := reasoning ++ ScheduleOptimizer.opt_reasoning optimization in
  (* travel time consideration *)
  match ScheduleOptimizer.selectedClasses optimization with
  | [] => reasoning
  | _ :: _ =>
      let totalTime :=
        ScheduleOptimizer.calculateDayDuration
          (ScheduleOptimizer.selectedClasses optimization) in
      let efficiency := (inject_Z totalTime / 240)%Q in
      if JS.ltb efficiency 1
      then reasoning ++
           ["Low efficiency: " +:+ showNumber (ScheduleOptimizer.hoursShown totalTime)
            +:+ "h at college vs 4h travel"]
      else reasoning ++
           ["Good efficiency: " +:+ showNumber (ScheduleOptimizer.hoursShown totalTime)
            +:+ "h at college for 4h travel"]
  end.

Definition analyzeDay (date : string) : DM DayAnalysis :=
  let* context := buildDecisionContext date in
  (* the schedule for this specific date *)
  let* scheduledClasses := getScheduleForDate getDay date in
  match scheduledClasses with
  | [] =>
      ret (mkDayAnalysis date [] false [] ["No classes scheduled for this day"]
             [] [])
  | _ :: _ =>
      let attendanceImpact := calculateAttendanceImpact scheduledClasses context in
      let mustAttendClasses := findMustAttendClasses context in
      let optimization :=
        ScheduleOptimizer.optimizeClassSelection showNumber scheduledClasses
          mustAttendClasses (context_preferences context) in
      let decision :=
        ScheduleOptimizer.shouldGoToCollege showNumber scheduledClasses
          mustAttendClasses (context_preferences context) in
      let timeGaps :=
        ScheduleOptimizer.calculateTimeGaps
          (ScheduleOptimizer.selectedClasses optimization) in
      let reasoning := buildReasoning decision optimization attendanceImpact context in
      ret (mkDayAnalysis date scheduledClasses (ScheduleOptimizer.decision_shouldGo decision)
             (map courseId (ScheduleOptimizer.selectedClasses optimization))
             reasoning timeGaps attendanceImpact)
  end.

(** The three fields [shouldGoToday] returns. *)
Definition shouldGoToday : DM (bool * Z * string) :=
  let* analysis := analyzeDay today in
  let summary :=
    if shouldGo analysis
    then "Yes, go to college. " +:+ showNumber
           (inject_Z (Z.of_nat (length (recommendedClasses analysis))))
         +:+ " classes recommended."
    else "No, stay home. "
         +:+ match reasoning analysis with
             | first :: _ =>
                 if String.eqb first "" then "Not worth the 4-hour travel time."
                 else first
             | [] => "Not worth the 4-hour travel time."
             end
         +:+ "." in
  ret (shouldGo analysis, calculateConfidenceScore analysis, summary).

Definition simulateAttendanceDecision (date : string)
    (attendedCourseIds : list string) : DM (gmap string Simulated) :=
  let* dayClasses := getScheduleForDate getDay date in
  forEach dayClasses (simulateClass attendedCourseIds) ∅.

End Engine.

End CollegeDecisionEngine.


(** ** The specification's wording, as definitions *)

Module Spec.

Import ScheduleOptimizer.

(** "for each adjacent pair": a list paired with its own tail. *)
Definition adjacentPairs {A : Type} (l : list A) : list (A * A) :=
  combine l (tl l).

(** "a gap entry {start = current.end, end = next.start, duration =
    next.start - current.end in minutes} exactly when next.start is
    strictly after current.end". *)
Definition reportedGaps (sortedSlots : list ClassTime) : list TimeGap :=
  map (fun pair =>
         mkTimeGap (endTime (fst pair)) (startTime (snd pair))
           (timeToMinutes (startTime (snd pair)) - timeToMinutes (endTime (fst pair))))
    (List.filter (fun pair =>
               timeToMinutes (endTime (fst pair)) <? timeToMinutes (startTime (snd pair)))
       (adjacentPairs sortedSlots)).

(** "sorted by start time ascending". *)
Definition startsNoLater (a b : ClassTime) : Prop :=
  timeToMinutes (startTime a) <= timeToMinutes (startTime b).

Definition startMinutes (c : ClassTime) : Z := timeToMinutes (startTime c).

(** Two slots with the same start and end time. *)
Definition sameTimes (a b : ClassTime) : bool :=
  String.eqb (startTime a) (startTime b) && String.eqb (endTime a) (endTime b).

Definition alike (a b : ClassTime) : Prop := sameTimes a b = true.

(** Slots of the list that start at the same minute have the same start
    and end time. *)
Definition tiesAgree (slots : list ClassTime) : bool :=
  forallb (fun a =>
             forallb (fun b =>
                        implb (startMinutes a =? startMinutes b) (sameTimes a b))
               slots)
    slots.

(** The gaps "of the selection sorted by time". *)
Definition gapsOf (selection : list ClassTime) : list TimeGap :=
  reportedGaps (JS.sort byStartTime selection).

Definition sumOfDurations (gaps : list TimeGap) : Z :=
  fold_right Z.add 0 (map duration gaps).

(** The largest gap duration, 0 when there is no gap. *)
Definition largestGap (gaps : list TimeGap) : Z :=
  fold_right Z.max 0 (map duration gaps).

(** |selection ∩ ids|: the classes of the selection whose course is in [ids]. *)
Definition countIn (ids : list string) (selection : list ClassTime) : Z :=
  Z.of_nat (length (List.filter (fun c => JS.includes ids (courseId c)) selection)).

(** The score formula of the specification, term by term, on exact
    fractions. *)
Definition score (selection : list ClassTime) (preferences : UserPreferences)
    (mustAttend : list string) : Q :=
  (10 * inject_Z (Z.of_nat (length selection))
   + 20 * inject_Z (countIn mustAttend selection)
   - inject_Z (sumOfDurations (gapsOf selection)) / 60
   - (if maxGapBetweenClasses preferences <? largestGap (gapsOf selection)
      then 50 else 0)
   - (if Z.of_nat (length selection) <? minimumClassesPerDay preferences
      then 30 else 0)
   + 5 * inject_Z (countIn (priorityCourses preferences) selection))%Q.

(** The score formula evaluated on doubles in the order of the source: the
    counts are integers; the division by 60 and every step after it give
    the nearest double, as does the final rounding to one decimal. *)
Definition scoreInDoubles (selection : list ClassTime) (preferences : UserPreferences)
    (mustAttend : list string) : Q :=
  let counted :=
    (10 * inject_Z (Z.of_nat (length selection))
     + 20 * inject_Z (countIn mustAttend selection))%Q in
  let lessGaps :=
    JS.fl (counted - JS.fl (inject_Z (sumOfDurations (gapsOf selection)) / 60)) in
  let lessGapLimit :=
    if maxGapBetweenClasses preferences <? largestGap (gapsOf selection)
    then JS.fl (lessGaps - 50) else lessGaps in
  let lessMinimum :=
    if Z.of_nat (length selection) <? minimumClassesPerDay preferences
    then JS.fl (lessGapLimit - 30) else lessGapLimit in
  JS.round1
    (JS.fl (lessMinimum + 5 * inject_Z (countIn (priorityCourses preferences) selection))).

(** "clamped to [0, 100]". *)
Definition clamp (c : Z) : Z :=
  if c <? 0 then 0 else if 100 <? c then 100 else c.

(** "minus 20 if the ratio of on-campus time to the travel-time budget is
    below 0.5 and plus 10 if it is above 1.5"; the budget is 240 minutes. *)
Definition efficiencyAdjustment (onCampusMinutes : Z) : Z :=
  let ratio := (inject_Z onCampusMinutes / 240)%Q in
  if Qlt_le_dec ratio (1 # 2) then -20
  else if Qlt_le_dec (3 # 2) ratio then 10
  else 0.

(** The on-campus time of an analysis: the span of its recommended classes. *)
Definition onCampusMinutes (analysis : DayAnalysis) : Z :=
  calculateDayDuration
    (List.filter (fun c => JS.includes (recommendedClasses analysis) (courseId c))
       (scheduledClasses analysis)).

(** "must-attend classes found": the entries of the attendance impact
    flagged as required. *)
Definition requiredFound (analysis : DayAnalysis) : Z :=
  Z.of_nat (length (List.filter (fun entry => isRequired (snd entry))
                      (attendanceImpact analysis))).

(** The confidence score in the specification's words.  With
    [onlyWhenRecommended] the efficiency adjustment is made only for an
    analysis that recommends at least one class. *)
Definition confidenceScore (onlyWhenRecommended : bool) (analysis : DayAnalysis) : Z :=
  let derived :=
    clamp (70
           + 10 * requiredFound analysis
           - (if 180 <? largestGap (timeGaps analysis) then 15 else 0)
           + (match recommendedClasses analysis with
              | [] => if onlyWhenRecommended then 0
                      else efficiencyAdjustment (onCampusMinutes analysis)
              | _ :: _ => efficiencyAdjustment (onCampusMinutes analysis)
              end)) in
  if shouldGo analysis then
    match recommendedClasses analysis with
    | [] => 20
    | _ :: _ => derived
    end
  else
    match scheduledClasses analysis with
    | [] => 100
    | _ :: _ => derived
    end.

(** "critical when below requiredAttendancePercentage, warning when below
    requiredAttendancePercentage + 5, and safe otherwise"; the sum is the
    double the addition gives. *)
Definition classify (percentage : JS.number) (required : Q) : string :=
  if JS.num_ltb percentage required then "critical"
  else if JS.num_ltb percentage (JS.fl (required + 5)) then "warning"
  else "safe".

(** The same classification of an exact percentage against the exact
    thresholds. *)
Definition classifyExactly (percentage required : Q) : string :=
  if JS.ltb percentage required then "critical"
  else if JS.ltb percentage (required + 5) then "warning"
  else "safe".

(** The percentage is farther than 10^-9 from the threshold. *)
Definition clearOf (percentage threshold : Q) : Prop :=
  (1 # 1000000000 < Qabs (percentage - threshold))%Q.

(** "(classesAttended + 1 if the course id is in attendedCourseIds, else
    classesAttended) / (heldClasses + 1) x 100" as the exact fraction. *)
Definition exactHypotheticalPercentage (course : Course) (attends : bool) : Q :=
  (inject_Z (if attends then classesAttended course + 1 else classesAttended course)
   / inject_Z ((totalClassesScheduled course - classesCancelled course) + 1)
   * 100)%Q.

(** "(classesAttended + 1 if the course id is in attendedCourseIds, else
    classesAttended) / (heldClasses + 1) x 100" as the doubles the division
    and the product give. *)
Definition hypotheticalPercentage (course : Course) (attends : bool) : JS.number :=
  JS.times100
    (JS.div (if attends then classesAttended course + 1 else classesAttended course)
       ((totalClassesScheduled course - classesCancelled course) + 1)).

(** The entry the loop writes for a class of course [wanted]. *)
Definition simulatedEntry (dm : DataManager) (attendedCourseIds : list string)
    (wanted : string) : option Simulated :=
  match AttendanceCalculator.findCourse (courses dm) wanted with
  | None => None
  | Some course =>
      let percentage :=
        hypotheticalPercentage course (JS.includes attendedCourseIds wanted) in
      Some (mkSimulated (JS.num_round2 percentage)
              (classify percentage (requiredAttendancePercentage course)))
  end.

Definition writeEntry (dm : DataManager) (attendedCourseIds : list string)
    (entries : gmap string Simulated) (classTime : ClassTime) : gmap string Simulated :=
  match simulatedEntry dm attendedCourseIds (courseId classTime) with
  | None => entries
  | Some entry => <[courseId classTime := entry]> entries
  end.

(** "heldClasses = totalClassesScheduled - classesCancelled". *)
Definition heldClasses (course : Course) : Z :=
  totalClassesScheduled course - classesCancelled course.

(** "classesAttended / heldClasses x 100" as the exact fraction. *)
Definition exactPercentage (course : Course) : Q :=
  (inject_Z (classesAttended course) / inject_Z (heldClasses course) * 100)%Q.

(** "classesAttended / heldClasses x 100" as the doubles the division and
    the product give. *)
Definition percentageInDoubles (course : Course) : Q :=
  JS.fl (JS.fl (inject_Z (classesAttended course) / inject_Z (heldClasses course)) * 100).

(** The must-attend test on a course's status. *)
Definition needsAttendance (course : Course) (status : AttendanceStatus) : Prop :=
  (currentPercentage status < requiredAttendancePercentage course)%Q
  \/ canSkip status = 0
  \/ isAtRisk status = true.

End Spec.

(** A computation that leaves the data manager as it found it. *)
Definition readOnly {A : Type} (c : DM A) : Prop :=
  forall dm : DataManager, after c dm = dm.

(** ** Data for the scenarios *)

Module Fixtures.

Definition saturday (_ : string) : nat := 6%nat.
Definition noDates (_ _ : string) : list string := [].
Definition sameDate (d : string) : string := d.
Definition plain (_ : Q) : string := "".

Definition slot (startTime endTime courseId : string) : ClassTime :=
  mkClassTime startTime endTime courseId None.

Definition twoRequired : UserPreferences := mkUserPreferences true 180 [] 2.

Definition oneOfThree : Course := mkCourse "CS101" "Computer Science" 75 3 1 0.

Definition nothingHeld : Course := mkCourse "CS101" "Computer Science" 0 4 0 4.

Definition cs101 : Course := mkCourse "CS101" "Computer Science" 75 40 35 0.
Definition math201 : Course := mkCourse "MATH201" "Mathematics" 75 40 28 0.

(** A course that requires 58%, with 28 of 49 held classes attended. *)
Definition physics : Course := mkCourse "PHY101" "Physics" 58 49 28 0.

Definition morning : ClassTime := mkClassTime "09:00" "10:30" "CS101" None.
Definition noon : ClassTime := mkClassTime "11:00" "12:30" "MATH201" None.

(** A Saturday template of one class, a holiday on 2024-01-20 and a
    rescheduled day on 2024-01-27; two classes a day are the minimum. *)
Definition manager : DataManager :=
  mkDataManager [cs101; math201]
    {[ "saturday" := [morning] ]}
    [mkScheduleOverride "2024-01-20" [] (Some "holiday");
     mkScheduleOverride "2024-01-27" [morning; noon] (Some "rescheduled")]
    []
    (mkUserPreferences true 180 [] 2).

(** The physics course alone, with a class every Saturday. *)
Definition physicsManager : DataManager :=
  mkDataManager [physics]
    {[ "saturday" := [mkClassTime "09:00" "10:30" "PHY101" None] ]}
    [] [] (mkUserPreferences true 180 [] 2).

End Fixtures.

(** ** Notions the further properties are stated with *)

Module Props.

Import AttendanceCalculator ScheduleOptimizer DataManagerMethods.

(** The three lists of a strategy, one after the other. *)
Definition listed (strategy : Strategy) : list string :=
  strategy_mustAttend strategy ++ strategy_canSkip strategy
  ++ strategy_recommended strategy.

(** The class belongs to a course of the roster. *)
Definition inRoster (courses : list Course) (classTime : ClassTime) : bool :=
  match findCourse courses (courseId classTime) with
  | Some _ => true
  | None => false
  end.

(** No character of the text is a colon. *)
Definition colonFree (s : string) : Prop :=
  forall c, In c (list_ascii_of_string s) -> c <> ":"%char.

(** The minutes spent in class: the sum of end - start over the slots. *)
Definition classMinutes (slots : list ClassTime) : Z :=
  fold_right
    (fun c total => timeToMinutes (endTime c) - timeToMinutes (startTime c) + total)
    0 slots.

(** No slot of the list starts before the previous one has ended. *)
Definition noOverlap (sortedSlots : list ClassTime) : bool :=
  forallb
    (fun pair =>
       timeToMinutes (endTime (fst pair)) <=? timeToMinutes (startTime (snd pair)))
    (Spec.adjacentPairs sortedSlots).

(** The records [getAttendanceRecords(courseId)] selects: those of the
    course, or all of them when the id is the empty string. *)
Definition recordsOf (records : list AttendanceRecord) (wanted : string)
    : list AttendanceRecord :=
  if String.eqb wanted ""
  then records
  else List.filter (fun r => String.eqb (record_courseId r) wanted) records.

(** The records that count as attended: attended and not cancelled. *)
Definition attendedIn (records : list AttendanceRecord) : Z :=
  Z.of_nat (length (List.filter (fun r => attended r && negb (isCancelled r)) records)).

Definition cancelledIn (records : list AttendanceRecord) : Z :=
  Z.of_nat (length (List.filter isCancelled records)).

(** An import that carries every field of an export. *)
Definition fullImport (exported : DataManager) : ImportData :=
  mkImportData (Some (courses exported)) (Some (weeklySchedule exported))
    (Some (scheduleOverrides exported)) (Some (attendanceRecords exported))
    (Some (preferences exported)).

(** The course with its three counters assigned. *)
Definition withCounters (course : Course) (attended total cancelled : Z) : Course :=
  mkCourse (id course) (name course) (requiredAttendancePercentage course)
    total attended cancelled.

(** The override is for that date. *)
Definition onDate (wanted : string) (o : ScheduleOverride) : bool :=
  String.eqb (date o) wanted.

(** The records of a course on the days other than [day]. *)
Definition onOtherDays (records : list AttendanceRecord) (wanted day : string)
    : list AttendanceRecord :=
  List.filter
    (fun r => String.eqb (record_courseId r) wanted
              && negb (String.eqb (record_date r) day))
    records.

(** The share (requiredAttendancePercentage / 100) x n of [n] classes comes
    out exact on doubles, as 0.75 x 40 does. *)
Definition shareIsExact (course : Course) (n : Z) : Prop :=
  (JS.fl (JS.fl (requiredAttendancePercentage course / 100) * inject_Z n)
   == requiredAttendancePercentage course / 100 * inject_Z n)%Q.

(** The percentage (attended / total) x 100 comes out exact on doubles, as
    (52 / 64) x 100 does. *)
Definition percentageIsExact (attended total : Z) : Prop :=
  (JS.fl (JS.fl (inject_Z attended / inject_Z total) * 100)
   == inject_Z attended / inject_Z total * 100)%Q.

(** Every character of the text is ASCII. *)
Definition isAscii (s : string) : bool :=
  forallb (fun c => (nat_of_ascii c <? 128)%nat) (list_ascii_of_string s).

(** The lower-case names among the members every object inherits from
    [Object.prototype]. *)
Definition inheritedKeys : list string := ["constructor"; "__proto__"].

(** A day name: ASCII text whose lower-case form names no inherited
    member. *)
Definition dayName (s : string) : Prop :=
  isAscii s = true /\ ~ In (toLowerCase s) inheritedKeys.

Definition hasClasses (schedule : list ClassTime) : bool :=
  match schedule with
  | [] => false
  | _ :: _ => true
  end.

End Props.

(** ** Gaps and day duration *)

Example timeToMinutes_1030 : ScheduleOptimizer.timeToMinutes "10:30" = 630.
Proof. reflexivity. Qed.


Section GapAnalysis.

Import ScheduleOptimizer Spec.

Lemma insert_sorted_Permutation (x : ClassTime) (l : list ClassTime) :
  Permutation (JS.insert_sorted byStartTime x l) (x :: l).
Proof.
  induction l as [|y l IH]; simpl; [reflexivity|].
  destruct (0 <? byStartTime x y); [|reflexivity].
  rewrite IH. apply perm_swap.
Qed.

Lemma sort_Permutation (l : list ClassTime) :
  Permutation (JS.sort byStartTime l) l.
Proof.
  induction l as [|x l IH]; simpl; [reflexivity|].
  rewrite insert_sorted_Permutation. now apply perm_skip.
Qed.

Lemma insert_sorted_Sorted (x : ClassTime) (l : list ClassTime) :
  Sorted startsNoLater l -> Sorted startsNoLater (JS.insert_sorted byStartTime x l).
Proof.
  induction 1 as [|y l Hl IH Hhd]; simpl.
  - repeat constructor.
  - destruct (Z.ltb_spec 0 (byStartTime x y)) as [Hlt|Hge].
    + constructor; [exact IH|].
      destruct Hhd as [|z l Hyz]; simpl.
      * constructor. unfold startsNoLater, byStartTime in *. lia.
      * destruct (0 <? byStartTime x z); constructor;
          unfold startsNoLater, byStartTime in *; lia.
    + constructor; [now constructor|].
      constructor. unfold startsNoLater, byStartTime in *. lia.
Qed.

Lemma sort_Sorted (l : list ClassTime) : Sorted startsNoLater (JS.sort byStartTime l).
Proof.
  induction l as [|x l IH]; simpl; [constructor|].
  now apply insert_sorted_Sorted.
Qed.

Lemma sort_StronglySorted (l : list ClassTime) :
  StronglySorted startsNoLater (JS.sort byStartTime l).
Proof.
  apply Sorted_StronglySorted; [|apply sort_Sorted].
  intros a b c. unfold startsNoLater. lia.
Qed.

Lemma gapsBetween_reportedGaps (l : list ClassTime) :
  gapsBetween l = reportedGaps l.
Proof.
  induction l as [|current rest IH]; [reflexivity|].
  destruct rest as [|next rest']; [reflexivity|].
  change (gapsBetween (current :: next :: rest')) with
    (if 0 <? timeToMinutes (startTime next) - timeToMinutes (endTime current)
     then mkTimeGap (endTime current) (startTime next)
            (timeToMinutes (startTime next) - timeToMinutes (endTime current))
          :: gapsBetween (next :: rest')
     else gapsBetween (next :: rest')).
  rewrite IH. unfold reportedGaps, adjacentPairs. simpl.
  destruct (Z.ltb_spec 0 (timeToMinutes (startTime next) - timeToMinutes (endTime current)));
    destruct (Z.ltb_spec (timeToMinutes (endTime current)) (timeToMinutes (startTime next)));
    try lia; reflexivity.
Qed.

Lemma calculateTimeGaps_gapsOf (l : list ClassTime) :
  calculateTimeGaps l = gapsOf l.
Proof.
  unfold calculateTimeGaps, gapsOf.
  destruct (Z.leb_spec (Z.of_nat (length l)) 1) as [Hshort|Hlong].
  - destruct l as [|a [|b l]]; try reflexivity. simpl in Hshort. lia.
  - apply gapsBetween_reportedGaps.
Qed.

Lemma reportedGaps_positive (l : list ClassTime) :
  Forall (fun g => 0 < duration g) (reportedGaps l).
Proof.
  unfold reportedGaps. apply List.Forall_forall. intros g Hg.
  apply in_map_iff in Hg. destruct Hg as [pair [<- Hpair]].
  apply filter_In in Hpair. destruct Hpair as [_ Hlt].
  apply Z.ltb_lt in Hlt. simpl. lia.
Qed.

Lemma fold_left_max_ge (ds : list Z) (d : Z) : d <= fold_left Z.max ds d.
Proof.
  revert d. induction ds as [|x ds IH]; intros d; simpl; [lia|].
  specialize (IH (Z.max d x)). lia.
Qed.

Lemma fold_left_max_fold_right (ds : list Z) (d : Z) :
  0 <= d -> fold_left Z.max ds d = Z.max d (fold_right Z.max 0 ds).
Proof.
  revert d. induction ds as [|x ds IH]; intros d Hd; simpl; [lia|].
  rewrite IH by lia. lia.
Qed.

Lemma maxGapOf_largestGap (gaps : list TimeGap) :
  Forall (fun g => 0 < duration g) gaps -> maxGapOf gaps = largestGap gaps.
Proof.
  unfold maxGapOf, largestGap.
  destruct 1 as [|g gs Hg Hgs]; [reflexivity|]. simpl.
  rewrite fold_left_max_fold_right by lia. reflexivity.
Qed.

Lemma fold_left_sum (gaps : list TimeGap) (acc : Z) :
  fold_left (fun sum gap => sum + duration gap) gaps acc
  = acc + sumOfDurations gaps.
Proof.
  revert acc. unfold sumOfDurations.
  induction gaps as [|g gs IH]; intros acc; simpl; [lia|].
  rewrite IH. lia.
Qed.

Lemma reportedGaps_short (l : list ClassTime) :
  (length l <= 1)%nat -> reportedGaps l = [].
Proof.
  destruct l as [|a [|b l]]; simpl; try reflexivity; lia.
Qed.

(** Two classes with different start times are inserted in either order
    with the same result. *)
Lemma insert_sorted_comm (x y : ClassTime) (l : list ClassTime) :
  startMinutes x <> startMinutes y ->
  JS.insert_sorted byStartTime x (JS.insert_sorted byStartTime y l)
  = JS.insert_sorted byStartTime y (JS.insert_sorted byStartTime x l).
Proof.
  unfold startMinutes. intros Hxy.
  induction l as [|h t IH]; simpl.
  - destruct (Z.ltb_spec 0 (byStartTime x y)), (Z.ltb_spec 0 (byStartTime y x));
      unfold byStartTime in *; try lia; reflexivity.
  - destruct (Z.ltb_spec 0 (byStartTime y h)), (Z.ltb_spec 0 (byStartTime x h));
      simpl;
      repeat match goal with
             | |- context [0 <? byStartTime ?a ?b] =>
                 destruct (Z.ltb_spec 0 (byStartTime a b))
             end;
      unfold byStartTime in *; try lia; try reflexivity.
    now rewrite IH.
Qed.

Lemma alike_times (a b : ClassTime) :
  alike a b <-> startTime a = startTime b /\ endTime a = endTime b.
Proof.
  unfold alike, sameTimes. now rewrite andb_true_iff, !String.eqb_eq.
Qed.

Lemma alike_refl (a : ClassTime) : alike a a.
Proof. now apply alike_times. Qed.

Lemma alike_sym (a b : ClassTime) : alike a b -> alike b a.
Proof. rewrite !alike_times. intuition congruence. Qed.

Lemma alike_trans (a b c : ClassTime) : alike a b -> alike b c -> alike a c.
Proof. rewrite !alike_times. intuition congruence. Qed.

Lemma Forall2_alike_refl (l : list ClassTime) : Forall2 alike l l.
Proof. induction l; constructor; auto using alike_refl. Qed.

Lemma Forall2_alike_trans (l1 l2 l3 : list ClassTime) :
  Forall2 alike l1 l2 -> Forall2 alike l2 l3 -> Forall2 alike l1 l3.
Proof.
  intros H12. revert l3. induction H12 as [|a b l1 l2 Hab _ IH]; intros l3 H23.
  - inversion H23. constructor.
  - inversion H23 as [|? c ? l3' Hbc H23']; subst. constructor.
    + eapply alike_trans; eassumption.
    + now apply IH.
Qed.

Lemma alike_byStartTime (x x' y y' : ClassTime) :
  alike x x' -> alike y y' -> byStartTime x y = byStartTime x' y'.
Proof.
  rewrite !alike_times. intros [Hx _] [Hy _]. unfold byStartTime. now rewrite Hx, Hy.
Qed.

Lemma insert_sorted_alike (x x' : ClassTime) (l l' : list ClassTime) :
  alike x x' -> Forall2 alike l l' ->
  Forall2 alike (JS.insert_sorted byStartTime x l) (JS.insert_sorted byStartTime x' l').
Proof.
  intros Hx. induction 1 as [|y y' l l' Hy Hl IH]; simpl.
  - constructor; [exact Hx|constructor].
  - rewrite (alike_byStartTime x x' y y' Hx Hy).
    destruct (0 <? byStartTime x' y'); constructor; auto.
Qed.

(** Two slots with the same times are inserted in either order with the
    same times at every position. *)
Lemma insert_sorted_swap_alike (x y : ClassTime) (l : list ClassTime) :
  alike x y ->
  Forall2 alike (JS.insert_sorted byStartTime x (JS.insert_sorted byStartTime y l))
    (JS.insert_sorted byStartTime y (JS.insert_sorted byStartTime x l)).
Proof.
  intros Hxy.
  assert (Hxx : byStartTime x y = 0 /\ byStartTime y x = 0).
  { apply alike_times in Hxy. destruct Hxy as [Hs _].
    unfold byStartTime. rewrite Hs. lia. }
  destruct Hxx as [Hxy0 Hyx0].
  induction l as [|h t IH]; simpl.
  - rewrite Hxy0, Hyx0. simpl.
    repeat constructor; auto using alike_sym.
  - rewrite (alike_byStartTime x y h h Hxy (alike_refl h)).
    destruct (0 <? byStartTime y h) eqn:Hyh; simpl.
    + rewrite Hyh, (alike_byStartTime x y h h Hxy (alike_refl h)), Hyh.
      constructor; [apply alike_refl|exact IH].
    + rewrite Hxy0, Hyx0. simpl.
      constructor; [exact Hxy|]. constructor; [now apply alike_sym|].
      apply Forall2_alike_refl.
Qed.

Lemma tiesAgree_alike (l : list ClassTime) (a b : ClassTime) :
  tiesAgree l = true -> In a l -> In b l ->
  startMinutes a = startMinutes b -> alike a b.
Proof.
  unfold tiesAgree. rewrite forallb_forall. intros Hall Ha Hb Hsame.
  specialize (Hall a Ha). rewrite forallb_forall in Hall.
  specialize (Hall b Hb). apply Z.eqb_eq in Hsame.
  now rewrite Hsame in Hall.
Qed.

Lemma tiesAgree_spec (l : list ClassTime) :
  tiesAgree l = true
  <-> forall a b, In a l -> In b l -> startMinutes a = startMinutes b -> alike a b.
Proof.
  split; [intros H a b; now apply tiesAgree_alike|].
  intros H. unfold tiesAgree. apply forallb_forall. intros a Ha.
  apply forallb_forall. intros b Hb.
  destruct (Z.eqb_spec (startMinutes a) (startMinutes b)) as [Heq|_]; [|reflexivity].
  simpl. now apply H.
Qed.

Lemma sort_Permutation_alike (l l' : list ClassTime) :
  Permutation l l' -> tiesAgree l = true ->
  Forall2 alike (JS.sort byStartTime l) (JS.sort byStartTime l').
Proof.
  rewrite tiesAgree_spec.
  induction 1 as [|x l l' Hp IH|x y l|l l' l'' Hp1 IH1 Hp2 IH2]; intros Hties.
  - constructor.
  - simpl. apply insert_sorted_alike; [apply alike_refl|].
    apply IH. intros a b Ha Hb. apply Hties; now right.
  - simpl.
    destruct (Z.eq_dec (startMinutes y) (startMinutes x)) as [Heq|Hne].
    + apply insert_sorted_swap_alike.
      apply Hties; [now left|right; now left|exact Heq].
    + rewrite (insert_sorted_comm y x _ Hne). apply Forall2_alike_refl.
  - eapply Forall2_alike_trans; [now apply IH1|]. apply IH2.
    intros a b Ha Hb. apply Hties; eapply Permutation_in; try eassumption;
      now apply Permutation_sym.
Qed.

Lemma gapsBetween_alike (l l' : list ClassTime) :
  Forall2 alike l l' -> gapsBetween l = gapsBetween l'.
Proof.
  induction 1 as [|a a' l l' Ha Hl IH]; [reflexivity|].
  destruct Hl as [|b b' l l' Hb Hl]; [reflexivity|].
  apply alike_times in Ha, Hb. destruct Ha as [_ Ha], Hb as [Hb _].
  change (gapsBetween (a :: b :: l)) with
    (if 0 <? timeToMinutes (startTime b) - timeToMinutes (endTime a)
     then mkTimeGap (endTime a) (startTime b)
            (timeToMinutes (startTime b) - timeToMinutes (endTime a))
          :: gapsBetween (b :: l)
     else gapsBetween (b :: l)).
  change (gapsBetween (a' :: b' :: l')) with
    (if 0 <? timeToMinutes (startTime b') - timeToMinutes (endTime a')
     then mkTimeGap (endTime a') (startTime b')
            (timeToMinutes (startTime b') - timeToMinutes (endTime a'))
          :: gapsBetween (b' :: l')
     else gapsBetween (b' :: l')).
  now rewrite IH, Ha, Hb.
Qed.

End GapAnalysis.

Module GapClaims.

Import ScheduleOptimizer Spec Fixtures.

(** C5: [calculateTimeGaps] sorts the slots by start time ascending (the
    sorted list is a permutation of the input, ordered by start minute)
    and its result is the list of gap entries
    {start = current.end, end = next.start, duration = next.start -
    current.end} of the adjacent pairs of the sorted list whose next start
    is strictly after the current end, in order; pairs that overlap or
    touch give no entry.  For 09:00-10:30 and 11:00-12:30 the result is
    the single gap {10:30, 11:00, 30}, and [calculateDayDuration] of the
    two slots is 210 minutes. *)
Theorem C5_calculateTimeGaps_reports_positive_adjacent_gaps :
  (forall classes : list ClassTime,
      let sortedClasses := JS.sort byStartTime classes in
      Permutation sortedClasses classes
      /\ StronglySorted startsNoLater sortedClasses
      /\ calculateTimeGaps classes = reportedGaps sortedClasses)
  /\ calculateTimeGaps [slot "09:00" "10:30" "A"; slot "11:00" "12:30" "B"]
     = [mkTimeGap "10:30" "11:00" 30]
  /\ calculateDayDuration [slot "09:00" "10:30" "A"; slot "11:00" "12:30" "B"] = 210.
Proof.
  split; [|split; reflexivity].
  intros classes sortedClasses. subst sortedClasses.
  split; [apply sort_Permutation|].
  split; [apply sort_StronglySorted|].
  unfold calculateTimeGaps.
  destruct (Z.leb_spec (Z.of_nat (length classes)) 1) as [Hshort|Hlong].
  - symmetry. apply reportedGaps_short.
    rewrite (Permutation_length (sort_Permutation classes)). lia.
  - apply gapsBetween_reportedGaps.
Qed.

(** C8, as stated, fails: two orders of the same three slots, two of which
    start at 09:00, give different gap lists. *)
Lemma C8_ties_counterexample :
  ~ (forall l l' : list ClassTime,
        Permutation l l' -> calculateTimeGaps l = calculateTimeGaps l').
Proof.
  intros H.
  specialize (H [slot "09:00" "10:00" "A"; slot "09:00" "12:00" "B";
                 slot "11:00" "12:00" "C"]
                [slot "09:00" "12:00" "B"; slot "09:00" "10:00" "A";
                 slot "11:00" "12:00" "C"]
                (perm_swap _ _ _)).
  vm_compute in H. discriminate H.
Qed.

(** C8, amended: for every list of class slots in which slots that start
    at the same minute have the same start and end time, and every
    permutation of that list, [calculateTimeGaps] returns the same list of
    gap entries; and [calculateDayDuration] of the empty list is 0. *)
Theorem C8_calculateTimeGaps_permutation_invariant (l l' : list ClassTime) :
  Permutation l l' ->
  tiesAgree l = true ->
  calculateTimeGaps l = calculateTimeGaps l' /\ calculateDayDuration [] = 0.
Proof.
  intros Hperm Hties. split; [|reflexivity].
  unfold calculateTimeGaps.
  rewrite (Permutation_length Hperm).
  destruct (Z.of_nat (length l') <=? 1); [reflexivity|].
  apply gapsBetween_alike. now apply sort_Permutation_alike.
Qed.

Lemma C8_calculateTimeGaps_permutation_invariant_witness :
  calculateTimeGaps
    [slot "09:00" "10:00" "B"; slot "11:00" "12:30" "C"; slot "09:00" "10:00" "A"]
  = calculateTimeGaps
      [slot "11:00" "12:30" "C"; slot "09:00" "10:00" "B"; slot "09:00" "10:00" "A"]
  /\ calculateDayDuration [] = 0.
Proof.
  apply C8_calculateTimeGaps_permutation_invariant.
  - apply perm_swap.
  - reflexivity.
Defined.

End GapClaims.

(** ** Rounding to doubles *)

Section Doubles.

(** 0.1 is the double 3602879701896397 / 2^55. *)
Example fl_of_a_tenth : JS.fl (1 # 10) = 3602879701896397 # 36028797018963968.
Proof. reflexivity. Qed.

(** (29 / 50) * 100 is 57.99999999999999, below 58. *)
Example percentage_of_29_in_50 :
  JS.times100 (JS.div 29 50) = JS.Finite (8162774324609023 # 140737488355328)
  /\ JS.num_ltb (JS.times100 (JS.div 29 50)) 58 = true.
Proof. split; reflexivity. Qed.

(** (56 / 100) * 25 is 14.000000000000002, so 15 classes out of 25 are
    required for 56%. *)
Example share_of_56_percent :
  AttendanceCalculator.requiredOutOf (mkCourse "CS101" "Computer Science" 56 25 14 0) 25
  = 15.
Proof. reflexivity. Qed.

(** Halves go to the even significand: 2^53 + 1 becomes 2^53 and
    2^53 + 3 becomes 2^53 + 4. *)
Example fl_ties_to_even :
  JS.fl (9007199254740993 # 1) = 9007199254740992 # 1
  /\ JS.fl (9007199254740995 # 1) = 9007199254740996 # 1.
Proof. split; reflexivity. Qed.

Lemma fl_compat (x y : Q) : (x == y)%Q -> JS.fl x = JS.fl y.
Proof.
  intros Hxy. unfold JS.fl. now rewrite (Qred_complete _ _ Hxy).
Qed.

Lemma round1_fl_compat (x y : Q) :
  (x == y)%Q -> JS.round1 (JS.fl x) = JS.round1 (JS.fl y).
Proof. intros Hxy. now rewrite (fl_compat x y Hxy). Qed.

Lemma pow2_pos (e : Z) : (0 < JS.pow2 e)%Q.
Proof. apply Qpower_0_lt. reflexivity. Qed.

Lemma pow2_plus (a b : Z) : (JS.pow2 (a + b) == JS.pow2 a * JS.pow2 b)%Q.
Proof. apply Qpower_plus. discriminate. Qed.

Lemma pow2_inject (e : Z) : 0 <= e -> (JS.pow2 e == inject_Z (2 ^ e))%Q.
Proof. intros He. unfold JS.pow2. now rewrite Zpower_Qpower. Qed.

Lemma pow2_succ (e : Z) : (JS.pow2 (e + 1) == 2 * JS.pow2 e)%Q.
Proof. rewrite pow2_plus. change (JS.pow2 1) with 2%Q. ring. Qed.

Lemma floorLog2_spec (x : Q) :
  (0 < x)%Q ->
  (JS.pow2 (JS.floorLog2 x) <= x)%Q /\ (x < JS.pow2 (JS.floorLog2 x + 1))%Q.
Proof.
  intros Hx. destruct x as [n d]. 
  assert (Hn : 0 < n) by (unfold Qlt in Hx; simpl in Hx; lia).
  unfold JS.floorLog2. cbn [Qnum Qden].
  set (a := Z.log2 n). set (b := Z.log2 (Zpos d)).
  assert (Ha : 2 ^ a <= n < 2 ^ (a + 1)).
  { subst a. replace (Z.log2 n + 1) with (Z.succ (Z.log2 n)) by lia.
    now apply Z.log2_spec. }
  assert (Hb : 2 ^ b <= Zpos d < 2 ^ (b + 1)).
  { subst b. replace (Z.log2 (Zpos d) + 1) with (Z.succ (Z.log2 (Zpos d))) by lia.
    now apply Z.log2_spec. }
  assert (Ha0 : 0 <= a) by apply Z.log2_nonneg.
  assert (Hb0 : 0 <= b) by apply Z.log2_nonneg.
  (* n/d < 2^(a+1-b) and 2^(a-b-1) < n/d *)
  assert (Hnd : (n # d == inject_Z n / inject_Z (Zpos d))%Q) by apply Qmake_Qdiv.
  assert (Hdpos : (0 < inject_Z (Zpos d))%Q) by reflexivity.
  assert (Hupper : (n # d < JS.pow2 (a - b + 1))%Q).
  { rewrite Hnd. apply Qlt_shift_div_r; [exact Hdpos|].
    apply Qlt_le_trans with (JS.pow2 (a + 1)).
    - rewrite pow2_inject by lia. rewrite <- Zlt_Qlt. lia.
    - replace (a + 1) with ((a - b + 1) + b) by lia.
      rewrite pow2_plus. apply Qmult_le_l; [apply pow2_pos|].
      rewrite pow2_inject by lia. rewrite <- Zle_Qle. lia. }
  assert (Hlower : (JS.pow2 (a - b - 1) <= n # d)%Q).
  { rewrite Hnd. apply Qle_shift_div_l; [exact Hdpos|].
    apply Qle_trans with (JS.pow2 a).
    - replace a with ((a - b - 1) + (b + 1)) at 2 by lia.
      rewrite pow2_plus. apply Qmult_le_l; [apply pow2_pos|].
      rewrite pow2_inject by lia. rewrite <- Zle_Qle. lia.
    - rewrite pow2_inject by lia. rewrite <- Zle_Qle. lia. }
  destruct (Qle_bool (JS.pow2 (a - b)) (n # d)) eqn:Hcmp.
  - apply Qle_bool_iff in Hcmp. split; assumption.
  - assert (Hlt : (n # d < JS.pow2 (a - b))%Q).
    { apply Qnot_le_lt. intros Hle. apply Qle_bool_iff in Hle. congruence. }
    replace (a - b - 1 + 1) with (a - b) by lia. split; assumption.
Qed.

Lemma nearestEven_error (x : Q) :
  (inject_Z (JS.nearestEven x) - (1 # 2) <= x)%Q
  /\ (x <= inject_Z (JS.nearestEven x) + (1 # 2))%Q.
Proof.
  unfold JS.nearestEven.
  pose proof (Qfloor_le x) as Hlo. pose proof (Qlt_floor x) as Hhi.
  rewrite inject_Z_plus in Hhi. change (inject_Z 1) with 1%Q in Hhi.
  assert (Hnext : (inject_Z (Qfloor x + 1) == inject_Z (Qfloor x) + 1)%Q)
    by (rewrite inject_Z_plus; reflexivity).
  destruct (Qcompare (x - inject_Z (Qfloor x)) (1 # 2)) eqn:Hcmp.
  - apply Qeq_alt in Hcmp.
    destruct (Z.even (Qfloor x)); [|rewrite Hnext]; split; lra.
  - apply Qlt_alt in Hcmp. split; lra.
  - apply Qgt_alt in Hcmp. rewrite Hnext. split; lra.
Qed.

Lemma flPositive_error (x : Q) :
  (0 < x)%Q ->
  (x * (1 - JS.ulpHalf) <= JS.flPositive x)%Q /\ (JS.flPositive x <= x * (1 + JS.ulpHalf))%Q.
Proof.
  intros Hx. unfold JS.flPositive.
  destruct (floorLog2_spec x Hx) as [Hlog _].
  set (e := JS.floorLog2 x - 52) in *.
  pose proof (pow2_pos e) as Hp.
  assert (Hscale : (JS.pow2 (JS.floorLog2 x) == JS.pow2 e * 4503599627370496)%Q).
  { replace (JS.floorLog2 x) with (e + 52) by (subst e; lia).
    rewrite pow2_plus. reflexivity. }
  rewrite Hscale in Hlog.
  destruct (nearestEven_error (x / JS.pow2 e)) as [Hlo Hhi].
  set (m := inject_Z (JS.nearestEven (x / JS.pow2 e))) in *.
  assert (Hx' : (x == x / JS.pow2 e * JS.pow2 e)%Q).
  { field. intros H0. rewrite H0 in Hp. discriminate Hp. }
  set (s := (x / JS.pow2 e)%Q) in *.
  set (p := JS.pow2 e) in *.
  assert (H1 : ((m - (1 # 2)) * p <= s * p)%Q)
    by (apply Qmult_le_compat_r; [exact Hlo|apply Qlt_le_weak, Hp]).
  assert (H2 : (s * p <= (m + (1 # 2)) * p)%Q)
    by (apply Qmult_le_compat_r; [exact Hhi|apply Qlt_le_weak, Hp]).
  rewrite <- Hx' in H1, H2.
  assert (E1 : ((m - (1 # 2)) * p == m * p - (1 # 2) * p)%Q) by ring.
  assert (E2 : ((m + (1 # 2)) * p == m * p + (1 # 2) * p)%Q) by ring.
  rewrite E1 in H1. rewrite E2 in H2.
  unfold JS.ulpHalf. split; lra.
Qed.

Lemma fl_error (x : Q) :
  (0 <= x)%Q ->
  (x * (1 - JS.ulpHalf) <= JS.fl x)%Q /\ (JS.fl x <= x * (1 + JS.ulpHalf))%Q.
Proof.
  intros Hx. unfold JS.fl. rewrite Qred_correct.
  pose proof (Qred_correct x) as Hred.
  destruct (Z.compare_spec (Qnum (Qred x)) 0) as [Hz|Hneg|Hpos].
  - assert (H0 : (x == 0)%Q).
    { rewrite <- Hred. unfold Qeq. simpl. rewrite Hz. reflexivity. }
    rewrite H0. split; discriminate.
  - exfalso. rewrite <- Hred in Hx. unfold Qle in Hx. simpl in Hx. lia.
  - assert (Hgt : (0 < Qred x)%Q) by (unfold Qlt; simpl; lia).
    destruct (flPositive_error _ Hgt) as [Hlo Hhi].
    set (f := JS.flPositive (Qred x)) in *. set (r := Qred x) in *.
    unfold JS.ulpHalf in *. split; lra.
Qed.

Lemma fl_negative (x : Q) : (x < 0)%Q -> (JS.fl x == - JS.fl (- x))%Q.
Proof.
  intros Hx. unfold JS.fl. rewrite Qred_opp.
  pose proof (Qred_correct x) as Hred.
  assert (Hneg : Qnum (Qred x) < 0).
  { rewrite <- Hred in Hx. unfold Qlt in Hx. simpl in Hx. lia. }
  destruct (Z.compare_spec (Qnum (Qred x)) 0) as [Hz|_|Hpos]; [lia| |lia].
  destruct (Z.compare_spec (Qnum (- Qred x)) 0) as [Hz|Hlt|_];
    [simpl in Hz; lia|simpl in Hlt; lia|].
  rewrite Qred_opp. reflexivity.
Qed.

(** The absolute error of a rounding of a value of magnitude at most [M]. *)
Lemma fl_error_within (x M : Q) :
  (- M <= x)%Q -> (x <= M)%Q ->
  (x - M * JS.ulpHalf <= JS.fl x)%Q /\ (JS.fl x <= x + M * JS.ulpHalf)%Q.
Proof.
  intros Hlow Hhigh. destruct (Qlt_le_dec x 0) as [Hneg|Hpos].
  - rewrite (fl_negative x Hneg).
    assert (Hopp : (0 <= - x)%Q) by lra.
    destruct (fl_error _ Hopp) as [L U].
    set (f := JS.fl (- x)) in *. unfold JS.ulpHalf in *. split; lra.
  - destruct (fl_error _ Hpos) as [L U].
    set (f := JS.fl x) in *. unfold JS.ulpHalf in *. split; lra.
Qed.

Lemma round_error (x : Q) :
  (x - (1 # 2) <= inject_Z (JS.round x))%Q /\ (inject_Z (JS.round x) <= x + (1 # 2))%Q.
Proof.
  unfold JS.round.
  pose proof (Qfloor_le (x + (1 # 2))) as Hlo.
  pose proof (Qlt_floor (x + (1 # 2))) as Hhi.
  rewrite inject_Z_plus in Hhi. change (inject_Z 1) with 1%Q in Hhi.
  split; lra.
Qed.

Lemma round_nonneg (x : Q) : (0 <= x)%Q -> 0 <= JS.round x.
Proof.
  intros Hx. unfold JS.round. change 0 with (Qfloor 0).
  apply Qfloor_resp_le. lra.
Qed.

(** A sum of magnitude at most 40000, made a double and rounded to one
    decimal, stays within 0.05001 of any value the sum is within 10^-6
    of. *)
Lemma round1_error_within (x exact : Q) :
  (- 40000 <= x)%Q -> (x <= 40000)%Q ->
  (exact - (1 # 1000000) <= x)%Q -> (x <= exact + (1 # 1000000))%Q ->
  (- (501 # 10000) <= JS.round1 (JS.fl x) - exact)%Q
  /\ (JS.round1 (JS.fl x) - exact <= 501 # 10000)%Q.
Proof.
  intros Hlow Hhigh Hbelow Habove. unfold JS.round1.
  destruct (fl_error_within x 40000 Hlow Hhigh) as [L1 U1].
  set (score := JS.fl x) in *. unfold JS.ulpHalf in *.
  destruct (fl_error_within (score * 10) 400010) as [L2 U2]; [lra|lra|].
  set (tenfold := JS.fl (score * 10)) in *. unfold JS.ulpHalf in *.
  destruct (round_error tenfold) as [L3 U3].
  set (r := inject_Z (JS.round tenfold)) in *.
  assert (E : (r / 10 == r * (1 # 10))%Q) by field.
  set (tenth := (r / 10)%Q) in *.
  destruct (fl_error_within tenth 40002) as [L4 U4]; [lra|lra|].
  set (reported := JS.fl tenth) in *. unfold JS.ulpHalf in *.
  split; lra.
Qed.

(** A share of a whole, as a percentage rounded to two decimals on
    doubles, is within 0.0051 of the exact percentage. *)
Lemma round2_percentage_error (a h : Z) :
  0 <= a <= h -> 0 < h ->
  let exact := (inject_Z a / inject_Z h * 100)%Q in
  let reported := JS.round2 (JS.fl (JS.fl (inject_Z a / inject_Z h) * 100)) in
  (exact - (51 # 10000) <= reported)%Q /\ (reported <= exact + (51 # 10000))%Q.
Proof.
  intros Ha Hh exact reported. subst exact reported. unfold JS.round2.
  set (p0 := (inject_Z a / inject_Z h)%Q).
  assert (Hhq : (0 < inject_Z h)%Q) by (rewrite Zlt_Qlt in Hh; exact Hh).
  assert (Hp0 : (0 <= p0)%Q).
  { subst p0. apply Qle_shift_div_l; [exact Hhq|].
    rewrite Qmult_0_l. change 0%Q with (inject_Z 0). rewrite <- Zle_Qle. lia. }
  assert (Hp1 : (p0 <= 1)%Q).
  { subst p0. apply Qle_shift_div_r; [exact Hhq|].
    rewrite Qmult_1_l. rewrite <- Zle_Qle. lia. }
  destruct (fl_error p0 Hp0) as [L1 U1].
  set (d1 := JS.fl p0) in *.
  assert (Hd1 : (0 <= d1 * 100)%Q) by (unfold JS.ulpHalf in L1; lra).
  destruct (fl_error _ Hd1) as [L2 U2].
  set (d2 := JS.fl (d1 * 100)) in *.
  assert (Hd2 : (0 <= d2 * 100)%Q) by (unfold JS.ulpHalf in L1, L2; lra).
  destruct (fl_error _ Hd2) as [L3 U3].
  set (d3 := JS.fl (d2 * 100)) in *.
  assert (Hd3 : (0 <= d3)%Q) by (unfold JS.ulpHalf in L1, L2, L3; lra).
  destruct (round_error d3) as [L4 U4].
  pose proof (round_nonneg d3 Hd3) as Hr. rewrite Zle_Qle in Hr.
  set (r := inject_Z (JS.round d3)) in *.
  assert (Hr100 : (0 <= r / 100)%Q).
  { apply Qle_shift_div_l; [reflexivity|]. rewrite Qmult_0_l. exact Hr. }
  destruct (fl_error _ Hr100) as [L5 U5].
  set (reported := JS.fl (r / 100)) in *.
  assert (E : (r / 100 == r * (1 # 100))%Q) by field.
  set (hundredth := (r / 100)%Q) in *.
  unfold JS.ulpHalf in *. split; lra.
Qed.

End Doubles.


(** ** The day score *)

Section DayScore.

Import ScheduleOptimizer.

(** The code accumulates the formula, operation by operation. *)
Lemma calculateDayScore_nonempty (c : ClassTime) (cs : list ClassTime)
    (preferences : UserPreferences) (mustAttend : list string) :
  calculateDayScore (c :: cs) preferences mustAttend
  = Spec.scoreInDoubles (c :: cs) preferences mustAttend.
Proof.
  unfold calculateDayScore, Spec.scoreInDoubles.
  set (classes := c :: cs).
  rewrite fold_left_sum, Z.add_0_l.
  rewrite calculateTimeGaps_gapsOf.
  rewrite (maxGapOf_largestGap (Spec.gapsOf classes))
    by apply reportedGaps_positive.
  unfold countWhere, Spec.countIn.
  set (gapHours := JS.fl (inject_Z (Spec.sumOfDurations (Spec.gapsOf classes)) / 60)).
  set (n := inject_Z (Z.of_nat (length classes))).
  set (m := inject_Z (Z.of_nat (length (List.filter
                (fun c0 => JS.includes mustAttend (courseId c0)) classes)))).
  rewrite (fl_compat (0 + n * 10 + m * 20 - gapHours) (10 * n + 20 * m - gapHours))
    by ring.
  set (lessGaps := JS.fl (10 * n + 20 * m - gapHours)).
  destruct (maxGapBetweenClasses preferences <? Spec.largestGap (Spec.gapsOf classes));
    destruct (Z.of_nat (length classes) <? minimumClassesPerDay preferences);
    match goal with
    | |- JS.round1 (JS.fl (?s + _)) = _ => generalize s; intros s'
    end;
    apply round1_fl_compat; ring.
Qed.

Lemma sumOfDurations_nonneg (gaps : list TimeGap) :
  Forall (fun g => 0 < duration g) gaps -> 0 <= Spec.sumOfDurations gaps.
Proof.
  unfold Spec.sumOfDurations. induction 1 as [|g gs Hg _ IH]; simpl; lia.
Qed.

Lemma countIn_bounds (ids : list string) (selection : list ClassTime) :
  0 <= Spec.countIn ids selection <= Z.of_nat (length selection).
Proof.
  unfold Spec.countIn.
  pose proof (List.filter_length_le
                (fun c => JS.includes ids (courseId c)) selection).
  lia.
Qed.

(** On doubles the score stays within the rounding to one decimal of the
    exact value of the formula. *)
Lemma scoreInDoubles_error (selection : list ClassTime)
    (preferences : UserPreferences) (mustAttend : list string) :
  Z.of_nat (length selection) <= 1000 ->
  Spec.sumOfDurations (Spec.gapsOf selection) <= 60000 ->
  (Qabs (Spec.scoreInDoubles selection preferences mustAttend
         - Spec.score selection preferences mustAttend) <= 501 # 10000)%Q.
Proof.
  intros Hlength Hgaps. apply Qabs_Qle_condition.
  unfold Spec.scoreInDoubles, Spec.score.
  pose proof (countIn_bounds mustAttend selection) as Hm.
  pose proof (countIn_bounds (priorityCourses preferences) selection) as Hp.
  pose proof (sumOfDurations_nonneg (Spec.gapsOf selection)
                (reportedGaps_positive _)) as Hgaps0.
  assert (Hlength0 : 0 <= Z.of_nat (length selection)) by lia.
  destruct Hm as [Hm0 Hm]. destruct Hp as [Hp0 Hp].
  rewrite Zle_Qle in Hm0, Hm, Hp0, Hp, Hlength, Hgaps, Hgaps0, Hlength0.
  set (n := inject_Z (Z.of_nat (length selection))) in *.
  set (m := inject_Z (Spec.countIn mustAttend selection)) in *.
  set (p := inject_Z (Spec.countIn (priorityCourses preferences) selection)) in *.
  set (G := inject_Z (Spec.sumOfDurations (Spec.gapsOf selection))) in *.
  change (inject_Z 0) with 0%Q in *.
  change (inject_Z 1000) with 1000%Q in *.
  change (inject_Z 60000) with 60000%Q in *.
  assert (Ehours : (G / 60 == G * (1 # 60))%Q) by field.
  set (hours := (G / 60)%Q) in *.
  destruct (fl_error_within hours 40000) as [L1 U1]; [lra|lra|].
  set (gapHours := JS.fl hours) in *.
  destruct (fl_error_within (10 * n + 20 * m - gapHours) 40000) as [L2 U2];
    [unfold JS.ulpHalf in *; lra|unfold JS.ulpHalf in *; lra|].
  set (lessGaps := JS.fl (10 * n + 20 * m - gapHours)) in *.
  destruct (fl_error_within (lessGaps - 50) 40000) as [L3 U3];
    [unfold JS.ulpHalf in *; lra|unfold JS.ulpHalf in *; lra|].
  set (limited := JS.fl (lessGaps - 50)) in *.
  unfold JS.ulpHalf in *.
  destruct (maxGapBetweenClasses preferences <? Spec.largestGap (Spec.gapsOf selection)).
  - destruct (fl_error_within (limited - 30) 40000) as [L4 U4]; [lra|lra|].
    set (short := JS.fl (limited - 30)) in *.
    unfold JS.ulpHalf in *.
    destruct (Z.of_nat (length selection) <? minimumClassesPerDay preferences).
    + apply (round1_error_within (short + 5 * p)); lra.
    + apply (round1_error_within (limited + 5 * p)); lra.
  - destruct (fl_error_within (lessGaps - 30) 40000) as [L4 U4]; [lra|lra|].
    set (short := JS.fl (lessGaps - 30)) in *.
    unfold JS.ulpHalf in *.
    destruct (Z.of_nat (length selection) <? minimumClassesPerDay preferences).
    + apply (round1_error_within (short + 5 * p)); lra.
    + apply (round1_error_within (lessGaps + 5 * p)); lra.
Qed.

End DayScore.

Module ScoreClaims.

Import ScheduleOptimizer Fixtures.


(** C3, as stated, fails twice.  For the empty selection and a minimum of
    two classes a day the code returns 0 where the formula gives -30; for
    two classes ten minutes apart the code returns the double 19.8 where
    the formula gives 119/6. *)
Lemma C3_score_counterexample :
  ~ (calculateDayScore [] twoRequired [] == Spec.score [] twoRequired [])%Q
  /\ ~ (calculateDayScore
          [slot "09:00" "10:00" "A"; slot "10:10" "11:00" "B"] twoRequired []
        == Spec.score
             [slot "09:00" "10:00" "A"; slot "10:10" "11:00" "B"] twoRequired [])%Q.
Proof.
  split; intros H; vm_compute in H; discriminate H.
Qed.

(** C3, amended: for every non-empty selection, every must-attend id set
    and every preferences record, [calculateDayScore] equals the value of
    the formula 10 x |selection| + 20 x |selection intersect mustAttend|
    - (sum of gap durations) / 60 - 50 if the maximum gap exceeds
    maxGapBetweenClasses - 30 if |selection| < minimumClassesPerDay
    + 5 x |selection intersect priorityCourses| evaluated on doubles in
    that order and rounded to one decimal by Math.round(score x 10) / 10;
    for up to 1000 classes and 60000 minutes of gaps that value is within
    0.0501 of the exact value of the formula; for the empty selection the
    score is 0. *)
Theorem C3_calculateDayScore_formula (selection : list ClassTime)
    (preferences : UserPreferences) (mustAttend : list string) :
  selection <> [] ->
  calculateDayScore selection preferences mustAttend
  = Spec.scoreInDoubles selection preferences mustAttend
  /\ (Z.of_nat (length selection) <= 1000 ->
      Spec.sumOfDurations (Spec.gapsOf selection) <= 60000 ->
      (Qabs (calculateDayScore selection preferences mustAttend
             - Spec.score selection preferences mustAttend) <= 501 # 10000)%Q)
  /\ (calculateDayScore [] preferences mustAttend == 0)%Q.
Proof.
  intros Hne. destruct selection as [|c cs]; [contradiction|].
  rewrite calculateDayScore_nonempty.
  split; [reflexivity|]. split; [|reflexivity].
  apply scoreInDoubles_error.
Qed.

Lemma C3_calculateDayScore_formula_witness :
  let selection := [slot "09:00" "10:00" "A"; slot "10:10" "11:00" "B"] in
  calculateDayScore selection twoRequired ["A"]
  = Spec.scoreInDoubles selection twoRequired ["A"]
  /\ (Z.of_nat (length selection) <= 1000 ->
      Spec.sumOfDurations (Spec.gapsOf selection) <= 60000 ->
      (Qabs (calculateDayScore selection twoRequired ["A"]
             - Spec.score selection twoRequired ["A"]) <= 501 # 10000)%Q)
  /\ (calculateDayScore [] twoRequired ["A"] == 0)%Q.
Proof.
  apply C3_calculateDayScore_formula. discriminate.
Defined.

End ScoreClaims.

(** ** The greedy selection *)

Section GreedySelection.

Import ScheduleOptimizer.

Variable showNumber : Q -> string.

Lemma includes_In (xs : list string) (x : string) :
  JS.includes xs x = true <-> In x xs.
Proof.
  unfold JS.includes. rewrite existsb_exists. split.
  - intros [y [Hy Heq]]. apply String.eqb_eq in Heq. now subst.
  - intros Hx. exists x. split; [exact Hx|apply String.eqb_refl].
Qed.

(** The addition the scan returns is one of the candidates, at the index
    the scan reports. *)
Lemma scanAdditions_index (bestSelection : list ClassTime)
    (preferences : UserPreferences) (mustAttend : list string)
    (candidates : list ClassTime) :
  forall (start : nat) (best : option (nat * ClassTime)) (bestScore : Q)
         (i : nat) (c : ClassTime) (newScore : Q),
    scanAdditions bestSelection preferences mustAttend candidates start best bestScore
    = (Some (i, c), newScore) ->
    best = Some (i, c)
    \/ (start <= i /\ nth_error candidates (i - start) = Some c)%nat.
Proof.
  induction candidates as [|x rest IH]; intros start best bestScore i c newScore Hscan;
    simpl in Hscan.
  - left. congruence.
  - destruct (JS.gtb _ bestScore).
    + apply IH in Hscan. destruct Hscan as [Hbest|[Hle Hnth]].
      * right. injection Hbest as <- <-. split; [lia|].
        now rewrite Nat.sub_diag.
      * right. split; [lia|].
        replace (i - start)%nat with (S (i - S start)) by lia. exact Hnth.
    + apply IH in Hscan. destruct Hscan as [Hbest|[Hle Hnth]]; [now left|].
      right. split; [lia|].
      replace (i - start)%nat with (S (i - S start)) by lia. exact Hnth.
Qed.

Lemma splice1_length {A : Type} (i : nat) (l : list A) :
  (i < length l)%nat -> length (splice1 i l) = (length l - 1)%nat.
Proof.
  intros Hi. unfold splice1.
  rewrite length_app, length_firstn, length_skipn. lia.
Qed.

Lemma greedyLoop_step (turns : nat) (preferences : UserPreferences)
    (mustAttend : list string) (selection : list ClassTime) (bestScore : Q)
    (lines : list string) (r : ClassTime) (rest : list ClassTime) :
  greedyLoop showNumber (S turns) preferences mustAttend selection bestScore lines
    (r :: rest)
  = match scanAdditions selection preferences mustAttend (r :: rest) 0 None bestScore with
    | (Some (i, bestAddition), bestNewScore) =>
        if JS.gtb bestNewScore bestScore then
          let violations :=
            violatesPreferences showNumber (selection ++ [bestAddition]) preferences in
          greedyLoop showNumber turns preferences mustAttend
            (selection ++ [bestAddition]) bestNewScore
            (lines ++
             [if violatesGapLimit violations || violatesMinimumClasses violations
              then "Added " +:+ courseId bestAddition +:+ " despite "
                   +:+ String.concat ", " (reasons violations)
              else "Added optional class " +:+ courseId bestAddition])
            (splice1 i (r :: rest))
        else (selection, bestScore, lines)
    | (None, _) => (selection, bestScore, lines)
    end.
Proof. reflexivity. Qed.

(** [length remainingOptional] turns are enough: more turns give the same
    result, so the [while] loop has ended within them. *)
Lemma greedyLoop_turns (preferences : UserPreferences) (mustAttend : list string) :
  forall (n m : nat) (remaining selection : list ClassTime) (bestScore : Q)
         (lines : list string),
    (length remaining <= n)%nat -> (length remaining <= m)%nat ->
    greedyLoop showNumber n preferences mustAttend selection bestScore lines remaining
    = greedyLoop showNumber m preferences mustAttend selection bestScore lines remaining.
Proof.
  induction n as [|n IH]; intros m remaining selection bestScore lines Hn Hm.
  - destruct remaining; [|simpl in Hn; lia]. now destruct m.
  - destruct remaining as [|r rest]; [now destruct m|].
    destruct m as [|m]; [simpl in Hm; lia|].
    rewrite !greedyLoop_step.
    destruct (scanAdditions selection preferences mustAttend (r :: rest) 0 None bestScore)
      as [[[i c]|] newScore] eqn:Hscan; [|reflexivity].
    destruct (JS.gtb newScore bestScore); [|reflexivity].
    apply scanAdditions_index in Hscan.
    destruct Hscan as [Hnone|[_ Hnth]]; [discriminate|].
    assert (Hi : (i < length (r :: rest))%nat).
    { apply nth_error_Some. rewrite Nat.sub_0_r in Hnth. congruence. }
    pose proof (splice1_length i (r :: rest) Hi) as Hlen.
    simpl length in *. apply IH; lia.
Qed.

(** The loop only appends to the selection. *)
Lemma greedyLoop_appends (preferences : UserPreferences) (mustAttend : list string) :
  forall (turns : nat) (remaining selection : list ClassTime) (bestScore : Q)
         (lines : list string),
    exists added : list ClassTime,
      fst (fst (greedyLoop showNumber turns preferences mustAttend selection
                  bestScore lines remaining))
      = selection ++ added.
Proof.
  induction turns as [|turns IH]; intros remaining selection bestScore lines.
  - exists []. destruct remaining; simpl; now rewrite app_nil_r.
  - destruct remaining as [|r rest].
    + exists []. simpl. now rewrite app_nil_r.
    + rewrite greedyLoop_step.
      destruct (scanAdditions selection preferences mustAttend (r :: rest) 0 None bestScore)
        as [[[i c]|] newScore]; [|exists []; simpl; now rewrite app_nil_r].
      destruct (JS.gtb newScore bestScore);
        [|exists []; simpl; now rewrite app_nil_r].
      cbv zeta.
      match goal with
      | |- context [greedyLoop _ turns _ _ ?sel ?sc ?ls ?rem] =>
          destruct (IH rem sel sc ls) as [added Hadded]
      end.
      exists (c :: added). rewrite Hadded. now rewrite <- app_assoc.
Qed.

Lemma optimizeClassSelection_selected (allDayClasses : list ClassTime)
    (mustAttend : list string) (preferences : UserPreferences) :
  exists added : list ClassTime,
    selectedClasses (optimizeClassSelection showNumber allDayClasses mustAttend preferences)
    = List.filter (fun c => JS.includes mustAttend (courseId c)) allDayClasses ++ added.
Proof.
  unfold optimizeClassSelection.
  match goal with
  | |- context [greedyLoop _ ?t _ _ ?sel ?sc ?ls ?rem] =>
      destruct (greedyLoop_appends preferences mustAttend t rem sel sc ls)
        as [added Hadded];
      destruct (greedyLoop showNumber t preferences mustAttend sel sc ls rem)
        as [[selected finalScore] lines]
  end.
  exists added. simpl in *. exact Hadded.
Qed.

End GreedySelection.

Module SelectionClaims.

Import ScheduleOptimizer Fixtures.

(** C2: for every list of day classes, every must-attend id set and every
    preferences record, the [selectedClasses] of [optimizeClassSelection]
    start with the day's must-attend classes, the greedy loop only adding
    classes after them; so every day class whose courseId is in the
    must-attend set is in the selection. *)
Theorem C2_selection_contains_must_attend (showNumber : Q -> string)
    (allDayClasses : list ClassTime) (mustAttendClasses : list string)
    (preferences : UserPreferences) (c : ClassTime) :
  In c allDayClasses ->
  In (courseId c) mustAttendClasses ->
  In c (selectedClasses
          (optimizeClassSelection showNumber allDayClasses mustAttendClasses
             preferences))
  /\ exists added : list ClassTime,
       selectedClasses
         (optimizeClassSelection showNumber allDayClasses mustAttendClasses
            preferences)
       = List.filter (fun d => JS.includes mustAttendClasses (courseId d)) allDayClasses
         ++ added.
Proof.
  intros Hday Hmust.
  destruct (optimizeClassSelection_selected showNumber allDayClasses
              mustAttendClasses preferences) as [added Hsel].
  split; [|now exists added].
  rewrite Hsel. apply in_or_app. left.
  apply filter_In. split; [exact Hday|]. now apply includes_In.
Qed.

Lemma C2_selection_contains_must_attend_witness :
  In (slot "09:00" "10:00" "A")
    (selectedClasses
       (optimizeClassSelection (fun _ => "")
          [slot "14:00" "15:00" "B"; slot "09:00" "10:00" "A"] ["A"]
          (mkUserPreferences true 60 [] 2)))
  /\ exists added : list ClassTime,
       selectedClasses
         (optimizeClassSelection (fun _ => "")
            [slot "14:00" "15:00" "B"; slot "09:00" "10:00" "A"] ["A"]
            (mkUserPreferences true 60 [] 2))
       = List.filter (fun d => JS.includes ["A"] (courseId d))
           [slot "14:00" "15:00" "B"; slot "09:00" "10:00" "A"]
         ++ added.
Proof.
  apply C2_selection_contains_must_attend.
  - simpl. right. left. reflexivity.
  - simpl. left. reflexivity.
Defined.

End SelectionClaims.

(** ** Attendance status *)

Module AttendanceClaims.

Import AttendanceCalculator Fixtures.




(** With no class held yet the reported percentage is 0. *)
Example calculateAttendanceStatus_nothing_held :
  (currentPercentage (calculateAttendanceStatus nothingHeld) == 0)%Q.
Proof. reflexivity. Qed.

(** C4, as stated, fails: the reported percentage is rounded to two
    decimals, so with 1 class attended out of 3 held it is the double 33.33
    and not 1/3 x 100. *)
Lemma C4_percentage_counterexample :
  ~ (currentPercentage (calculateAttendanceStatus oneOfThree)
     == inject_Z (classesAttended oneOfThree) / inject_Z (Spec.heldClasses oneOfThree) * 100)%Q.
Proof.
  intros H. vm_compute in H. discriminate H.
Qed.

(** C4, amended: for every Course with heldClasses > 0, where heldClasses
    = totalClassesScheduled - classesCancelled,
    [calculateAttendanceStatus] returns that heldClasses and
    currentPercentage = classesAttended / heldClasses x 100 computed on
    doubles and rounded to two decimals by Math.round(p x 100) / 100; with
    0 <= classesAttended <= heldClasses that value is within 0.0051 of the
    exact percentage; if moreover classesAttended = heldClasses,
    currentPercentage is 100; and canSkip >= 0. *)
Theorem C4_calculateAttendanceStatus_percentage (course : Course) :
  0 < Spec.heldClasses course ->
  let status := calculateAttendanceStatus course in
  totalClassesHeld status = Spec.heldClasses course
  /\ currentPercentage status = JS.round2 (Spec.percentageInDoubles course)
  /\ (0 <= classesAttended course <= Spec.heldClasses course ->
      (Qabs (currentPercentage status - Spec.exactPercentage course) <= 51 # 10000)%Q)
  /\ (classesAttended course = Spec.heldClasses course ->
      (currentPercentage status == 100)%Q)
  /\ 0 <= canSkip status.
Proof.
  intros Hheld status.
  assert (Hpercentage :
            currentPercentage status = JS.round2 (Spec.percentageInDoubles course)).
  { subst status. unfold calculateAttendanceStatus, Spec.percentageInDoubles.
    cbn [currentPercentage]. fold (Spec.heldClasses course).
    destruct (Z.ltb_spec 0 (Spec.heldClasses course)) as [_|Hle]; [reflexivity|lia]. }
  split; [reflexivity|]. split; [exact Hpercentage|].
  rewrite Hpercentage. split; [|split].
  - intros Hattended. apply Qabs_Qle_condition.
    destruct (round2_percentage_error _ _ Hattended Hheld) as [Hlow Hhigh].
    unfold Spec.percentageInDoubles, Spec.exactPercentage.
    set (reported := JS.round2 _) in *. set (exact := (_ / _ * 100)%Q) in *.
    split; lra.
  - intros Hall. unfold Spec.percentageInDoubles. rewrite Hall.
    rewrite (fl_compat (inject_Z (Spec.heldClasses course)
                        / inject_Z (Spec.heldClasses course)) 1).
    + reflexivity.
    + field. unfold Qeq. simpl. lia.
  - subst status. unfold calculateAttendanceStatus. cbn [canSkip]. lia.
Qed.

Lemma C4_calculateAttendanceStatus_percentage_witness :
  let course := mkCourse "MATH201" "Mathematics" 75 40 28 0 in
  let status := calculateAttendanceStatus course in
  totalClassesHeld status = 40
  /\ currentPercentage status = JS.round2 (Spec.percentageInDoubles course)
  /\ (0 <= 28 <= 40 ->
      (Qabs (currentPercentage status - Spec.exactPercentage course) <= 51 # 10000)%Q)
  /\ (28 = 40 -> (currentPercentage status == 100)%Q)
  /\ 0 <= canSkip status.
Proof.
  apply (C4_calculateAttendanceStatus_percentage
           (mkCourse "MATH201" "Mathematics" 75 40 28 0)).
  reflexivity.
Defined.

(** C10: for every Course with totalClassesScheduled = classesCancelled
    (no class held) and classesAttended = 0,
    [isAttendanceRecoverable] with no remaining class returns false
    whatever the required percentage is: the maximum possible percentage
    is 0 / 0. *)
Theorem C10_isAttendanceRecoverable_nothing_held (course : Course) :
  totalClassesScheduled course = classesCancelled course ->
  classesAttended course = 0 ->
  isAttendanceRecoverable course 0 = false.
Proof.
  intros Hheld Hattended. unfold isAttendanceRecoverable.
  rewrite Hheld, Hattended, Z.sub_diag. reflexivity.
Qed.

Lemma C10_isAttendanceRecoverable_nothing_held_witness :
  isAttendanceRecoverable nothingHeld 0 = false.
Proof.
  apply C10_isAttendanceRecoverable_nothing_held; reflexivity.
Defined.

End AttendanceClaims.

(** ** Computations that only read the data manager *)

Section ReadOnly.

Lemma readOnly_ret {A : Type} (a : A) : readOnly (ret a).
Proof. intros dm. reflexivity. Qed.

Lemma readOnly_reads {A : Type} (f : DataManager -> A) : readOnly (reads f).
Proof. intros dm. reflexivity. Qed.

Lemma readOnly_bind {A B : Type} (c : DM A) (k : A -> DM B) :
  readOnly c -> (forall a, readOnly (k a)) -> readOnly (bind c k).
Proof.
  intros Hc Hk dm. unfold after, bind.
  specialize (Hc dm). unfold after in Hc.
  destruct (c dm) as [a dm']. simpl in Hc. subst dm'. apply Hk.
Qed.

Lemma readOnly_forEach {A B : Type} (l : list A) (body : B -> A -> DM B) :
  (forall acc x, readOnly (body acc x)) -> forall acc, readOnly (forEach l body acc).
Proof.
  intros Hbody. induction l as [|x rest IH]; intros acc; simpl.
  - apply readOnly_ret.
  - apply readOnly_bind; [apply Hbody|exact IH].
Qed.

(** A read-only computation run after another sees the same data. *)
Lemma bind_readOnly {A B : Type} (c : DM A) (k : A -> DM B) (dm : DataManager) :
  readOnly c -> bind c k dm = k (result c dm) dm.
Proof.
  intros Hc. unfold bind, result. specialize (Hc dm). unfold after in Hc.
  destruct (c dm) as [a dm']. simpl in *. now subst dm'.
Qed.

(** A method that assigns to a stored course is not read-only. *)
Example updateCourseAttendance_writes :
  courses (after (DataManagerMethods.updateCourseAttendance "CS101" 36 41 0)
             Fixtures.manager)
  <> courses Fixtures.manager.
Proof. vm_compute. discriminate. Qed.

End ReadOnly.

Create HintDb readonly.
#[export] Hint Resolve readOnly_ret readOnly_reads : readonly.

Section EngineReads.

Import DataManagerMethods CollegeDecisionEngine.

Variable getDay : string -> nat.
Variable datesBetween : string -> string -> list string.
Variable thirtyDaysAfter : string -> string.
Variable showNumber : Q -> string.

Lemma readOnly_getScheduleForDate (date : string) :
  readOnly (getScheduleForDate getDay date).
Proof.
  unfold getScheduleForDate. apply readOnly_bind.
  - unfold getScheduleOverride. auto with readonly.
  - intros [o|]; unfold getDaySchedule; auto with readonly.
Qed.

Lemma readOnly_getUpcomingSchedule (startDate endDate : string) :
  readOnly (getUpcomingSchedule getDay datesBetween startDate endDate).
Proof.
  unfold getUpcomingSchedule. apply readOnly_forEach. intros acc dateStr.
  apply readOnly_bind; [apply readOnly_getScheduleForDate|].
  intros [|c cs]; auto with readonly.
Qed.

Lemma readOnly_buildDecisionContext (date : string) :
  readOnly (buildDecisionContext getDay datesBetween thirtyDaysAfter date).
Proof.
  unfold buildDecisionContext.
  apply readOnly_bind; [unfold getAllCourses; auto with readonly|]. intros cs.
  apply readOnly_bind; [apply readOnly_getScheduleForDate|]. intros schedule.
  apply readOnly_bind; [unfold getPreferences; auto with readonly|]. intros prefs.
  apply readOnly_bind; [apply readOnly_getUpcomingSchedule|]. intros upcoming.
  auto with readonly.
Qed.

Lemma buildDecisionContext_result (date : string) (dm : DataManager) :
  result (buildDecisionContext getDay datesBetween thirtyDaysAfter date) dm
  = mkDecisionContext date (courses dm)
      (result (getScheduleForDate getDay date) dm)
      (AttendanceCalculator.getAttendanceSummary (courses dm))
      (preferences dm)
      (result (getUpcomingSchedule getDay datesBetween date (thirtyDaysAfter date)) dm).
Proof.
  unfold buildDecisionContext, getAllCourses, getPreferences.
  unfold result at 1.
  rewrite (bind_readOnly (reads courses)) by auto with readonly.
  rewrite (bind_readOnly (getScheduleForDate getDay date))
    by apply readOnly_getScheduleForDate.
  rewrite (bind_readOnly (reads preferences)) by auto with readonly.
  rewrite (bind_readOnly (getUpcomingSchedule getDay datesBetween date _))
    by apply readOnly_getUpcomingSchedule.
  reflexivity.
Qed.

(** The fields of the context the engine reads afterwards. *)
Lemma buildDecisionContext_fields (date : string) (dm : DataManager) :
  let context :=
    result (buildDecisionContext getDay datesBetween thirtyDaysAfter date) dm in
  context_courses context = courses dm
  /\ daySchedule context = result (getScheduleForDate getDay date) dm
  /\ context_preferences context = preferences dm.
Proof.
  cbv zeta. rewrite buildDecisionContext_result. simpl. auto.
Qed.

(** [analyzeDay], with its two reads of the data manager resolved. *)
Lemma analyzeDay_result (date : string) (dm : DataManager) :
  let context :=
    result (buildDecisionContext getDay datesBetween thirtyDaysAfter date) dm in
  let scheduledClasses := result (getScheduleForDate getDay date) dm in
  result (analyzeDay getDay datesBetween thirtyDaysAfter showNumber date) dm
  = match scheduledClasses with
    | [] => mkDayAnalysis date [] false [] ["No classes scheduled for this day"] [] []
    | _ :: _ =>
        let attendanceImpact := calculateAttendanceImpact scheduledClasses context in
        let mustAttendClasses := findMustAttendClasses context in
        let optimization :=
          ScheduleOptimizer.optimizeClassSelection showNumber scheduledClasses
            mustAttendClasses (context_preferences context) in
        let decision :=
          ScheduleOptimizer.shouldGoToCollege showNumber scheduledClasses
            mustAttendClasses (context_preferences context) in
        mkDayAnalysis date scheduledClasses
          (ScheduleOptimizer.decision_shouldGo decision)
          (map courseId (ScheduleOptimizer.selectedClasses optimization))
          (buildReasoning showNumber decision optimization attendanceImpact context)
          (ScheduleOptimizer.calculateTimeGaps
             (ScheduleOptimizer.selectedClasses optimization))
          attendanceImpact
    end.
Proof.
  intros context scheduledClasses. unfold analyzeDay.
  unfold result at 1.
  rewrite (bind_readOnly (buildDecisionContext _ _ _ date))
    by apply readOnly_buildDecisionContext.
  rewrite (bind_readOnly (getScheduleForDate getDay date))
    by apply readOnly_getScheduleForDate.
  fold context scheduledClasses.
  destruct scheduledClasses; reflexivity.
Qed.

Lemma readOnly_analyzeDay (date : string) :
  readOnly (analyzeDay getDay datesBetween thirtyDaysAfter showNumber date).
Proof.
  unfold analyzeDay.
  apply readOnly_bind; [apply readOnly_buildDecisionContext|]. intros context.
  apply readOnly_bind; [apply readOnly_getScheduleForDate|].
  intros [|c cs]; auto with readonly.
Qed.

(** An override for the date replaces the weekly template. *)
Lemma getScheduleForDate_override (date : string) (dm : DataManager)
    (o : ScheduleOverride) :
  result (getScheduleOverride date) dm = Some o ->
  result (getScheduleForDate getDay date) dm = classes o.
Proof.
  intros Ho. unfold getScheduleForDate, result.
  rewrite bind_readOnly by (unfold getScheduleOverride; auto with readonly).
  now rewrite Ho.
Qed.

End EngineReads.

(** ** The go / no-go decision *)

Section Decision.

Import ScheduleOptimizer AttendanceCalculator CollegeDecisionEngine.

Variable showNumber : Q -> string.

Lemma ltb_Qlt (a b : Q) : JS.ltb a b = true <-> (a < b)%Q.
Proof.
  unfold JS.ltb. rewrite negb_true_iff. split.
  - intros Hle. apply Qnot_le_lt. intros Hba.
    apply Qle_bool_iff in Hba. congruence.
  - intros Hlt. destruct (Qle_bool b a) eqn:Hle; [|reflexivity].
    apply Qle_bool_iff in Hle. exfalso. now apply (Qlt_not_le a b).
Qed.

Lemma mustAttendCourse_needsAttendance (course : Course) :
  mustAttendCourse course = true
  <-> Spec.needsAttendance course (calculateAttendanceStatus course).
Proof.
  unfold mustAttendCourse, Spec.needsAttendance.
  rewrite !orb_true_iff, ltb_Qlt, Z.eqb_eq. tauto.
Qed.

(** What the [forEach] of [findMustAttendClasses] leaves in the list. *)
Lemma findMustAttendClasses_fold (cs : list Course) (wanted : string) :
  forall (schedule : list ClassTime) (acc : list string),
    In wanted
      (fold_left
         (fun mustAttend classTime =>
            match findCourse cs (courseId classTime) with
            | None => mustAttend
            | Some course =>
                if mustAttendCourse course
                then mustAttend ++ [courseId classTime]
                else mustAttend
            end)
         schedule acc)
    <-> In wanted acc
        \/ exists c course,
             In c schedule /\ courseId c = wanted
             /\ findCourse cs wanted = Some course
             /\ mustAttendCourse course = true.
Proof.
  induction schedule as [|x rest IH]; intros acc; simpl.
  - split; [now left|]. intros [H|[c [course [[] _]]]]. exact H.
  - rewrite IH. split.
    + intros [Hacc|[c [course [Hin Hrest]]]].
      * destruct (findCourse cs (courseId x)) as [course|] eqn:Hfind; [|now left].
        destruct (mustAttendCourse course) eqn:Hmust; [|now left].
        apply in_app_or in Hacc. destruct Hacc as [Hacc|[<-|[]]]; [now left|].
        right. exists x, course. auto.
      * right. exists c, course. split; [now right|exact Hrest].
    + intros [Hacc|[c [course [[->|Hin] [Hid [Hfind Hmust]]]]]].
      * left. destruct (findCourse cs (courseId x)) as [course|]; [|exact Hacc].
        destruct (mustAttendCourse course); [|exact Hacc].
        apply in_or_app. now left.
      * left. rewrite Hid, Hfind, Hmust. apply in_or_app. right. now left.
      * right. exists c, course. auto.
Qed.

Lemma findMustAttendClasses_In (context : DecisionContext) (wanted : string) :
  In wanted (findMustAttendClasses context)
  <-> exists c course,
        In c (daySchedule context) /\ courseId c = wanted
        /\ findCourse (context_courses context) wanted = Some course
        /\ mustAttendCourse course = true.
Proof.
  unfold findMustAttendClasses. rewrite findMustAttendClasses_fold.
  split; [intros [[]|H]; exact H|now right].
Qed.

Lemma includes_nil_filter (l : list ClassTime) :
  List.filter (fun c => JS.includes [] (courseId c)) l = [].
Proof. induction l; simpl; auto. Qed.

(** The [shouldGo] of [shouldGoToCollege] on a day with classes. *)
Lemma shouldGoToCollege_shouldGo (dayClasses : list ClassTime)
    (mustAttend : list string) (preferences : UserPreferences) :
  dayClasses <> [] ->
  let selection :=
    selectedClasses (optimizeClassSelection showNumber dayClasses mustAttend preferences) in
  decision_shouldGo (shouldGoToCollege showNumber dayClasses mustAttend preferences)
  = match List.filter (fun c => JS.includes mustAttend (courseId c)) dayClasses with
    | _ :: _ => true
    | [] =>
        negb (Z.of_nat (length selection) <? minimumClassesPerDay preferences)
        && negb (maxGapBetweenClasses preferences
                 <? maxGapOf (calculateTimeGaps selection))
    end.
Proof.
  intros Hne selection. subst selection. unfold shouldGoToCollege.
  destruct dayClasses as [|d ds]; [contradiction|].
  destruct (List.filter (fun c => JS.includes mustAttend (courseId c)) (d :: ds));
    [|reflexivity].
  cbv zeta. unfold violatesPreferences.
  cbn [decision_shouldGo violatesGapLimit].
  destruct (Z.of_nat _ <? minimumClassesPerDay preferences);
    destruct (maxGapBetweenClasses preferences <? _); reflexivity.
Qed.

End Decision.

(** ** The confidence score *)

Section Confidence.

Import ScheduleOptimizer CollegeDecisionEngine.

Lemma gtb_Qlt (a b : Q) : JS.gtb a b = true <-> (b < a)%Q.
Proof. exact (ltb_Qlt b a). Qed.

Lemma round_inject_Z (c : Z) : JS.round (inject_Z c) = c.
Proof.
  unfold JS.round, Qfloor, Qplus, inject_Z. simpl.
  symmetry. apply Z.div_unique with (r := 1); lia.
Qed.

Lemma max_min_clamp (c : Z) : Z.max 0 (Z.min 100 c) = Spec.clamp c.
Proof.
  unfold Spec.clamp.
  destruct (Z.ltb_spec c 0); [lia|]. destruct (Z.ltb_spec 100 c); lia.
Qed.

Lemma countWhere_map {A B : Type} (p : B -> bool) (f : A -> B) (l : list A) :
  countWhere p (map f l)
  = Z.of_nat (length (List.filter (fun x => p (f x)) l)).
Proof.
  unfold countWhere. f_equal.
  induction l as [|x l IH]; simpl; [reflexivity|].
  destruct (p (f x)); simpl; now rewrite IH.
Qed.

Lemma maxGapOf_over (gaps : list TimeGap) (bound : Z) :
  0 <= bound -> (bound <? maxGapOf gaps) = (bound <? Spec.largestGap gaps).
Proof.
  intros Hbound. unfold maxGapOf, Spec.largestGap.
  destruct gaps as [|g gs]; [reflexivity|]. simpl.
  assert (Hmax : forall ds d,
             Z.max 0 (fold_left Z.max ds d) = Z.max d (fold_right Z.max 0 ds)).
  { induction ds as [|x ds IH]; intros d; simpl; [lia|]. rewrite IH. lia. }
  specialize (Hmax (map duration gs) (duration g)).
  destruct (Z.ltb_spec bound (fold_left Z.max (map duration gs) (duration g)));
    destruct (Z.ltb_spec bound
                (Z.max (duration g) (fold_right Z.max 0 (map duration gs))));
    try reflexivity; lia.
Qed.

Lemma efficiency_adjustment (confidence totalTime : Z) :
  (if JS.ltb (inject_Z totalTime / 240) (5 # 10) then confidence - 20
   else if JS.gtb (inject_Z totalTime / 240) (15 # 10) then confidence + 10
   else confidence)
  = confidence + Spec.efficiencyAdjustment totalTime.
Proof.
  unfold Spec.efficiencyAdjustment.
  set (ratio := (inject_Z totalTime / 240)%Q).
  assert (Hhalf : ((5 # 10) == (1 # 2))%Q) by reflexivity.
  assert (Hthree : ((15 # 10) == (3 # 2))%Q) by reflexivity.
  destruct (JS.ltb ratio (5 # 10)) eqn:Hlow.
  - apply ltb_Qlt in Hlow. rewrite Hhalf in Hlow.
    destruct (Qlt_le_dec ratio (1 # 2)) as [_|Hge]; [lia|].
    exfalso. now apply (Qlt_not_le ratio (1 # 2)).
  - destruct (Qlt_le_dec ratio (1 # 2)) as [Hlt|_].
    { rewrite <- Hhalf in Hlt. apply ltb_Qlt in Hlt. congruence. }
    destruct (JS.gtb ratio (15 # 10)) eqn:Hhigh.
    + apply gtb_Qlt in Hhigh. rewrite Hthree in Hhigh.
      destruct (Qlt_le_dec (3 # 2) ratio) as [_|Hle]; [lia|].
      exfalso. now apply (Qlt_not_le (3 # 2) ratio).
    + destruct (Qlt_le_dec (3 # 2) ratio) as [Hlt|_]; [|lia].
      rewrite <- Hthree in Hlt. apply gtb_Qlt in Hlt. congruence.
Qed.

Lemma calculateConfidenceScore_spec (analysis : DayAnalysis) :
  calculateConfidenceScore analysis = Spec.confidenceScore true analysis.
Proof.
  unfold calculateConfidenceScore, Spec.confidenceScore.
  rewrite round_inject_Z, max_min_clamp, countWhere_map.
  rewrite (maxGapOf_over (timeGaps analysis) 180) by lia.
  fold (Spec.requiredFound analysis). fold (Spec.onCampusMinutes analysis).
  rewrite efficiency_adjustment.
  destruct (shouldGo analysis), (scheduledClasses analysis) as [|s ss],
    (recommendedClasses analysis) as [|r rs];
    simpl; try reflexivity; f_equal;
    destruct (180 <? Spec.largestGap (timeGaps analysis)); lia.
Qed.

End Confidence.

(** ** Simulating a day's attendance *)

Section Simulation.

Import DataManagerMethods AttendanceCalculator CollegeDecisionEngine.

Variable getDay : string -> nat.

Lemma readOnly_simulateClass (ids : list string) (entries : gmap string Simulated)
    (classTime : ClassTime) :
  readOnly (simulateClass ids entries classTime).
Proof.
  unfold simulateClass.
  apply readOnly_bind; [unfold getCourse; auto with readonly|].
  intros [course|]; auto with readonly.
Qed.

Lemma readOnly_simulateAttendanceDecision (date : string) (ids : list string) :
  readOnly (simulateAttendanceDecision getDay date ids).
Proof.
  unfold simulateAttendanceDecision.
  apply readOnly_bind; [apply readOnly_getScheduleForDate|]. intros dayClasses.
  apply readOnly_forEach. apply readOnly_simulateClass.
Qed.

Lemma simulateClass_result (dm : DataManager) (ids : list string)
    (entries : gmap string Simulated) (classTime : ClassTime) :
  result (simulateClass ids entries classTime) dm
  = Spec.writeEntry dm ids entries classTime.
Proof.
  unfold simulateClass, result, bind, getCourse, reads.
  unfold Spec.writeEntry, Spec.simulatedEntry, Spec.hypotheticalPercentage,
    Spec.classify.
  destruct (findCourse (courses dm) (courseId classTime)) as [course|];
    [|reflexivity].
  cbv zeta. unfold ret. cbn [fst].
  destruct (JS.includes ids (courseId classTime)); rewrite ?Z.add_0_r; reflexivity.
Qed.

(** Away from the two thresholds the rounding of the doubles does not
    change the verdict. *)
Lemma classify_exactly (a h : Z) (required : Q) :
  0 <= a <= h -> 0 < h ->
  (0 <= required)%Q -> (required <= 100)%Q ->
  let exact := (inject_Z a / inject_Z h * 100)%Q in
  Spec.clearOf exact required ->
  Spec.clearOf exact (required + 5) ->
  Spec.classify (JS.times100 (JS.div a h)) required
  = Spec.classifyExactly exact required.
Proof.
  intros Ha Hh Hr0 Hr100 exact. unfold Spec.clearOf. intros Hclear Hclear5.
  unfold Spec.classify, Spec.classifyExactly, JS.div.
  destruct (Z.eqb_spec h 0) as [Hzero|_]; [lia|].
  cbn [JS.times100 JS.num_ltb].
  set (p0 := (inject_Z a / inject_Z h)%Q) in *.
  assert (Hhq : (0 < inject_Z h)%Q) by (rewrite Zlt_Qlt in Hh; exact Hh).
  assert (Hp0 : (0 <= p0)%Q).
  { subst p0. apply Qle_shift_div_l; [exact Hhq|].
    rewrite Qmult_0_l. change 0%Q with (inject_Z 0). rewrite <- Zle_Qle. lia. }
  assert (Hp1 : (p0 <= 1)%Q).
  { subst p0. apply Qle_shift_div_r; [exact Hhq|].
    rewrite Qmult_1_l. rewrite <- Zle_Qle. lia. }
  destruct (fl_error p0 Hp0) as [L1 U1].
  set (d1 := JS.fl p0) in *.
  assert (Hd1 : (0 <= d1 * 100)%Q) by (unfold JS.ulpHalf in L1; lra).
  destruct (fl_error _ Hd1) as [L2 U2].
  set (p := JS.fl (d1 * 100)) in *.
  assert (Hr5 : (0 <= required + 5)%Q) by lra.
  destruct (fl_error _ Hr5) as [L3 U3].
  set (t := JS.fl (required + 5)) in *.
  unfold JS.ulpHalf in *.
  assert (Hfirst : JS.ltb p required = JS.ltb exact required).
  { destruct (Qlt_le_dec exact required) as [Hlt|Hge].
    - rewrite Qabs_neg in Hclear by lra.
      rewrite (proj2 (ltb_Qlt exact required) Hlt).
      apply ltb_Qlt. subst exact. lra.
    - rewrite Qabs_pos in Hclear by lra.
      destruct (JS.ltb exact required) eqn:He;
        [apply ltb_Qlt in He; lra|].
      destruct (JS.ltb p required) eqn:Hp; [|reflexivity].
      apply ltb_Qlt in Hp. subst exact. lra. }
  assert (Hsecond : JS.ltb p t = JS.ltb exact (required + 5)).
  { destruct (Qlt_le_dec exact (required + 5)) as [Hlt|Hge].
    - rewrite Qabs_neg in Hclear5 by lra.
      rewrite (proj2 (ltb_Qlt exact (required + 5)) Hlt).
      apply ltb_Qlt. subst exact. lra.
    - rewrite Qabs_pos in Hclear5 by lra.
      destruct (JS.ltb exact (required + 5)) eqn:He;
        [apply ltb_Qlt in He; lra|].
      destruct (JS.ltb p t) eqn:Hp; [|reflexivity].
      apply ltb_Qlt in Hp. subst exact. lra. }
  now rewrite Hfirst, Hsecond.
Qed.

Lemma simulate_loop (dm : DataManager) (ids : list string) :
  forall (dayClasses : list ClassTime) (entries : gmap string Simulated),
    result (forEach dayClasses (simulateClass ids) entries) dm
    = fold_left (Spec.writeEntry dm ids) dayClasses entries.
Proof.
  induction dayClasses as [|x rest IH]; intros entries; [reflexivity|].
  simpl forEach. unfold result at 1.
  rewrite bind_readOnly by apply readOnly_simulateClass.
  rewrite simulateClass_result. apply IH.
Qed.

Lemma writeEntry_fold_lookup (dm : DataManager) (ids : list string)
    (wanted : string) (entry : Simulated) :
  Spec.simulatedEntry dm ids wanted = Some entry ->
  forall (dayClasses : list ClassTime) (entries : gmap string Simulated),
    (exists c, In c dayClasses /\ courseId c = wanted) \/ entries !! wanted = Some entry ->
    fold_left (Spec.writeEntry dm ids) dayClasses entries !! wanted = Some entry.
Proof.
  intros Hentry. induction dayClasses as [|x rest IH]; intros entries Hcase; simpl.
  - destruct Hcase as [[c [[] _]]|Hhas]. exact Hhas.
  - apply IH. unfold Spec.writeEntry.
    destruct (decide (courseId x = wanted)) as [Heq|Hne].
    + right. rewrite Heq, Hentry. apply lookup_insert_eq.
    + destruct Hcase as [[c [[->|Hin] Hid]]|Hhas]; [contradiction| |].
      * left. now exists c.
      * right. destruct (Spec.simulatedEntry dm ids (courseId x)); [|exact Hhas].
        now rewrite lookup_insert_ne.
Qed.

End Simulation.


Module EngineClaims.

Import DataManagerMethods AttendanceCalculator ScheduleOptimizer CollegeDecisionEngine.
Import Fixtures.

Section Claims.

Variable getDay : string -> nat.
Variable datesBetween : string -> string -> list string.
Variable thirtyDaysAfter : string -> string.
Variable showNumber : Q -> string.

(** C1: for every date with a non-empty resolved schedule: a scheduled
    class whose course is in the roster is among the must-attend ids
    iff the status of its course has currentPercentage <
    requiredAttendancePercentage, or canSkip = 0, or isAtRisk; the
    decision of [analyzeDay] is go if the must-attend list is non-empty;
    otherwise it is go exactly when the optimized selection has at
    least minimumClassesPerDay classes and its largest gap does not
    exceed maxGapBetweenClasses. *)
Theorem C1_go_no_go_decision (date : string) (dm : DataManager) :
  result (getScheduleForDate getDay date) dm <> [] ->
  let schedule := result (getScheduleForDate getDay date) dm in
  let context :=
    result (buildDecisionContext getDay datesBetween thirtyDaysAfter date) dm in
  let mustAttend := findMustAttendClasses context in
  let selection :=
    selectedClasses
      (optimizeClassSelection showNumber schedule mustAttend (preferences dm)) in
  let analysis :=
    result (analyzeDay getDay datesBetween thirtyDaysAfter showNumber date) dm in
  (forall (c : ClassTime) (course : Course),
      In c schedule ->
      result (getCourse (courseId c)) dm = Some course ->
      (In (courseId c) mustAttend
       <-> Spec.needsAttendance course (calculateAttendanceStatus course)))
  /\ (mustAttend <> [] -> shouldGo analysis = true)
  /\ (mustAttend = [] ->
      (shouldGo analysis = true
       <-> minimumClassesPerDay (preferences dm) <= Z.of_nat (length selection)
           /\ Spec.largestGap (Spec.gapsOf selection)
              <= maxGapBetweenClasses (preferences dm))).
Proof.
  intros Hne schedule context mustAttend selection analysis.
  destruct (buildDecisionContext_fields getDay datesBetween thirtyDaysAfter date dm)
    as [Hcourses [Hday Hprefs]].
  fold context in Hcourses, Hday, Hprefs. fold schedule in Hday.
  assert (Hgo : shouldGo analysis
                = decision_shouldGo
                    (shouldGoToCollege showNumber schedule mustAttend (preferences dm))).
  { subst analysis. rewrite analyzeDay_result. fold schedule context.
    destruct schedule as [|s ss] eqn:Hs; [contradiction|].
    cbv zeta. cbn [shouldGo]. fold mustAttend. now rewrite Hprefs. }
  rewrite Hgo, (shouldGoToCollege_shouldGo showNumber schedule mustAttend
                  (preferences dm) Hne).
  fold selection.
  split; [|split].
  - intros c course Hc Hcourse.
    rewrite <- mustAttendCourse_needsAttendance.
    subst mustAttend. rewrite findMustAttendClasses_In, Hcourses, Hday.
    unfold result, getCourse, reads in Hcourse. simpl in Hcourse.
    split.
    + intros [c' [course' [_ [_ [Hfind Hmust]]]]]. congruence.
    + intros Hmust. exists c, course. auto.
  - intros Hmust.
    destruct mustAttend as [|wanted others] eqn:Hlist; [contradiction|].
    assert (Hin : In wanted (findMustAttendClasses context))
      by (fold mustAttend; rewrite Hlist; now left).
    apply findMustAttendClasses_In in Hin.
    destruct Hin as [c [course [Hc [Hid _]]]]. rewrite Hday in Hc.
    assert (Hfilter : In c (List.filter
                              (fun d => JS.includes (wanted :: others) (courseId d))
                              schedule)).
    { apply filter_In. split; [exact Hc|].
      apply includes_In. rewrite Hid. now left. }
    destruct (List.filter _ schedule); [destruct Hfilter|reflexivity].
  - intros ->. rewrite includes_nil_filter.
    rewrite calculateTimeGaps_gapsOf.
    rewrite (maxGapOf_largestGap (Spec.gapsOf selection))
      by apply reportedGaps_positive.
    rewrite andb_true_iff, !negb_true_iff, !Z.ltb_ge. tauto.
Qed.

(** C6: for every date whose resolved schedule is empty - in particular
    a date whose ScheduleOverride lists zero classes, whatever the
    weekly template holds - [analyzeDay] returns no scheduled class,
    shouldGo = false, recommendedClasses = [], timeGaps = [], a
    reasoning list with the line "No classes scheduled for this day",
    and the confidence score of that analysis is 100. *)
Theorem C6_empty_schedule_is_no_go (date : string) (dm : DataManager) :
  (exists o, result (getScheduleOverride date) dm = Some o /\ classes o = [])
  \/ result (getScheduleForDate getDay date) dm = [] ->
  let analysis :=
    result (analyzeDay getDay datesBetween thirtyDaysAfter showNumber date) dm in
  result (getScheduleForDate getDay date) dm = []
  /\ scheduledClasses analysis = []
  /\ shouldGo analysis = false
  /\ recommendedClasses analysis = []
  /\ timeGaps analysis = []
  /\ In "No classes scheduled for this day" (reasoning analysis)
  /\ calculateConfidenceScore analysis = 100.
Proof.
  intros Hempty analysis.
  assert (Hnone : result (getScheduleForDate getDay date) dm = []).
  { destruct Hempty as [[o [Ho Hclasses]]|Hnone]; [|exact Hnone].
    rewrite (getScheduleForDate_override getDay date dm o Ho). exact Hclasses. }
  subst analysis. rewrite analyzeDay_result, Hnone. cbv zeta.
  repeat split; try reflexivity. now left.
Qed.

(** C9, amended: for every date and every list of attendedCourseIds, for
    each class scheduled that day whose course is in the roster,
    [simulateAttendanceDecision] records under the course id the
    hypothetical percentage (classesAttended + 1 if the course id is in
    attendedCourseIds, else classesAttended) / (heldClasses + 1) x 100
    computed on doubles, rounded to two decimals, with the impact critical
    when that double is below requiredAttendancePercentage, warning when
    it is below requiredAttendancePercentage + 5, and safe otherwise; for
    counters with 0 <= attended <= heldClasses + 1 and a required
    percentage between 0 and 100 this is the verdict of the exact
    percentage whenever the exact percentage is farther than 10^-9 from
    both thresholds; and the call leaves the data manager, hence every
    stored Course, unchanged. *)
Theorem C9_simulation_is_a_pure_projection (date : string)
    (attendedCourseIds : list string) (dm : DataManager)
    (c : ClassTime) (course : Course) :
  In c (result (getScheduleForDate getDay date) dm) ->
  result (getCourse (courseId c)) dm = Some course ->
  let simulation := simulateAttendanceDecision getDay date attendedCourseIds in
  let attends := JS.includes attendedCourseIds (courseId c) in
  let percentage := Spec.hypotheticalPercentage course attends in
  let exact := Spec.exactHypotheticalPercentage course attends in
  let required := requiredAttendancePercentage course in
  result simulation dm !! courseId c
  = Some (mkSimulated (JS.num_round2 percentage) (Spec.classify percentage required))
  /\ (0 <= classesAttended course <= Spec.heldClasses course ->
      (0 <= required)%Q -> (required <= 100)%Q ->
      Spec.clearOf exact required ->
      Spec.clearOf exact (required + 5) ->
      Spec.classify percentage required = Spec.classifyExactly exact required)
  /\ after simulation dm = dm
  /\ courses (after simulation dm) = courses dm.
Proof.
  intros Hc Hcourse simulation attends percentage exact required.
  pose proof (readOnly_simulateAttendanceDecision getDay date attendedCourseIds dm)
    as Hframe.
  fold simulation in Hframe.
  split; [|split; [|split; [exact Hframe|now rewrite Hframe]]].
  - subst simulation. unfold simulateAttendanceDecision, result at 1.
    rewrite bind_readOnly by apply readOnly_getScheduleForDate.
    fold (result (forEach (result (getScheduleForDate getDay date) dm)
                    (simulateClass attendedCourseIds) ∅) dm).
    rewrite simulate_loop.
    apply writeEntry_fold_lookup; [|left; now exists c].
    unfold Spec.simulatedEntry.
    unfold result, getCourse, reads in Hcourse. simpl in Hcourse.
    now rewrite Hcourse.
  - intros Hcounters Hr0 Hr100 Hclear Hclear5.
    subst percentage exact.
    unfold Spec.hypotheticalPercentage, Spec.exactHypotheticalPercentage in *.
    unfold Spec.heldClasses in Hcounters.
    apply classify_exactly; try assumption; destruct attends; lia.
Qed.

End Claims.

(** C9, as stated, fails.  The physics course requires 58% and has 28 of
    49 held classes attended; attending its Saturday class makes the
    hypothetical percentage 29 / 50 x 100 = 58, which is not below 58, so
    the stated rule gives warning.  The code computes (29 / 50) * 100 on
    doubles, which is 57.99999999999999, and records critical. *)
Lemma C9_simulation_counterexample :
  let simulation := simulateAttendanceDecision saturday "2024-02-03" ["PHY101"] in
  impact <$> (result simulation physicsManager !! "PHY101") = Some "critical"
  /\ (Spec.exactHypotheticalPercentage physics true == 58)%Q
  /\ Spec.classifyExactly (Spec.exactHypotheticalPercentage physics true)
       (requiredAttendancePercentage physics)
     = "warning".
Proof. vm_compute. repeat split. Qed.

(** C7, as stated, fails.  On 2024-02-03 the data manager of the
    scenarios has one optional class and a minimum of two: [analyzeDay]
    decides no-go and recommends nothing.  The code gives that analysis
    the confidence 70, where the stated rule, with an on-campus time of 0
    minutes and so a ratio below 0.5, gives 50. *)
Lemma C7_confidence_counterexample :
  let analysis :=
    result (analyzeDay saturday noDates sameDate plain "2024-02-03") manager in
  calculateConfidenceScore analysis = 70
  /\ Spec.confidenceScore false analysis = 50
  /\ calculateConfidenceScore analysis <> Spec.confidenceScore false analysis.
Proof. vm_compute. repeat split; discriminate. Qed.

(** C7, amended: for every DayAnalysis the confidence score is 100 when
    the decision is no-go and there are no scheduled classes; 20 when the
    decision is go but no classes were recommended; otherwise base 70,
    plus 10 per attendance-impact entry flagged as required, minus 15 if
    the largest gap of the analysis exceeds 180 minutes and, only when at
    least one class is recommended, minus 20 if the ratio of on-campus
    time to the 240-minute travel budget is below 0.5 and plus 10 if it
    is above 1.5, with the result clamped to [0, 100]. *)
Theorem C7_confidence_score (analysis : DayAnalysis) :
  calculateConfidenceScore analysis = Spec.confidenceScore true analysis.
Proof. apply calculateConfidenceScore_spec. Qed.

Lemma C1_go_no_go_decision_witness :
  let schedule := result (getScheduleForDate saturday "2024-01-27") manager in
  let context :=
    result (buildDecisionContext saturday noDates sameDate "2024-01-27") manager in
  let mustAttend := findMustAttendClasses context in
  let selection :=
    selectedClasses
      (optimizeClassSelection plain schedule mustAttend (preferences manager)) in
  let analysis :=
    result (analyzeDay saturday noDates sameDate plain "2024-01-27") manager in
  (forall (c : ClassTime) (course : Course),
      In c schedule ->
      result (getCourse (courseId c)) manager = Some course ->
      (In (courseId c) mustAttend
       <-> Spec.needsAttendance course (calculateAttendanceStatus course)))
  /\ (mustAttend <> [] -> shouldGo analysis = true)
  /\ (mustAttend = [] ->
      (shouldGo analysis = true
       <-> minimumClassesPerDay (preferences manager) <= Z.of_nat (length selection)
           /\ Spec.largestGap (Spec.gapsOf selection)
              <= maxGapBetweenClasses (preferences manager))).
Proof.
  apply (C1_go_no_go_decision saturday noDates sameDate plain "2024-01-27" manager).
  discriminate.
Defined.

Lemma C6_empty_schedule_is_no_go_witness :
  let analysis :=
    result (analyzeDay saturday noDates sameDate plain "2024-01-20") manager in
  result (getScheduleForDate saturday "2024-01-20") manager = []
  /\ scheduledClasses analysis = []
  /\ shouldGo analysis = false
  /\ recommendedClasses analysis = []
  /\ timeGaps analysis = []
  /\ In "No classes scheduled for this day" (reasoning analysis)
  /\ calculateConfidenceScore analysis = 100.
Proof.
  apply (C6_empty_schedule_is_no_go saturday noDates sameDate plain
           "2024-01-20" manager).
  left. exists (mkScheduleOverride "2024-01-20" [] (Some "holiday")).
  split; reflexivity.
Defined.

Lemma C9_simulation_is_a_pure_projection_witness :
  let simulation := simulateAttendanceDecision saturday "2024-01-27" ["CS101"] in
  let percentage := Spec.hypotheticalPercentage math201 false in
  let exact := Spec.exactHypotheticalPercentage math201 false in
  result simulation manager !! "MATH201"
  = Some (mkSimulated (JS.num_round2 percentage) (Spec.classify percentage 75))
  /\ (0 <= 28 <= 40 ->
      (0 <= 75)%Q -> (75 <= 100)%Q ->
      Spec.clearOf exact 75 ->
      Spec.clearOf exact (75 + 5) ->
      Spec.classify percentage 75 = Spec.classifyExactly exact 75)
  /\ after simulation manager = manager
  /\ courses (after simulation manager) = courses manager.
Proof.
  apply (C9_simulation_is_a_pure_projection saturday "2024-01-27" ["CS101"]
           manager noon math201).
  - right. left. reflexivity.
  - reflexivity.
Defined.

End EngineClaims.

(** ** Attendance requirements *)

Section Requirements.

Import AttendanceCalculator.

Lemma Qceiling_le_iff (x : Q) (z : Z) : Qceiling x <= z <-> (x <= inject_Z z)%Q.
Proof.
  split.
  - intros Hle. eapply Qle_trans; [apply Qle_ceiling|].
    rewrite <- Zle_Qle. exact Hle.
  - intros Hle. destruct (Z_le_gt_dec (Qceiling x) z) as [Hok|Hgt]; [exact Hok|].
    exfalso. apply (Qlt_not_le _ _ (Qceiling_lt x)).
    eapply Qle_trans; [exact Hle|]. rewrite <- Zle_Qle. lia.
Qed.

Lemma inject_Z_pos (h : Z) : 0 < h -> (0 < inject_Z h)%Q.
Proof. intros Hh. change 0%Q with (inject_Z 0). now rewrite <- Zlt_Qlt. Qed.

(** A share of [h] classes is reached by [a] of them iff the percentage
    [a / h x 100] reaches the required one. *)
Lemma share_reached_iff (r : Q) (a h : Z) :
  0 < h ->
  (r / 100 * inject_Z h <= inject_Z a)%Q
  <-> (r <= inject_Z a / inject_Z h * 100)%Q.
Proof.
  intros Hh. pose proof (inject_Z_pos h Hh) as Hpos.
  assert (Hnz : ~ (inject_Z h == 0)%Q).
  { intros Heq. rewrite Heq in Hpos. now apply (Qlt_irrefl 0). }
  assert (Hz : (0 < 100 / inject_Z h)%Q).
  { apply Qlt_shift_div_l; [exact Hpos|]. rewrite Qmult_0_l. reflexivity. }
  rewrite <- (Qmult_le_r (r / 100 * inject_Z h) (inject_Z a) (100 / inject_Z h) Hz).
  assert (E1 : (r / 100 * inject_Z h * (100 / inject_Z h) == r)%Q) by (field; exact Hnz).
  assert (E2 : (inject_Z a * (100 / inject_Z h) == inject_Z a / inject_Z h * 100)%Q)
    by (field; exact Hnz).
  rewrite E1, E2. reflexivity.
Qed.

Lemma requiredOutOf_le_iff (course : Course) (a h : Z) :
  0 < h ->
  Props.shareIsExact course h ->
  requiredOutOf course h <= a
  <-> (requiredAttendancePercentage course <= inject_Z a / inject_Z h * 100)%Q.
Proof.
  intros Hh Hexact. unfold requiredOutOf. rewrite Qceiling_le_iff.
  unfold Props.shareIsExact in Hexact. rewrite Hexact.
  now apply share_reached_iff.
Qed.

End Requirements.

Module RequirementProps.

Import AttendanceCalculator Fixtures.

(** X1: for a course with at least one class held whose share
    (requiredAttendancePercentage / 100) x heldClasses comes out exact on
    doubles, the status needs no further class (classesNeededFor75Percent
    = 0) exactly when the exact percentage classesAttended / heldClasses
    x 100 reaches the required one; and classes needed and classes that
    can be skipped are never both positive. *)
Theorem status_needs_nothing_iff_requirement_met (course : Course) :
  0 < totalClassesScheduled course - classesCancelled course ->
  Props.shareIsExact course (totalClassesScheduled course - classesCancelled course) ->
  let status := calculateAttendanceStatus course in
  (classesNeededFor75Percent status = 0
   <-> (requiredAttendancePercentage course
        <= inject_Z (classesAttended course)
           / inject_Z (totalClassesScheduled course - classesCancelled course) * 100)%Q)
  /\ (classesNeededFor75Percent status = 0 \/ canSkip status = 0).
Proof.
  intros Hheld Hexact status. subst status. unfold calculateAttendanceStatus.
  cbn [classesNeededFor75Percent canSkip].
  rewrite <- (requiredOutOf_le_iff course _ _ Hheld Hexact). lia.
Qed.

Lemma status_needs_nothing_iff_requirement_met_witness :
  let status := calculateAttendanceStatus math201 in
  (classesNeededFor75Percent status = 0
   <-> (requiredAttendancePercentage math201
        <= inject_Z (classesAttended math201)
           / inject_Z (totalClassesScheduled math201 - classesCancelled math201) * 100)%Q)
  /\ (classesNeededFor75Percent status = 0 \/ canSkip status = 0).
Proof.
  apply (status_needs_nothing_iff_requirement_met math201); reflexivity.
Defined.

(** X2: the remaining classes a status reports are the cancelled ones
    (totalClassesScheduled - totalClassesHeld), so a course is at risk
    exactly when the classes it needs exceed 0.8 x classesCancelled. *)
Theorem status_at_risk_iff_needed_exceeds_cancelled (course : Course) :
  let status := calculateAttendanceStatus course in
  remainingClassesScheduled status = classesCancelled course
  /\ (isAtRisk status = true
      <-> (inject_Z (classesCancelled course) * (8 # 10)
           < inject_Z (classesNeededFor75Percent status))%Q).
Proof.
  intros status. subst status. unfold calculateAttendanceStatus. simpl.
  assert (Hrem : totalClassesScheduled course
                 - (totalClassesScheduled course - classesCancelled course)
                 = classesCancelled course) by lia.
  rewrite Hrem. split; [reflexivity|]. apply gtb_Qlt.
Qed.

(** X3: when the term will have held at least one class and the share
    (requiredAttendancePercentage / 100) x (heldClasses + remaining) comes
    out exact on doubles, attending the predicted minimumToAttend of the
    remaining classes reaches the required percentage at the end of the
    term, and attending one class fewer (when the minimum is positive) does
    not; and when the minimum fits in the remaining classes,
    minimumToAttend + canSkip is their number. *)
Theorem predicted_minimum_is_enough_and_needed (course : Course) (remaining : Z) :
  0 < totalClassesScheduled course - classesCancelled course + remaining ->
  Props.shareIsExact course
    (totalClassesScheduled course - classesCancelled course + remaining) ->
  let total := totalClassesScheduled course - classesCancelled course + remaining in
  let future := predictFutureRequirements course remaining in
  (requiredAttendancePercentage course
   <= inject_Z (classesAttended course + minimumToAttend future) / inject_Z total * 100)%Q
  /\ (0 < minimumToAttend future ->
      (inject_Z (classesAttended course + minimumToAttend future - 1)
       / inject_Z total * 100
       < requiredAttendancePercentage course)%Q)
  /\ (minimumToAttend future <= remaining ->
      minimumToAttend future + future_canSkip future = remaining).
Proof.
  intros Htotal Hexact total future. subst total future.
  unfold predictFutureRequirements. cbn [minimumToAttend future_canSkip].
  set (total := totalClassesScheduled course - classesCancelled course + remaining) in *.
  split; [|split].
  - apply (requiredOutOf_le_iff course _ total Htotal Hexact). lia.
  - intros Hpos. apply Qnot_le_lt. intros Hle.
    apply (requiredOutOf_le_iff course _ total Htotal Hexact) in Hle. lia.
  - lia.
Qed.

Lemma predicted_minimum_is_enough_and_needed_witness :
  let total := totalClassesScheduled math201 - classesCancelled math201 + 12 in
  let future := predictFutureRequirements math201 12 in
  (requiredAttendancePercentage math201
   <= inject_Z (classesAttended math201 + minimumToAttend future) / inject_Z total * 100)%Q
  /\ (0 < minimumToAttend future ->
      (inject_Z (classesAttended math201 + minimumToAttend future - 1)
       / inject_Z total * 100
       < requiredAttendancePercentage math201)%Q)
  /\ (minimumToAttend future <= 12 ->
      minimumToAttend future + future_canSkip future = 12).
Proof.
  apply (predicted_minimum_is_enough_and_needed math201 12); reflexivity.
Defined.

(** X4: when the term will have held at least one class, the number of
    remaining classes is not negative, and both the share
    (requiredAttendancePercentage / 100) x (heldClasses + remaining) and
    the percentage ((classesAttended + remaining) / (heldClasses +
    remaining)) x 100 come out exact on doubles, the attendance is
    recoverable exactly when the predicted minimumToAttend fits in the
    remaining classes. *)
Theorem recoverable_iff_minimum_fits (course : Course) (remaining : Z) :
  0 < totalClassesScheduled course - classesCancelled course + remaining ->
  0 <= remaining ->
  Props.shareIsExact course
    (totalClassesScheduled course - classesCancelled course + remaining) ->
  Props.percentageIsExact (classesAttended course + remaining)
    (totalClassesScheduled course - classesCancelled course + remaining) ->
  isAttendanceRecoverable course remaining = true
  <-> minimumToAttend (predictFutureRequirements course remaining) <= remaining.
Proof.
  intros Htotal Hremaining Hshare Hpercentage.
  unfold isAttendanceRecoverable, predictFutureRequirements, JS.div.
  cbn [minimumToAttend].
  set (total := totalClassesScheduled course - classesCancelled course + remaining) in *.
  destruct (Z.eqb_spec total 0) as [Hzero|_]; [lia|].
  cbn [JS.times100 JS.num_geb].
  rewrite Qle_bool_iff. unfold Props.percentageIsExact in Hpercentage.
  rewrite Hpercentage.
  rewrite <- (requiredOutOf_le_iff course _ total Htotal Hshare). lia.
Qed.

Lemma recoverable_iff_minimum_fits_witness :
  isAttendanceRecoverable math201 24 = true
  <-> minimumToAttend (predictFutureRequirements math201 24) <= 24.
Proof.
  apply (recoverable_iff_minimum_fits math201 24);
    [reflexivity|discriminate|reflexivity|reflexivity].
Defined.

End RequirementProps.

(** ** Strategy and day impact *)

Section StrategyAndImpact.

Import AttendanceCalculator Props.

Lemma strategyStep_listed (courses : list Course) (counts : gmap string Z)
    (strategy : Strategy) (classTime : ClassTime) :
  Permutation (listed (strategyStep courses counts strategy classTime))
    (if inRoster courses classTime
     then courseId classTime :: listed strategy
     else listed strategy).
Proof.
  unfold strategyStep, inRoster, listed.
  destruct (findCourse courses (courseId classTime)) as [course|]; [|reflexivity].
  cbv zeta.
  destruct (_ <? _); [|destruct (_ <? _)]; simpl.
  - rewrite <- app_assoc. simpl. symmetry. apply Permutation_middle.
  - rewrite <- (app_assoc (strategy_canSkip strategy)). simpl.
    rewrite !app_assoc. symmetry. apply Permutation_middle.
  - rewrite !app_assoc. symmetry. apply Permutation_cons_append.
Qed.

Lemma strategy_fold_listed (courses : list Course) (counts : gmap string Z) :
  forall (upcoming : list ClassTime) (strategy : Strategy),
    Permutation
      (listed (fold_left (strategyStep courses counts) upcoming strategy))
      (listed strategy ++ map courseId (List.filter (inRoster courses) upcoming)).
Proof.
  induction upcoming as [|x rest IH]; intros strategy; simpl.
  - now rewrite app_nil_r.
  - rewrite IH, strategyStep_listed.
    destruct (inRoster courses x); simpl; [|reflexivity].
    apply Permutation_middle.
Qed.

Lemma setKey_keys {V : Type} (key : string) (value : V) (object : list (string * V)) :
  map fst (setKey key value object)
  = if JS.includes (map fst object) key then map fst object
    else map fst object ++ [key].
Proof.
  induction object as [|[k v] rest IH]; [reflexivity|].
  unfold JS.includes in *. simpl.
  destruct (String.eqb_spec k key) as [->|Hne].
  - now rewrite String.eqb_refl.
  - assert (Hkey : String.eqb key k = false)
      by (apply String.eqb_neq; congruence).
    rewrite Hkey. simpl. rewrite IH.
    now destruct (existsb (String.eqb key) (map fst rest)).
Qed.

Lemma setKey_NoDup {V : Type} (key : string) (value : V) (object : list (string * V)) :
  List.NoDup (map fst object) -> List.NoDup (map fst (setKey key value object)).
Proof.
  intros Hnd. rewrite setKey_keys.
  destruct (JS.includes (map fst object) key) eqn:Hin; [exact Hnd|].
  apply (Permutation_NoDup (Permutation_cons_append (map fst object) key)).
  constructor; [|exact Hnd].
  intros Hk. apply includes_In in Hk. congruence.
Qed.

Lemma setKey_In {V : Type} (key : string) (value : V) (object : list (string * V))
    (k : string) :
  In k (map fst (setKey key value object)) <-> k = key \/ In k (map fst object).
Proof.
  rewrite setKey_keys.
  destruct (JS.includes (map fst object) key) eqn:Hin.
  - apply includes_In in Hin. split; [now right|]. intros [->|H]; assumption.
  - rewrite in_app_iff. simpl. intuition.
Qed.

End StrategyAndImpact.

Module StrategyProps.

Import AttendanceCalculator Props Fixtures.

(** X5: [calculateOptimalStrategy] puts every upcoming class whose course
    is in the roster in exactly one of mustAttend, canSkip and recommended,
    and no other id: the three lists together are a rearrangement of the
    course ids of those classes. *)
Theorem optimal_strategy_partitions_the_classes (courses : list Course)
    (upcomingClasses : list ClassTime) (remainingClassCounts : gmap string Z) :
  let strategy := calculateOptimalStrategy courses upcomingClasses remainingClassCounts in
  Permutation
    (strategy_mustAttend strategy ++ strategy_canSkip strategy
     ++ strategy_recommended strategy)
    (map courseId (List.filter (inRoster courses) upcomingClasses)).
Proof.
  intros strategy. subst strategy. unfold calculateOptimalStrategy.
  exact (strategy_fold_listed courses remainingClassCounts upcomingClasses
           (mkStrategy [] [] [])).
Qed.

(** X6: the object [calculateDayImpact] returns has one entry per course
    id, even when a course has several classes that day, and its keys are
    exactly the course ids of the day's classes whose course is in the
    roster. *)
Theorem day_impact_has_one_entry_per_course (courses : list Course)
    (dayClasses : list ClassTime) (totalRemainingClasses : gmap string Z) :
  let impact := calculateDayImpact courses dayClasses totalRemainingClasses in
  List.NoDup (map fst impact)
  /\ forall k : string,
       In k (map fst impact)
       <-> exists c, In c dayClasses /\ courseId c = k /\ inRoster courses c = true.
Proof.
  intros impact. subst impact. unfold calculateDayImpact.
  assert (Hgen : forall (l : list ClassTime) (acc : list (string * Impact)),
             List.NoDup (map fst acc) ->
             let impact :=
               fold_left
                 (fun impact classTime =>
                    match findCourse courses (courseId classTime) with
                    | None => impact
                    | Some course =>
                        let currentStatus := calculateAttendanceStatus course in
                        let totalClassesHeld :=
                          totalClassesScheduled course - classesCancelled course in
                        let remainingTotal :=
                          default 0 (totalRemainingClasses !! id course) in
                        let afterAttending :=
                          JS.times100
                            (JS.div (classesAttended course + 1) (totalClassesHeld + 1)) in
                        let afterSkipping :=
                          JS.times100
                            (JS.div (classesAttended course) (totalClassesHeld + 1)) in
                        let requiredClasses :=
                          requiredOutOf course (totalClassesHeld + remainingTotal) in
                        let isRequired :=
                          (classesAttended course <? requiredClasses)
                          && (classesAttended course + remainingTotal <=? requiredClasses) in
                        setKey (courseId classTime)
                          (mkImpact (currentPercentage currentStatus)
                             (JS.num_round2 afterAttending)
                             (JS.num_round2 afterSkipping) isRequired)
                          impact
                    end)
                 l acc in
             List.NoDup (map fst impact)
             /\ forall k : string,
                  In k (map fst impact)
                  <-> In k (map fst acc)
                      \/ exists c, In c l /\ courseId c = k /\ inRoster courses c = true).
  { induction l as [|x rest IH]; intros acc Hnd; cbv zeta; simpl.
    - split; [exact Hnd|]. intros k. split; [now left|].
      intros [H|[c [[] _]]]. exact H.
    - unfold inRoster in *.
      destruct (findCourse courses (courseId x)) as [course|] eqn:Hfind.
      + cbv zeta.
        match goal with
        | |- context [fold_left ?f rest (setKey ?k ?v acc)] =>
            destruct (IH (setKey k v acc) (setKey_NoDup k v acc Hnd)) as [Hnd' Hkeys]
        end.
        cbv zeta in Hnd', Hkeys. split; [exact Hnd'|].
        intros k. rewrite Hkeys, setKey_In. split.
        * intros [[->|Hacc]|[c [Hc [Hid Hroster]]]].
          -- right. exists x. rewrite Hfind. auto.
          -- now left.
          -- right. exists c. auto.
        * intros [Hacc|[c [[->|Hc] [Hid Hroster]]]].
          -- left. now right.
          -- left. left. now symmetry.
          -- right. exists c. auto.
      + destruct (IH acc Hnd) as [Hnd' Hkeys]. cbv zeta in Hnd', Hkeys.
        split; [exact Hnd'|]. intros k. rewrite Hkeys. split.
        * intros [Hacc|[c [Hc [Hid Hroster]]]]; [now left|].
          right. exists c. auto.
        * intros [Hacc|[c [[->|Hc] [Hid Hroster]]]]; [now left| |].
          -- rewrite Hfind in Hroster. discriminate.
          -- right. exists c. auto. }
  destruct (Hgen dayClasses [] (List.NoDup_nil _)) as [Hnd Hkeys]. cbv zeta in Hnd, Hkeys.
  split; [exact Hnd|]. intros k. rewrite Hkeys. split.
  - intros [[]|H]. exact H.
  - intros H. now right.
Qed.

End StrategyProps.

(** ** Times as text *)

Section TimeText.

Import ScheduleOptimizer Props.


Lemma digits_string_of_uint (d : Decimal.uint) :
  forall acc : nat,
    digits (Z.of_nat acc) (NilEmpty.string_of_uint d)
    = Z.of_nat (Nat.of_uint_acc d acc).
Proof.
  induction d as [|d IH|d IH|d IH|d IH|d IH|d IH|d IH|d IH|d IH|d IH];
    intros acc; simpl; try reflexivity;
    rewrite <- IH; f_equal; rewrite Nat.tail_mul_spec;
    match goal with
    | |- context [Z.of_nat (nat_of_ascii ?c)] =>
        let v := eval vm_compute in (Z.of_nat (nat_of_ascii c)) in
        change (Z.of_nat (nat_of_ascii c)) with v
    end; lia.
Qed.

Lemma string_of_uint_colonFree (d : Decimal.uint) :
  colonFree (NilEmpty.string_of_uint d).
Proof.
  unfold colonFree.
  induction d as [|d IH|d IH|d IH|d IH|d IH|d IH|d IH|d IH|d IH|d IH];
    simpl; intros c Hc; try contradiction;
    destruct Hc as [<-|Hc]; try discriminate; now apply IH.
Qed.

Lemma NilZero_string_of_uint (d : Decimal.uint) :
  NilZero.string_of_uint d
  = match d with
    | Decimal.Nil => "0"
    | _ => NilEmpty.string_of_uint d
    end.
Proof. now destruct d. Qed.

Lemma digits_NilZero (d : Decimal.uint) :
  digits 0 (NilZero.string_of_uint d) = Z.of_nat (Nat.of_uint d).
Proof.
  destruct d; try exact (digits_string_of_uint _ 0%nat). reflexivity.
Qed.

Lemma Number_toString (n : Z) : 0 <= n -> Number (toString n) = n.
Proof.
  intros Hn. unfold toString, Number.
  destruct (Z.ltb_spec n 0) as [Hneg|_]; [lia|].
  rewrite digits_NilZero, DecimalNat.Unsigned.of_to. lia.
Qed.

Lemma toString_colonFree (n : Z) : 0 <= n -> colonFree (toString n).
Proof.
  intros Hn. unfold toString.
  destruct (Z.ltb_spec n 0) as [Hneg|_]; [lia|].
  rewrite NilZero_string_of_uint.
  destruct (Nat.to_uint (Z.to_nat n)) eqn:Hd;
    try (rewrite <- Hd; apply string_of_uint_colonFree).
  intros c [<-|[]]. discriminate.
Qed.

Lemma digits_zeros (k : nat) (s : string) : digits 0 (zeros k +:+ s) = digits 0 s.
Proof. induction k as [|k IH]; simpl; [reflexivity|exact IH]. Qed.

Lemma Number_padStart2 (s : string) : Number (padStart2 s) = Number s.
Proof. unfold Number, padStart2. apply digits_zeros. Qed.

Lemma padStart2_colonFree (s : string) : colonFree s -> colonFree (padStart2 s).
Proof.
  unfold padStart2, colonFree. intros Hs.
  induction (2 - String.length s)%nat as [|k IH]; simpl; [exact Hs|].
  intros c [<-|Hc]; [discriminate|now apply IH].
Qed.

Lemma split_colonFree (s : string) : colonFree s -> split ":" s = [s].
Proof.
  unfold colonFree. induction s as [|c r IH]; intros Hs; simpl; [reflexivity|].
  destruct (Ascii.eqb_spec c ":"%char) as [->|Hne].
  - exfalso. apply (Hs ":"%char); [now left|reflexivity].
  - rewrite IH; [reflexivity|]. intros d Hd. apply Hs. now right.
Qed.

Lemma split_at_colon (a b : string) :
  colonFree a -> split ":" (a +:+ ":" +:+ b) = a :: split ":" b.
Proof.
  unfold colonFree. induction a as [|c r IH]; intros Ha; simpl; [reflexivity|].
  destruct (Ascii.eqb_spec c ":"%char) as [->|Hne].
  - exfalso. apply (Ha ":"%char); [now left|reflexivity].
  - simpl in IH. rewrite IH; [reflexivity|]. intros d Hd. apply Ha. now right.
Qed.

End TimeText.

Section DaySpan.

Import ScheduleOptimizer Props.

Lemma classMinutes_Permutation (l l' : list ClassTime) :
  Permutation l l' -> classMinutes l = classMinutes l'.
Proof.
  induction 1 as [|x l l' _ IH|x y l|l l' l'' _ IH1 _ IH2]; simpl; lia.
Qed.

(** On slots that do not overlap, the time from the first start to the
    last end is the time in class plus the gaps. *)
Lemma span_of_sorted (d : ClassTime) (s : list ClassTime) :
  s <> [] -> noOverlap s = true ->
  timeToMinutes (endTime (List.last s d)) - timeToMinutes (startTime (List.hd d s))
  = classMinutes s + Spec.sumOfDurations (gapsBetween s).
Proof.
  induction s as [|a rest IH]; intros Hne Hno; [contradiction|].
  destruct rest as [|b rest'].
  - simpl. unfold Spec.sumOfDurations. simpl. lia.
  - unfold noOverlap, Spec.adjacentPairs in Hno. simpl in Hno.
    apply andb_true_iff in Hno. destruct Hno as [Hab Hrest].
    apply Z.leb_le in Hab.
    assert (IH' := IH ltac:(discriminate) Hrest). clear IH.
    change (List.last (a :: b :: rest') d) with (List.last (b :: rest') d).
    change (List.hd d (a :: b :: rest')) with a.
    change (List.hd d (b :: rest')) with b in IH'.
    change (classMinutes (a :: b :: rest')) with
      (timeToMinutes (endTime a) - timeToMinutes (startTime a)
       + classMinutes (b :: rest')).
    change (gapsBetween (a :: b :: rest')) with
      (if 0 <? timeToMinutes (startTime b) - timeToMinutes (endTime a)
       then mkTimeGap (endTime a) (startTime b)
              (timeToMinutes (startTime b) - timeToMinutes (endTime a))
            :: gapsBetween (b :: rest')
       else gapsBetween (b :: rest')).
    set (later := gapsBetween (b :: rest')) in *.
    set (inClass := classMinutes (b :: rest')) in *.
    destruct (Z.ltb_spec 0 (timeToMinutes (startTime b) - timeToMinutes (endTime a)));
      unfold Spec.sumOfDurations in *; cbn [fold_right map duration]; lia.
Qed.

Lemma largestGap_over (gaps : list TimeGap) (bound : Z) :
  0 <= bound ->
  bound < Spec.largestGap gaps <-> exists g, In g gaps /\ bound < duration g.
Proof.
  intros Hbound. unfold Spec.largestGap.
  induction gaps as [|g gs IH]; cbn [fold_right map].
  - split; [lia|]. intros [g [[] _]].
  - split.
    + intros Hlt. destruct (Z.max_spec (duration g) (fold_right Z.max 0 (map duration gs)))
        as [[_ Hmax]|[_ Hmax]]; rewrite Hmax in Hlt.
      * apply IH in Hlt. destruct Hlt as [g' [Hin Hg']]. exists g'.
        split; [now right|exact Hg'].
      * exists g. split; [now left|exact Hlt].
    + intros [g' [[<-|Hin] Hg']]; [lia|].
      assert (bound < fold_right Z.max 0 (map duration gs))
        by (apply IH; now exists g').
      lia.
Qed.

End DaySpan.

Module TimeProps.

Import ScheduleOptimizer Props Fixtures.

(** X7: for every number of minutes m >= 0, the text [minutesToTime]
    prints is read back by [timeToMinutes] as m. *)
Theorem minutesToTime_is_read_back (m : Z) :
  0 <= m -> timeToMinutes (minutesToTime m) = m.
Proof.
  intros Hm. unfold minutesToTime, timeToMinutes. cbv zeta.
  assert (Hhours : 0 <= m / 60) by (apply Z.div_pos; lia).
  assert (Hmins : 0 <= Z.rem m 60) by (apply Z.rem_nonneg; lia).
  rewrite split_at_colon
    by (apply padStart2_colonFree, toString_colonFree; exact Hhours).
  rewrite split_colonFree
    by (apply padStart2_colonFree, toString_colonFree; exact Hmins).
  simpl map. rewrite !Number_padStart2, !Number_toString by assumption.
  rewrite Z.rem_mod_nonneg by lia.
  pose proof (Z.div_mod m 60 ltac:(lia)). lia.
Qed.

Lemma minutesToTime_is_read_back_witness :
  timeToMinutes (minutesToTime 630) = 630.
Proof. apply minutesToTime_is_read_back. discriminate. Defined.

(** X8: when, sorted by start time, no class of the day starts before the
    previous one has ended, [calculateDayDuration] is the time spent in
    class plus the durations of the gaps [calculateTimeGaps] reports. *)
Theorem day_duration_is_class_time_plus_gaps (classes : list ClassTime) :
  noOverlap (JS.sort byStartTime classes) = true ->
  calculateDayDuration classes
  = classMinutes classes + Spec.sumOfDurations (calculateTimeGaps classes).
Proof.
  intros Hno.
  destruct classes as [|a [|b rest]]; [reflexivity| |].
  - unfold Spec.sumOfDurations. simpl. lia.
  - unfold calculateDayDuration, calculateTimeGaps.
    set (classes := a :: b :: rest) in *.
    assert (Hlen : (Z.of_nat (length classes) <=? 1) = false)
      by (apply Z.leb_gt; simpl; lia).
    rewrite Hlen. cbv zeta.
    rewrite (classMinutes_Permutation _ _ (Permutation_sym (sort_Permutation classes))).
    apply span_of_sorted; [|exact Hno].
    intros Hnil. pose proof (sort_Permutation classes) as Hperm.
    rewrite Hnil in Hperm. now apply Permutation_nil in Hperm.
Qed.

Lemma day_duration_is_class_time_plus_gaps_witness :
  calculateDayDuration [noon; morning]
  = classMinutes [noon; morning]
    + Spec.sumOfDurations (calculateTimeGaps [noon; morning]).
Proof. apply day_duration_is_class_time_plus_gaps. reflexivity. Defined.

(** X9: with a gap limit that is not negative, [violatesPreferences]
    reports a gap violation exactly when some gap between consecutive
    classes is longer than maxGapBetweenClasses, and the maximum gap it
    reports is not negative. *)
Theorem gap_limit_violated_iff_some_gap_exceeds_it (showNumber : Q -> string)
    (classes : list ClassTime) (preferences : UserPreferences) :
  0 <= maxGapBetweenClasses preferences ->
  let violations := violatesPreferences showNumber classes preferences in
  (violatesGapLimit violations = true
   <-> exists g, In g (calculateTimeGaps classes)
                 /\ maxGapBetweenClasses preferences < duration g)
  /\ 0 <= maxGapDuration violations.
Proof.
  intros Hlimit violations. subst violations. unfold violatesPreferences. simpl.
  split.
  - rewrite (maxGapOf_over _ _ Hlimit), Z.ltb_lt. now apply largestGap_over.
  - rewrite calculateTimeGaps_gapsOf.
    rewrite (maxGapOf_largestGap (Spec.gapsOf classes)) by apply reportedGaps_positive.
    unfold Spec.largestGap.
    induction (map duration (Spec.gapsOf classes)) as [|x ds IH];
      cbn [fold_right]; lia.
Qed.

Lemma gap_limit_violated_iff_some_gap_exceeds_it_witness :
  let violations := violatesPreferences plain [noon; morning] twoRequired in
  (violatesGapLimit violations = true
   <-> exists g, In g (calculateTimeGaps [noon; morning])
                 /\ maxGapBetweenClasses twoRequired < duration g)
  /\ 0 <= maxGapDuration violations.
Proof.
  apply (gap_limit_violated_iff_some_gap_exceeds_it plain [noon; morning] twoRequired).
  discriminate.
Defined.

End TimeProps.

(** ** What the greedy selection returns *)

Section GreedyResult.

Import ScheduleOptimizer.

Variable showNumber : Q -> string.
Variable preferences : UserPreferences.
Variable mustAttend : list string.

Lemma gtb_false_Qle (a b : Q) : JS.gtb a b = false <-> (a <= b)%Q.
Proof.
  unfold JS.gtb. rewrite negb_false_iff. apply Qle_bool_iff.
Qed.

(** The scan returns the highest score among the start score and the
    scores of the candidates, with a candidate that reaches it when it is
    above the start score. *)
Lemma scanAdditions_best (selection candidates : list ClassTime) :
  forall (start : nat) (best : option (nat * ClassTime)) (score0 : Q)
         (best' : option (nat * ClassTime)) (score' : Q),
    scanAdditions selection preferences mustAttend candidates start best score0
    = (best', score') ->
    (score0 <= score')%Q
    /\ (forall c, In c candidates ->
          (calculateDayScore (selection ++ [c]) preferences mustAttend <= score')%Q)
    /\ ((best' = best /\ score' = score0)
        \/ exists i c,
             best' = Some (i, c) /\ In c candidates
             /\ score' = calculateDayScore (selection ++ [c]) preferences mustAttend
             /\ (score0 < score')%Q).
Proof.
  induction candidates as [|x rest IH]; intros start best score0 best' score' Hscan;
    simpl in Hscan.
  - injection Hscan as <- <-. split; [apply Qle_refl|]. split; [intros c []|now left].
  - destruct (JS.gtb (calculateDayScore (selection ++ [x]) preferences mustAttend) score0)
      eqn:Hbetter.
    + apply gtb_Qlt in Hbetter. apply IH in Hscan.
      destruct Hscan as [Hle [Hall Hcase]].
      split; [apply Qlt_le_weak; eapply Qlt_le_trans; eassumption|].
      split.
      * intros c [<-|Hc]; [exact Hle|now apply Hall].
      * right. destruct Hcase as [[-> ->]|[i [c [Hbest [Hc [Hscore Hlt]]]]]].
        -- exists start, x. repeat split; auto. now left.
        -- exists i, c. repeat split; auto; [now right|].
           eapply Qlt_trans; eassumption.
    + apply gtb_false_Qle in Hbetter. apply IH in Hscan.
      destruct Hscan as [Hle [Hall Hcase]].
      split; [exact Hle|]. split.
      * intros c [<-|Hc]; [eapply Qle_trans; eassumption|now apply Hall].
      * destruct Hcase as [Hsame|[i [c [Hbest [Hc [Hscore Hlt]]]]]]; [now left|].
        right. exists i, c. repeat split; auto. now right.
Qed.

Lemma splice1_Permutation {A : Type} (i : nat) (l : list A) (a : A) :
  nth_error l i = Some a -> Permutation l (a :: splice1 i l).
Proof.
  intros Hnth. rewrite <- (firstn_skipn_middle i l Hnth) at 1.
  unfold splice1. symmetry. apply Permutation_middle.
Qed.

Lemma splice1_In {A : Type} (a : A) :
  forall (i : nat) (l : list A), In a (splice1 i l) -> In a l.
Proof.
  unfold splice1. induction i as [|i IH]; intros [|x l] Hin; simpl in *; auto.
  destruct Hin as [->|Hin]; [now left|]. right. now apply IH.
Qed.

(** What the loop returns: the selection it was given followed by classes
    taken from the remaining ones, the score of that selection, and no
    class left whose addition scores higher. *)
Lemma greedyLoop_result :
  forall (turns : nat) (remaining selection : list ClassTime) (bestScore : Q)
         (lines : list string),
    (length remaining <= turns)%nat ->
    bestScore = calculateDayScore selection preferences mustAttend ->
    let outcome :=
      greedyLoop showNumber turns preferences mustAttend selection bestScore lines
        remaining in
    exists rest : list ClassTime,
      Permutation (fst (fst outcome) ++ rest) (selection ++ remaining)
      /\ (forall c, In c rest -> In c remaining)
      /\ snd (fst outcome) = calculateDayScore (fst (fst outcome)) preferences mustAttend
      /\ (forall c, In c rest ->
            (calculateDayScore (fst (fst outcome) ++ [c]) preferences mustAttend
             <= snd (fst outcome))%Q)
      /\ (bestScore <= snd (fst outcome))%Q.
Proof.
  induction turns as [|turns IH]; intros remaining selection bestScore lines Hlen Hscore;
    cbv zeta.
  - destruct remaining; [|simpl in Hlen; lia].
    exists []. simpl. rewrite !app_nil_r.
    repeat split; auto using Qle_refl. intros c [].
  - destruct remaining as [|r rest0].
    + exists []. simpl. rewrite !app_nil_r.
      repeat split; auto using Qle_refl. intros c [].
    + rewrite greedyLoop_step.
      destruct (scanAdditions selection preferences mustAttend (r :: rest0) 0 None bestScore)
        as [[[i c]|] newScore] eqn:Hscan.
      * pose proof (scanAdditions_index _ _ _ _ _ _ _ _ _ _ Hscan) as Hindex.
        destruct Hindex as [Hnone|[_ Hnth]]; [discriminate|].
        rewrite Nat.sub_0_r in Hnth.
        apply scanAdditions_best in Hscan.
        destruct Hscan as [Hle [Hall Hcase]].
        destruct (JS.gtb newScore bestScore) eqn:Hbetter.
        -- destruct Hcase as [[Habsurd _]|[i' [c' [Hbest [_ [Hnew Hlt]]]]]];
             [discriminate|].
           injection Hbest as <- <-. cbv zeta.
           assert (Hsplice : (length (splice1 i (r :: rest0)) <= turns)%nat).
           { rewrite splice1_length; [simpl in *; lia|].
             apply nth_error_Some. congruence. }
           match goal with
           | |- context [greedyLoop _ turns _ _ ?sel ?sc ?ls ?rem] =>
               destruct (IH rem sel sc ls Hsplice Hnew)
                 as [rest [Hperm [Hin [Hfinal [Hbest Hmono]]]]]
           end.
           exists rest. repeat split; auto.
           ++ rewrite Hperm, <- app_assoc. apply Permutation_app_head. simpl.
              symmetry. now apply splice1_Permutation.
           ++ intros d Hd. eapply splice1_In. apply Hin. exact Hd.
           ++ eapply Qle_trans; [apply Qlt_le_weak; exact Hlt|exact Hmono].
        -- apply gtb_false_Qle in Hbetter.
           exists (r :: rest0). simpl. repeat split; auto using Qle_refl.
           intros d Hd. eapply Qle_trans; [apply Hall; exact Hd|exact Hbetter].
      * apply scanAdditions_best in Hscan.
        destruct Hscan as [Hle [Hall Hcase]].
        destruct Hcase as [[_ ->]|[i [c [Habsurd _]]]]; [|discriminate].
        exists (r :: rest0). simpl. repeat split; auto using Qle_refl.
Qed.

Lemma filter_partition_Permutation {A : Type} (p : A -> bool) (l : list A) :
  Permutation (List.filter p l ++ List.filter (fun x => negb (p x)) l) l.
Proof.
  induction l as [|x l IH]; simpl; [reflexivity|].
  destruct (p x); simpl.
  - now apply perm_skip.
  - rewrite <- Permutation_middle. now apply perm_skip.
Qed.

(** [optimizeClassSelection], with what the loop guarantees. *)
Lemma optimizeClassSelection_result (allDayClasses : list ClassTime) :
  let optimization :=
    optimizeClassSelection showNumber allDayClasses mustAttend preferences in
  let selected := selectedClasses optimization in
  exists rest : list ClassTime,
    Permutation (selected ++ rest) allDayClasses
    /\ (forall c, In c rest -> JS.includes mustAttend (courseId c) = false)
    /\ score optimization = calculateDayScore selected preferences mustAttend
    /\ (forall c, In c rest ->
          (calculateDayScore (selected ++ [c]) preferences mustAttend
           <= score optimization)%Q)
    /\ (calculateDayScore
          (List.filter (fun c => JS.includes mustAttend (courseId c)) allDayClasses)
          preferences mustAttend
        <= score optimization)%Q.
Proof.
  cbv zeta. unfold optimizeClassSelection.
  match goal with
  | |- context [greedyLoop _ ?t _ _ ?sel ?sc ?ls ?rem] =>
      destruct (greedyLoop_result t rem sel sc ls (le_n _) eq_refl)
        as [rest [Hperm [Hin [Hfinal [Hbest Hmono]]]]];
      destruct (greedyLoop showNumber t preferences mustAttend sel sc ls rem)
        as [[selected finalScore] lines]
  end.
  simpl in *. exists rest. repeat split; auto.
  - rewrite Hperm. apply filter_partition_Permutation.
  - intros c Hc. apply Hin in Hc. apply filter_In in Hc.
    destruct Hc as [_ Hc]. now apply negb_true_iff in Hc.
Qed.

End GreedyResult.

Module SelectionProps.

Import ScheduleOptimizer Props Fixtures.

(** X10: the selection [optimizeClassSelection] returns is made of the
    day's classes, each taken at most as often as the day has it: together
    with some optional classes left out it is a rearrangement of the day's
    classes; and the score it returns is [calculateDayScore] of that
    selection. *)
Theorem selection_is_drawn_from_the_day (showNumber : Q -> string)
    (allDayClasses : list ClassTime) (mustAttendClasses : list string)
    (preferences : UserPreferences) :
  let optimization :=
    optimizeClassSelection showNumber allDayClasses mustAttendClasses preferences in
  (exists leftOut : list ClassTime,
      Permutation (selectedClasses optimization ++ leftOut) allDayClasses
      /\ forall c, In c leftOut -> ~ In (courseId c) mustAttendClasses)
  /\ score optimization
     = calculateDayScore (selectedClasses optimization) preferences mustAttendClasses.
Proof.
  intros optimization. subst optimization.
  destruct (optimizeClassSelection_result showNumber preferences mustAttendClasses
              allDayClasses) as [rest [Hperm [Hopt [Hscore _]]]].
  split; [|exact Hscore].
  exists rest. split; [exact Hperm|].
  intros c Hc Hmust. apply includes_In in Hmust. rewrite (Hopt c Hc) in Hmust.
  discriminate.
Qed.

(** X11: the selection is a local optimum of the score: adding any class
    of the day that is not in the selection does not give a higher score
    than the one returned, and the score returned is at least the score of
    the must-attend classes alone. *)
Theorem selection_is_a_local_optimum (showNumber : Q -> string)
    (allDayClasses : list ClassTime) (mustAttendClasses : list string)
    (preferences : UserPreferences) (c : ClassTime) :
  In c allDayClasses ->
  let optimization :=
    optimizeClassSelection showNumber allDayClasses mustAttendClasses preferences in
  ~ In c (selectedClasses optimization) ->
  (calculateDayScore (selectedClasses optimization ++ [c]) preferences mustAttendClasses
   <= score optimization)%Q
  /\ (calculateDayScore
        (List.filter (fun d => JS.includes mustAttendClasses (courseId d)) allDayClasses)
        preferences mustAttendClasses
      <= score optimization)%Q.
Proof.
  intros Hday optimization Hout. subst optimization.
  destruct (optimizeClassSelection_result showNumber preferences mustAttendClasses
              allDayClasses) as [rest [Hperm [_ [_ [Hbest Hmono]]]]].
  split; [|exact Hmono].
  apply Hbest.
  apply (Permutation_in _ (Permutation_sym Hperm)) in Hday.
  apply in_app_or in Hday. destruct Hday as [Hin|Hin]; [contradiction|exact Hin].
Qed.

Lemma selection_is_a_local_optimum_witness :
  let allDayClasses := [slot "14:00" "15:00" "B"; slot "09:00" "10:00" "A"] in
  let preferences := mkUserPreferences true 60 [] 2 in
  let optimization := optimizeClassSelection plain allDayClasses ["A"] preferences in
  (calculateDayScore (selectedClasses optimization ++ [slot "14:00" "15:00" "B"])
     preferences ["A"]
   <= score optimization)%Q
  /\ (calculateDayScore
        (List.filter (fun d => JS.includes ["A"] (courseId d)) allDayClasses)
        preferences ["A"]
      <= score optimization)%Q.
Proof.
  apply (selection_is_a_local_optimum plain
           [slot "14:00" "15:00" "B"; slot "09:00" "10:00" "A"] ["A"]
           (mkUserPreferences true 60 [] 2) (slot "14:00" "15:00" "B")).
  - left. reflexivity.
  - intros Hin. vm_compute in Hin. destruct Hin as [Hin|[]]. discriminate Hin.
Defined.

(** X12: a class is reported skipped exactly when it is a class of the day
    and no selected class has its course id; so no class of a must-attend
    course is ever reported skipped. *)
Theorem skipped_classes_are_of_unselected_courses (showNumber : Q -> string)
    (allDayClasses : list ClassTime) (mustAttendClasses : list string)
    (preferences : UserPreferences) :
  let optimization :=
    optimizeClassSelection showNumber allDayClasses mustAttendClasses preferences in
  forall c : ClassTime,
    (In c (skippedClasses optimization)
     <-> In c allDayClasses
         /\ ~ In (courseId c) (map courseId (selectedClasses optimization)))
    /\ (In c (skippedClasses optimization) -> ~ In (courseId c) mustAttendClasses).
Proof.
  intros optimization c.
  assert (Hskipped :
            In c (skippedClasses optimization)
            <-> In c allDayClasses
                /\ ~ In (courseId c) (map courseId (selectedClasses optimization))).
  { subst optimization. unfold optimizeClassSelection.
    destruct (greedyLoop _ _ _ _ _ _ _ _) as [[selected finalScore] lines].
    simpl. rewrite filter_In, negb_true_iff.
    assert (Hhas : existsb (fun selected0 => String.eqb (courseId selected0) (courseId c))
                     selected = true
                   <-> In (courseId c) (map courseId selected)).
    { rewrite existsb_exists, in_map_iff. split.
      - intros [d [Hd Heq]]. apply String.eqb_eq in Heq. now exists d.
      - intros [d [Heq Hd]]. exists d. split; [exact Hd|]. now apply String.eqb_eq. }
    rewrite <- Hhas. rewrite not_true_iff_false. reflexivity. }
  split; [exact Hskipped|].
  intros Hin Hmust. apply Hskipped in Hin. destruct Hin as [Hday Hnot].
  apply Hnot. apply in_map.
  destruct (optimizeClassSelection_selected showNumber allDayClasses mustAttendClasses
              preferences) as [added Hsel].
  fold optimization in Hsel. rewrite Hsel. apply in_or_app. left.
  apply filter_In. split; [exact Hday|]. now apply includes_In.
Qed.

(** X13: when [shouldGoToCollege] says go on a day without must-attend
    class, the optimized selection violates neither preference: the
    confidence is 70, or 50 when the selection spans less than 240 minutes,
    and the reasoning holds at most the travel-time line (never the
    "Going anyway" line). *)
Theorem go_without_required_classes (showNumber : Q -> string)
    (dayClasses : list ClassTime) (mustAttendClasses : list string)
    (preferences : UserPreferences) :
  let decision :=
    shouldGoToCollege showNumber dayClasses mustAttendClasses preferences in
  let selection :=
    selectedClasses
      (optimizeClassSelection showNumber dayClasses mustAttendClasses preferences) in
  decision_shouldGo decision = true ->
  List.filter (fun c => JS.includes mustAttendClasses (courseId c)) dayClasses = [] ->
  let violations := violatesPreferences showNumber selection preferences in
  violatesGapLimit violations = false
  /\ violatesMinimumClasses violations = false
  /\ decision_confidence decision
     = (if calculateDayDuration selection <? 240 then 50 else 70)
  /\ decision_reasoning decision
     = (if calculateDayDuration selection <? 240
        then ["Only " +:+ showNumber (hoursShown (calculateDayDuration selection))
              +:+ " hours at college vs 4 hours travel time"]
        else []).
Proof.
  intros decision selection Hgo Hnone violations.
  subst decision violations. unfold shouldGoToCollege in *.
  destruct dayClasses as [|d ds]; [discriminate Hgo|].
  rewrite Hnone in *. cbv zeta in *. fold selection in Hgo |- *.
  unfold violatesPreferences in *.
  cbn [decision_shouldGo decision_confidence decision_reasoning
       violatesGapLimit violatesMinimumClasses] in *.
  destruct (Z.of_nat (length selection) <? minimumClassesPerDay preferences);
    [destruct (maxGapBetweenClasses preferences <? _); discriminate Hgo|].
  destruct (maxGapBetweenClasses preferences <? _); [discriminate Hgo|].
  destruct (calculateDayDuration selection <? 240); repeat split; reflexivity.
Qed.

Lemma go_without_required_classes_witness :
  let dayClasses := [morning; noon] in
  let preferences := mkUserPreferences true 180 [] 1 in
  let decision := shouldGoToCollege plain dayClasses [] preferences in
  let selection :=
    selectedClasses (optimizeClassSelection plain dayClasses [] preferences) in
  let violations := violatesPreferences plain selection preferences in
  violatesGapLimit violations = false
  /\ violatesMinimumClasses violations = false
  /\ decision_confidence decision
     = (if calculateDayDuration selection <? 240 then 50 else 70)
  /\ decision_reasoning decision
     = (if calculateDayDuration selection <? 240
        then ["Only " +:+ plain (hoursShown (calculateDayDuration selection))
              +:+ " hours at college vs 4 hours travel time"]
        else []).
Proof.
  apply (go_without_required_classes plain [morning; noon] []
           (mkUserPreferences true 180 [] 1)); reflexivity.
Defined.

End SelectionProps.

(** ** Days without a must-attend class *)

Section OptionalDays.

Import ScheduleOptimizer.

Variable showNumber : Q -> string.

(** Alone, an optional class scores below 0 when two classes a day are the
    minimum. *)
Lemma lone_optional_class_scores_below_zero (c : ClassTime)
    (preferences : UserPreferences) (mustAttend : list string) :
  2 <= minimumClassesPerDay preferences ->
  JS.includes mustAttend (courseId c) = false ->
  JS.gtb (calculateDayScore [c] preferences mustAttend) 0 = false.
Proof.
  intros Hmin Hoptional.
  unfold calculateDayScore, countWhere.
  change (calculateTimeGaps [c]) with (@nil TimeGap).
  cbn [List.filter]. rewrite Hoptional.
  cbn [length fold_left maxGapOf].
  change (Z.of_nat 1) with 1. change (Z.of_nat 0) with 0.
  assert (Hbelow : (1 <? minimumClassesPerDay preferences) = true)
    by (apply Z.ltb_lt; lia).
  rewrite Hbelow.
  destruct (maxGapBetweenClasses preferences <? 0);
    destruct (JS.includes (priorityCourses preferences) (courseId c));
    reflexivity.
Qed.

Lemma scanAdditions_nothing_better (preferences : UserPreferences)
    (mustAttend : list string) (selection candidates : list ClassTime) (score0 : Q) :
  (forall c, In c candidates ->
     JS.gtb (calculateDayScore (selection ++ [c]) preferences mustAttend) score0 = false) ->
  forall (start : nat) (best : option (nat * ClassTime)),
    scanAdditions selection preferences mustAttend candidates start best score0
    = (best, score0).
Proof.
  induction candidates as [|x rest IH]; intros Hnone start best; [reflexivity|].
  simpl. rewrite (Hnone x) by now left.
  apply IH. intros c Hc. apply Hnone. now right.
Qed.

Lemma optimize_stays_empty (allDayClasses : list ClassTime)
    (mustAttend : list string) (preferences : UserPreferences) :
  2 <= minimumClassesPerDay preferences ->
  List.filter (fun c => JS.includes mustAttend (courseId c)) allDayClasses = [] ->
  selectedClasses
    (optimizeClassSelection showNumber allDayClasses mustAttend preferences) = [].
Proof.
  intros Hmin Hnone. unfold optimizeClassSelection. rewrite Hnone.
  set (optional := List.filter _ allDayClasses).
  assert (Hoptional : forall c, In c optional ->
            JS.gtb (calculateDayScore ([] ++ [c]) preferences mustAttend)
              (calculateDayScore [] preferences mustAttend) = false).
  { intros c Hc. apply filter_In in Hc. destruct Hc as [_ Hc].
    apply negb_true_iff in Hc.
    now apply lone_optional_class_scores_below_zero. }
  destruct optional as [|r rest] eqn:Hopt; [reflexivity|].
  cbn [length]. rewrite greedyLoop_step.
  rewrite (scanAdditions_nothing_better preferences mustAttend [] (r :: rest) _ Hoptional).
  reflexivity.
Qed.

End OptionalDays.

Module OptionalDayProps.

Import ScheduleOptimizer Fixtures.

(** X14: when at least two classes a day are the minimum and no class of
    the day is must-attend, the greedy selection never leaves the empty
    selection (a first class alone scores below 0), so
    [optimizeClassSelection] selects nothing and [shouldGoToCollege] says
    no-go, however many classes the day has. *)
Theorem optional_day_with_minimum_two_is_no_go (showNumber : Q -> string)
    (dayClasses : list ClassTime) (mustAttendClasses : list string)
    (preferences : UserPreferences) :
  2 <= minimumClassesPerDay preferences ->
  List.filter (fun c => JS.includes mustAttendClasses (courseId c)) dayClasses = [] ->
  selectedClasses
    (optimizeClassSelection showNumber dayClasses mustAttendClasses preferences) = []
  /\ decision_shouldGo
       (shouldGoToCollege showNumber dayClasses mustAttendClasses preferences)
     = false.
Proof.
  intros Hmin Hnone.
  pose proof (optimize_stays_empty showNumber dayClasses mustAttendClasses preferences
                Hmin Hnone) as Hempty.
  split; [exact Hempty|].
  destruct dayClasses as [|d ds]; [reflexivity|].
  rewrite shouldGoToCollege_shouldGo by discriminate.
  cbv zeta. rewrite Hnone, Hempty.
  destruct (Z.ltb_spec (Z.of_nat (length (@nil ClassTime)))
              (minimumClassesPerDay preferences)) as [_|Hge];
    [reflexivity|simpl in Hge; lia].
Qed.

Lemma optional_day_with_minimum_two_is_no_go_witness :
  selectedClasses
    (optimizeClassSelection plain [morning; noon] [] (mkUserPreferences true 180 [] 2))
  = []
  /\ decision_shouldGo
       (shouldGoToCollege plain [morning; noon] [] (mkUserPreferences true 180 [] 2))
     = false.
Proof.
  apply optional_day_with_minimum_two_is_no_go; [discriminate|reflexivity].
Defined.

End OptionalDayProps.

(** ** The stored courses *)

Section StoredCourses.

Import AttendanceCalculator DataManagerMethods Props.

Lemma findCourse_replaceOrPush_same (course : Course) (cs : list Course) :
  findCourse (replaceOrPush course cs) (id course) = Some course.
Proof.
  unfold findCourse. induction cs as [|c rest IH]; simpl.
  - now rewrite String.eqb_refl.
  - destruct (String.eqb (id c) (id course)) eqn:Hid; simpl.
    + now rewrite String.eqb_refl.
    + now rewrite Hid.
Qed.

Lemma findCourse_replaceOrPush_other (course : Course) (cs : list Course)
    (wanted : string) :
  wanted <> id course ->
  findCourse (replaceOrPush course cs) wanted = findCourse cs wanted.
Proof.
  intros Hne. unfold findCourse.
  assert (Hnew : String.eqb (id course) wanted = false)
    by (apply String.eqb_neq; congruence).
  induction cs as [|c rest IH]; simpl.
  - now rewrite Hnew.
  - destruct (String.eqb_spec (id c) (id course)) as [Heq|Hdiff]; simpl.
    + rewrite Hnew. rewrite Heq, Hnew. reflexivity.
    + destruct (String.eqb (id c) wanted); [reflexivity|exact IH].
Qed.

Lemma replaceOrPush_ids (course : Course) (cs : list Course) :
  map id (replaceOrPush course cs)
  = if JS.includes (map id cs) (id course) then map id cs
    else map id cs ++ [id course].
Proof.
  unfold JS.includes. induction cs as [|c rest IH]; [reflexivity|]. simpl.
  destruct (String.eqb_spec (id c) (id course)) as [Heq|Hne].
  - simpl. rewrite Heq, String.eqb_refl. reflexivity.
  - assert (Hkey : String.eqb (id course) (id c) = false)
      by (apply String.eqb_neq; congruence).
    rewrite Hkey. simpl. rewrite IH.
    now destruct (existsb (String.eqb (id course)) (map id rest)).
Qed.

Lemma findCourse_assignFirst_same (wanted : string) (f : Course -> Course)
    (cs : list Course) (course : Course) :
  (forall c, id (f c) = id c) ->
  findCourse cs wanted = Some course ->
  findCourse (assignFirst wanted f cs) wanted = Some (f course).
Proof.
  intros Hid. unfold findCourse. induction cs as [|c rest IH]; simpl; [discriminate|].
  destruct (String.eqb (id c) wanted) eqn:Hc; simpl.
  - intros [= <-]. now rewrite Hid, Hc.
  - intros Hfind. rewrite Hc. now apply IH.
Qed.

Lemma findCourse_assignFirst_other (wanted other : string) (f : Course -> Course)
    (cs : list Course) :
  (forall c, id (f c) = id c) ->
  other <> wanted ->
  findCourse (assignFirst wanted f cs) other = findCourse cs other.
Proof.
  intros Hid Hne. unfold findCourse. induction cs as [|c rest IH]; [reflexivity|].
  simpl. destruct (String.eqb_spec (id c) wanted) as [Heq|Hdiff]; simpl.
  - rewrite Hid.
    assert (Hother : String.eqb (id c) other = false)
      by (apply String.eqb_neq; congruence).
    now rewrite Hother.
  - destruct (String.eqb (id c) other); [reflexivity|exact IH].
Qed.

End StoredCourses.

Module CourseStoreProps.

Import AttendanceCalculator DataManagerMethods Props Fixtures.

(** X15: after [addCourse(course)], [getCourse(course.id)] returns that
    course, whether it replaced a stored one or was appended, and
    [getCourse] of every other id returns what it returned before. *)
Theorem addCourse_then_getCourse (course : Course) (dm : DataManager) :
  let dm' := after (addCourse course) dm in
  result (getCourse (id course)) dm' = Some course
  /\ forall other : string,
       other <> id course -> result (getCourse other) dm' = result (getCourse other) dm.
Proof.
  intros dm'. subst dm'. unfold result, after, getCourse, addCourse, reads, writes.
  simpl. split.
  - apply findCourse_replaceOrPush_same.
  - intros other Hne. now apply findCourse_replaceOrPush_other.
Qed.

(** X16: [addCourse] keeps the ids of the stored courses in place, with
    the new id appended when it was absent; so a roster whose ids are
    pairwise different stays so. *)
Theorem addCourse_keeps_ids_unique (course : Course) (dm : DataManager) :
  List.NoDup (map id (courses dm)) ->
  let dm' := after (addCourse course) dm in
  map id (courses dm')
  = (if JS.includes (map id (courses dm)) (id course) then map id (courses dm)
     else map id (courses dm) ++ [id course])
  /\ List.NoDup (map id (courses dm')).
Proof.
  intros Hnd dm'. subst dm'. unfold after, addCourse, writes. simpl.
  rewrite replaceOrPush_ids. split; [reflexivity|].
  destruct (JS.includes (map id (courses dm)) (id course)) eqn:Hin; [exact Hnd|].
  apply (Permutation_NoDup (Permutation_cons_append (map id (courses dm)) (id course))).
  constructor; [|exact Hnd].
  intros Hk. apply includes_In in Hk. congruence.
Qed.

Lemma addCourse_keeps_ids_unique_witness :
  let dm' := after (addCourse oneOfThree) manager in
  map id (courses dm')
  = (if JS.includes (map id (courses manager)) (id oneOfThree)
     then map id (courses manager)
     else map id (courses manager) ++ [id oneOfThree])
  /\ List.NoDup (map id (courses dm')).
Proof.
  apply (addCourse_keeps_ids_unique oneOfThree manager).
  simpl. repeat constructor; simpl; intuition discriminate.
Defined.

(** X17: [updateCourseAttendance] on an id that is not stored returns
    false and changes nothing; on a stored id it returns true, after which
    [getCourse] of that id returns the course with the three counters
    given and its id, name and required percentage kept, and [getCourse] of
    every other id returns what it returned before. *)
Theorem updateCourseAttendance_assigns_the_counters (wanted : string)
    (attended total cancelled : Z) (dm : DataManager) :
  let update := updateCourseAttendance wanted attended total cancelled in
  match result (getCourse wanted) dm with
  | None => result update dm = false /\ after update dm = dm
  | Some course =>
      result update dm = true
      /\ result (getCourse wanted) (after update dm)
         = Some (withCounters course attended total cancelled)
      /\ forall other : string,
           other <> wanted ->
           result (getCourse other) (after update dm) = result (getCourse other) dm
  end.
Proof.
  intros update. subst update.
  unfold result, after, updateCourseAttendance, getCourse, reads, writes, bind, ret.
  simpl.
  destruct (findCourse (courses dm) wanted) as [course|] eqn:Hfind; simpl.
  - split; [reflexivity|]. split.
    + now apply (findCourse_assignFirst_same wanted
                   (fun c => withCounters c attended total cancelled)).
    + intros other Hne.
      now apply (findCourse_assignFirst_other wanted other
                   (fun c => withCounters c attended total cancelled)).
  - split; reflexivity.
Qed.

End CourseStoreProps.

(** ** Overrides, the weekly template and the attendance records *)

Section StoredSchedule.

Import DataManagerMethods Props.

Lemma find_after_filter (wanted : string) (o : ScheduleOverride)
    (overrides : list ScheduleOverride) :
  List.find (onDate wanted)
    (List.filter (fun x => negb (String.eqb (date x) (date o))) overrides ++ [o])
  = if String.eqb (date o) wanted then Some o else List.find (onDate wanted) overrides.
Proof.
  unfold onDate. induction overrides as [|x rest IH]; simpl.
  - reflexivity.
  - destruct (String.eqb_spec (date x) (date o)) as [Heq|Hne]; simpl.
    + rewrite IH, Heq. now destruct (String.eqb (date o) wanted).
    + destruct (String.eqb_spec (date x) wanted) as [Hx|Hx]; [|exact IH].
      destruct (String.eqb_spec (date o) wanted) as [Ho|_]; [congruence|reflexivity].
Qed.

Lemma filter_after_filter (o : ScheduleOverride) (overrides : list ScheduleOverride) :
  List.filter (onDate (date o))
    (List.filter (fun x => negb (String.eqb (date x) (date o))) overrides ++ [o])
  = [o].
Proof.
  unfold onDate. rewrite List.filter_app. simpl. rewrite String.eqb_refl.
  replace (List.filter (fun x => String.eqb (date x) (date o))
             (List.filter (fun x => negb (String.eqb (date x) (date o))) overrides))
    with (@nil ScheduleOverride); [reflexivity|].
  induction overrides as [|x rest IH]; [reflexivity|]. simpl.
  destruct (String.eqb (date x) (date o)) eqn:Hx; simpl; [exact IH|].
  now rewrite Hx.
Qed.

Lemma find_removed (wanted : string) (overrides : list ScheduleOverride) :
  List.find (onDate wanted)
    (List.filter (fun o => negb (String.eqb (date o) wanted)) overrides) = None.
Proof.
  unfold onDate. induction overrides as [|x rest IH]; [reflexivity|]. simpl.
  destruct (String.eqb (date x) wanted) eqn:Hx; simpl; [exact IH|].
  now rewrite Hx.
Qed.

Lemma filter_shorter_iff (wanted : string) (overrides : list ScheduleOverride) :
  (length (List.filter (fun o => negb (String.eqb (date o) wanted)) overrides)
   <? length overrides)%nat = true
  <-> List.find (onDate wanted) overrides <> None.
Proof.
  unfold onDate. rewrite Nat.ltb_lt.
  induction overrides as [|x rest IH]; simpl.
  - split; [lia|congruence].
  - pose proof (filter_length_le (fun o => negb (String.eqb (date o) wanted)) rest).
    destruct (String.eqb (date x) wanted); simpl.
    + split; [discriminate|lia].
    + rewrite <- IH. lia.
Qed.

End StoredSchedule.

Section StoredRecords.

Import DataManagerMethods Props.

Lemma find_other_after_removal (wanted other : string)
    (overrides : list ScheduleOverride) :
  other <> wanted ->
  List.find (onDate other)
    (List.filter (fun o => negb (String.eqb (date o) wanted)) overrides)
  = List.find (onDate other) overrides.
Proof.
  intros Hne. unfold onDate. induction overrides as [|x rest IH]; [reflexivity|].
  simpl. destruct (String.eqb_spec (date x) wanted) as [Hx|Hx]; simpl.
  - assert (Hother : String.eqb (date x) other = false)
      by (apply String.eqb_neq; congruence).
    now rewrite Hother.
  - destruct (String.eqb (date x) other); [reflexivity|exact IH].
Qed.

Lemma sameClass_refl (r : AttendanceRecord) : sameClass r r = true.
Proof. unfold sameClass. now rewrite !String.eqb_refl. Qed.

Lemma sameClass_iff (a b : AttendanceRecord) :
  sameClass a b = true
  <-> record_date a = record_date b /\ record_courseId a = record_courseId b.
Proof. unfold sameClass. now rewrite andb_true_iff, !String.eqb_eq. Qed.

Lemma sameClass_with (x a b : AttendanceRecord) :
  sameClass a b = true -> sameClass x a = sameClass x b.
Proof.
  intros Hab. apply sameClass_iff in Hab. destruct Hab as [Hd Hc].
  unfold sameClass. now rewrite Hd, Hc.
Qed.

Lemma filter_filter_same {A : Type} (p : A -> bool) (l : list A) :
  List.filter p (List.filter p l) = List.filter p l.
Proof.
  induction l as [|x l IH]; [reflexivity|]. simpl.
  destruct (p x) eqn:Hx; simpl; [now rewrite Hx, IH|exact IH].
Qed.

Lemma filter_ext_eq {A : Type} (p q : A -> bool) (l : list A) :
  (forall x, p x = q x) -> List.filter p l = List.filter q l.
Proof.
  intros Hpq. induction l as [|x l IH]; [reflexivity|]. simpl.
  now rewrite Hpq, IH.
Qed.

Lemma filter_filter_and {A : Type} (p q : A -> bool) (l : list A) :
  List.filter p (List.filter q l) = List.filter (fun x => p x && q x) l.
Proof.
  induction l as [|x l IH]; [reflexivity|]. simpl.
  destruct (q x); simpl; [|rewrite andb_false_r; exact IH].
  rewrite andb_true_r. destruct (p x); now rewrite IH.
Qed.

(** [recount] reads only the id of the course and keeps everything but
    the two counters. *)
Lemma recount_recount (records earlier : list AttendanceRecord) (course : Course) :
  recount records (recount earlier course) = recount records course.
Proof. reflexivity. Qed.

Lemma selectRecords_course (records : list AttendanceRecord) (wanted : string) :
  selectRecords records (Some wanted) None None = recordsOf records wanted.
Proof.
  unfold selectRecords, recordsOf. simpl.
  destruct wanted as [|c rest]; reflexivity.
Qed.

End StoredRecords.

Module ScheduleStoreProps.

Import DataManagerMethods Props Fixtures.

(** X18: after [addScheduleOverride(override)], the override stored for
    its date is that one and the only one, the schedule resolved for that
    date is its class list, and the override of every other date is what
    it was. *)
Theorem addScheduleOverride_then_lookup (getDay : string -> nat)
    (override : ScheduleOverride) (dm : DataManager) :
  let dm' := after (addScheduleOverride override) dm in
  result (getScheduleOverride (date override)) dm' = Some override
  /\ List.filter (onDate (date override)) (scheduleOverrides dm') = [override]
  /\ result (getScheduleForDate getDay (date override)) dm' = classes override
  /\ forall other : string,
       other <> date override ->
       result (getScheduleOverride other) dm' = result (getScheduleOverride other) dm.
Proof.
  intros dm'.
  assert (Hfind : forall wanted,
             result (getScheduleOverride wanted) dm'
             = if String.eqb (date override) wanted then Some override
               else result (getScheduleOverride wanted) dm).
  { intros wanted. subst dm'.
    unfold result, after, getScheduleOverride, addScheduleOverride, reads, writes.
    simpl. apply (find_after_filter wanted override). }
  assert (Hsame : result (getScheduleOverride (date override)) dm' = Some override)
    by (rewrite Hfind; now rewrite String.eqb_refl).
  split; [exact Hsame|]. split; [|split].
  - subst dm'. unfold after, addScheduleOverride, writes. simpl.
    apply filter_after_filter.
  - now rewrite (getScheduleForDate_override getDay _ dm' override Hsame).
  - intros other Hne. rewrite Hfind.
    destruct (String.eqb_spec (date override) other); [congruence|reflexivity].
Qed.

(** X19: [removeScheduleOverride(date)] returns true exactly when an
    override was stored for the date; afterwards none is, the schedule
    resolved for the date is the weekly template of its weekday, and the
    override of every other date is what it was. *)
Theorem removeScheduleOverride_falls_back_on_the_template (getDay : string -> nat)
    (wanted : string) (dm : DataManager) :
  let remove := removeScheduleOverride wanted in
  (result remove dm = true <-> result (getScheduleOverride wanted) dm <> None)
  /\ result (getScheduleOverride wanted) (after remove dm) = None
  /\ result (getScheduleForDate getDay wanted) (after remove dm)
     = result (getDaySchedule (getDayOfWeek getDay wanted)) dm
  /\ forall other : string,
       other <> wanted ->
       result (getScheduleOverride other) (after remove dm)
       = result (getScheduleOverride other) dm.
Proof.
  intros remove. subst remove.
  unfold result, after, removeScheduleOverride, getScheduleForDate, getScheduleOverride,
    getDaySchedule, withOverrides, reads, writes, bind, ret.
  simpl. split; [apply filter_shorter_iff|].
  pose proof (find_removed wanted (scheduleOverrides dm)) as Hnone.
  unfold onDate in Hnone. split; [exact Hnone|]. split.
  - now rewrite Hnone.
  - intros other Hne. now apply find_other_after_removal.
Qed.

(** X20: for day names (ASCII texts whose lower-case form names no member
    inherited from Object.prototype), after [addDayToSchedule(day,
    classes)], [getDaySchedule] of a day name that is the same up to the
    case of its letters returns those classes, and of any other day name
    what it returned before. *)
Theorem addDayToSchedule_ignores_case (day : string) (dayClasses : list ClassTime)
    (dm : DataManager) (asked : string) :
  Props.dayName day ->
  Props.dayName asked ->
  result (getDaySchedule asked) (after (addDayToSchedule day dayClasses) dm)
  = if String.eqb (toLowerCase asked) (toLowerCase day) then dayClasses
    else result (getDaySchedule asked) dm.
Proof.
  intros _ _.
  unfold result, after, getDaySchedule, addDayToSchedule, reads, writes. simpl.
  destruct (String.eqb_spec (toLowerCase asked) (toLowerCase day)) as [Heq|Hne].
  - now rewrite Heq, lookup_insert_eq.
  - rewrite lookup_insert_ne by congruence. reflexivity.
Qed.

Lemma addDayToSchedule_ignores_case_witness :
  result (getDaySchedule "SATURDAY")
    (after (addDayToSchedule "Saturday" [Fixtures.noon]) Fixtures.manager)
  = [Fixtures.noon].
Proof.
  apply (addDayToSchedule_ignores_case "Saturday" [Fixtures.noon] Fixtures.manager
           "SATURDAY").
  - split; [reflexivity|].
    intros [H|[H|[]]]; discriminate H.
  - split; [reflexivity|].
    intros [H|[H|[]]]; discriminate H.
Defined.

(** X21: after [addAttendanceRecord(record)] the stored records hold
    exactly one record for the date and course of the record, the record
    itself, and the records of every other date or course as before, in
    their order. *)
Theorem addAttendanceRecord_supersedes (record : AttendanceRecord) (dm : DataManager) :
  let records' := attendanceRecords (after (addAttendanceRecord record) dm) in
  List.filter (fun r => sameClass r record) records' = [record]
  /\ List.filter (fun r => negb (sameClass r record)) records'
     = List.filter (fun r => negb (sameClass r record)) (attendanceRecords dm).
Proof.
  intros records'. subst records'.
  unfold after, addAttendanceRecord, updateCourseFromAttendanceRecords, withCourses,
    writes, bind.
  simpl. rewrite !List.filter_app. simpl. rewrite sameClass_refl. simpl.
  rewrite filter_filter_same, app_nil_r. split; [|reflexivity].
  rewrite filter_filter_and.
  replace (List.filter (fun x => sameClass x record && negb (sameClass x record))
             (attendanceRecords dm))
    with (@nil AttendanceRecord); [reflexivity|].
  induction (attendanceRecords dm) as [|x rest IH]; [reflexivity|]. simpl.
  now destruct (sameClass x record).
Qed.

(** X22: a record added after another one for the same date and course
    replaces it in everything: the data manager is the one the later
    record alone would have given. *)
Theorem later_record_replaces_the_earlier (earlier later : AttendanceRecord)
    (dm : DataManager) :
  sameClass earlier later = true ->
  after (addAttendanceRecord later) (after (addAttendanceRecord earlier) dm)
  = after (addAttendanceRecord later) dm.
Proof.
  intros Hsame.
  unfold after, addAttendanceRecord, updateCourseFromAttendanceRecords, withCourses,
    writes, bind.
  simpl.
  assert (Hrecords :
            List.filter (fun r => negb (sameClass r later))
              (List.filter (fun r => negb (sameClass r earlier)) (attendanceRecords dm)
               ++ [earlier])
            = List.filter (fun r => negb (sameClass r later)) (attendanceRecords dm)).
  { rewrite List.filter_app. simpl. rewrite Hsame. simpl. rewrite app_nil_r.
    rewrite (filter_ext_eq (fun r => negb (sameClass r earlier))
               (fun r => negb (sameClass r later)))
      by (intros x; now rewrite (sameClass_with x earlier later Hsame)).
    apply filter_filter_same. }
  rewrite Hrecords. f_equal.
  rewrite map_map. apply map_ext. intros course. apply recount_recount.
Qed.

Lemma later_record_replaces_the_earlier_witness :
  after (addAttendanceRecord (mkAttendanceRecord "2024-01-08" "CS101" false (Some true) None))
    (after (addAttendanceRecord (mkAttendanceRecord "2024-01-08" "CS101" true None None))
       manager)
  = after (addAttendanceRecord (mkAttendanceRecord "2024-01-08" "CS101" false (Some true) None))
      manager.
Proof.
  apply later_record_replaces_the_earlier. reflexivity.
Defined.

(** X23: after [markClassCancelled(day, courseId)] with a course id that
    is not empty, every stored course with that id counts as cancelled one
    class more than the cancelled records of the course on the other days,
    and as attended the attended records of the course on the other days:
    the class of that day is no longer counted as attended. *)
Theorem markClassCancelled_recounts_the_course (day wanted : string)
    (why : option string) (dm : DataManager) (course : Course) :
  wanted <> "" ->
  In course (courses dm) ->
  id course = wanted ->
  let others := onOtherDays (attendanceRecords dm) wanted day in
  In (withCounters course (attendedIn others) (totalClassesScheduled course)
        (cancelledIn others + 1))
    (courses (after (markClassCancelled day wanted why) dm)).
Proof.
  intros Hwanted Hin Hid others.
  unfold after, markClassCancelled, addAttendanceRecord,
    updateCourseFromAttendanceRecords, withCourses, writes, bind.
  simpl.
  set (record := mkAttendanceRecord day wanted false (Some true) _).
  set (records' := List.filter _ (attendanceRecords dm) ++ [record]).
  apply in_map_iff. exists course. split; [|exact Hin].
  unfold recount, withCounters. rewrite selectRecords_course, Hid.
  assert (Hmine : recordsOf records' wanted = others ++ [record]).
  { unfold recordsOf. destruct (String.eqb_spec wanted "") as [|_]; [contradiction|].
    subst records'. rewrite List.filter_app. simpl. rewrite String.eqb_refl.
    f_equal. rewrite filter_filter_and. apply filter_ext_eq. intros r.
    unfold sameClass. simpl.
    destruct (String.eqb (record_courseId r) wanted),
      (String.eqb (record_date r) day); reflexivity. }
  rewrite Hmine. unfold attendedIn, cancelledIn.
  rewrite !List.filter_app, !length_app. simpl.
  f_equal; lia.
Qed.

Lemma markClassCancelled_recounts_the_course_witness :
  let others := onOtherDays (attendanceRecords manager) "CS101" "2024-01-08" in
  In (withCounters cs101 (attendedIn others) (totalClassesScheduled cs101)
        (cancelledIn others + 1))
    (courses (after (markClassCancelled "2024-01-08" "CS101" None) manager)).
Proof.
  apply (markClassCancelled_recounts_the_course "2024-01-08" "CS101" None manager cs101).
  - discriminate.
  - left. reflexivity.
  - reflexivity.
Defined.

(** X24: importing what [exportData] returned, into any data manager,
    gives back the exported data manager; and an import that carries no
    field changes nothing. *)
Theorem importData_restores_an_export (dm other : DataManager) :
  after (importData (fullImport (result exportData dm))) other = dm
  /\ after (importData (mkImportData None None None None None)) dm = dm.
Proof.
  unfold after, result, importData, exportData, fullImport, reads, writes. simpl.
  now destruct dm.
Qed.

(** X25: [getUpcomingSchedule] lists, in the order of the dates of the
    range, exactly the dates whose resolved schedule has a class, each with
    that schedule and the reason "scheduled"; no listed day is without
    classes. *)
Theorem getUpcomingSchedule_lists_the_days_with_classes (getDay : string -> nat)
    (datesBetween : string -> string -> list string) (startDate endDate : string)
    (dm : DataManager) :
  let scheduleOn := fun day => result (getScheduleForDate getDay day) dm in
  let upcoming := result (getUpcomingSchedule getDay datesBetween startDate endDate) dm in
  upcoming
  = map (fun day => mkScheduleOverride day (scheduleOn day) (Some "scheduled"))
      (List.filter (fun day => hasClasses (scheduleOn day))
         (datesBetween startDate endDate))
  /\ forall entry, In entry upcoming -> classes entry <> [].
Proof.
  intros scheduleOn upcoming.
  pose (body := fun (listed : list ScheduleOverride) (dateStr : string) =>
                  let* schedule := getScheduleForDate getDay dateStr in
                  match schedule with
                  | [] => ret listed
                  | _ :: _ =>
                      ret (listed
                           ++ [mkScheduleOverride dateStr schedule (Some "scheduled")])
                  end).
  assert (Hreads : forall listed dateStr, readOnly (body listed dateStr)).
  { intros listed dateStr. unfold body.
    apply readOnly_bind; [apply readOnly_getScheduleForDate|].
    intros [|c cs]; auto with readonly. }
  assert (Hbody : forall listed dateStr,
             result (body listed dateStr) dm
             = if hasClasses (scheduleOn dateStr)
               then listed ++ [mkScheduleOverride dateStr (scheduleOn dateStr)
                                 (Some "scheduled")]
               else listed).
  { intros listed dateStr. unfold body, result at 1.
    rewrite bind_readOnly by apply readOnly_getScheduleForDate.
    fold (scheduleOn dateStr). now destruct (scheduleOn dateStr). }
  assert (Hlist : forall (dates : list string) (acc : list ScheduleOverride),
             result (forEach dates body acc) dm
             = acc ++ map (fun day =>
                             mkScheduleOverride day (scheduleOn day) (Some "scheduled"))
                        (List.filter (fun day => hasClasses (scheduleOn day)) dates)).
  { induction dates as [|day rest IH]; intros acc.
    - simpl. now rewrite app_nil_r.
    - cbn [forEach List.filter]. unfold result at 1.
      rewrite bind_readOnly by apply Hreads.
      fold (result (forEach rest body (result (body acc day) dm)) dm).
      rewrite IH, Hbody.
      destruct (hasClasses (scheduleOn day)); [|reflexivity].
      now rewrite <- app_assoc. }
  assert (Hupcoming :
            upcoming
            = map (fun day => mkScheduleOverride day (scheduleOn day) (Some "scheduled"))
                (List.filter (fun day => hasClasses (scheduleOn day))
                   (datesBetween startDate endDate))).
  { subst upcoming. unfold getUpcomingSchedule. fold body. now rewrite Hlist. }
  split; [exact Hupcoming|].
  intros entry Hentry. rewrite Hupcoming in Hentry.
  apply in_map_iff in Hentry. destruct Hentry as [day [<- Hday]].
  apply filter_In in Hday. destruct Hday as [_ Hhas]. simpl.
  now destruct (scheduleOn day).
Qed.

End ScheduleStoreProps.

(** ** What an analysis holds *)

Section AnalysisContents.

Import DataManagerMethods AttendanceCalculator ScheduleOptimizer CollegeDecisionEngine.

Variable getDay : string -> nat.
Variable datesBetween : string -> string -> list string.
Variable thirtyDaysAfter : string -> string.
Variable today : string.
Variable showNumber : Q -> string.

Lemma readOnly_shouldGoToday :
  readOnly (shouldGoToday getDay datesBetween thirtyDaysAfter today showNumber).
Proof.
  unfold shouldGoToday. apply readOnly_bind; [apply readOnly_analyzeDay|].
  intros analysis. auto with readonly.
Qed.

Lemma readOnly_getCourseSummary : readOnly getCourseSummary.
Proof.
  unfold getCourseSummary, getAttendanceStatusSummary, getAllCourses.
  repeat (apply readOnly_bind; [|intros ?]); auto with readonly.
Qed.

Lemma status_isAtRisk (course : Course) :
  isAtRisk (calculateAttendanceStatus course) = true
  <-> (inject_Z (classesCancelled course) * (8 # 10)
       < inject_Z (classesNeededFor75Percent (calculateAttendanceStatus course)))%Q.
Proof.
  unfold calculateAttendanceStatus. simpl.
  assert (Hrem : totalClassesScheduled course
                 - (totalClassesScheduled course - classesCancelled course)
                 = classesCancelled course) by lia.
  rewrite Hrem. apply gtb_Qlt.
Qed.

Lemma efficiencyAdjustment_bounds (minutes : Z) :
  -20 <= Spec.efficiencyAdjustment minutes <= 10.
Proof.
  unfold Spec.efficiencyAdjustment.
  destruct (Qlt_le_dec _ _); [lia|]. destruct (Qlt_le_dec _ _); lia.
Qed.

Lemma requiredFound_nonneg (analysis : DayAnalysis) : 0 <= Spec.requiredFound analysis.
Proof. unfold Spec.requiredFound. lia. Qed.

End AnalysisContents.

Module EngineProps.

Import DataManagerMethods AttendanceCalculator ScheduleOptimizer CollegeDecisionEngine.
Import Props Fixtures.

(** X26: in the analysis of any date, every must-attend course id is
    among the recommended classes, every recommended id is the course id of
    a class scheduled that day, and every reported time gap lasts more than
    0 minutes. *)
Theorem analysis_recommends_scheduled_classes (getDay : string -> nat)
    (datesBetween : string -> string -> list string)
    (thirtyDaysAfter : string -> string) (showNumber : Q -> string)
    (date : string) (dm : DataManager) :
  let analysis :=
    result (analyzeDay getDay datesBetween thirtyDaysAfter showNumber date) dm in
  let mustAttend :=
    findMustAttendClasses
      (result (buildDecisionContext getDay datesBetween thirtyDaysAfter date) dm) in
  (forall k, In k mustAttend -> In k (recommendedClasses analysis))
  /\ (forall k, In k (recommendedClasses analysis) ->
        exists c, In c (scheduledClasses analysis) /\ courseId c = k)
  /\ Forall (fun g => 0 < duration g) (timeGaps analysis).
Proof.
  intros analysis mustAttend.
  destruct (buildDecisionContext_fields getDay datesBetween thirtyDaysAfter date dm)
    as [_ [Hday Hprefs]].
  subst analysis. rewrite analyzeDay_result.
  set (context :=
         result (buildDecisionContext getDay datesBetween thirtyDaysAfter date) dm) in *.
  set (schedule := result (getScheduleForDate getDay date) dm) in *.
  assert (Hmust : forall k, In k mustAttend ->
            exists c, In c schedule /\ courseId c = k).
  { intros k Hk. apply findMustAttendClasses_In in Hk.
    destruct Hk as [c [course [Hc [Hid _]]]]. rewrite Hday in Hc. now exists c. }
  destruct schedule as [|s ss] eqn:Hs.
  - simpl. split; [|split; [intros k []|constructor]].
    intros k Hk. destruct (Hmust k Hk) as [c [[] _]].
  - cbv zeta. cbn [recommendedClasses scheduledClasses timeGaps].
    fold mustAttend.
    destruct (optimizeClassSelection_selected showNumber (s :: ss) mustAttend
                (context_preferences context)) as [added Hsel].
    destruct (optimizeClassSelection_result showNumber (context_preferences context)
                mustAttend (s :: ss)) as [rest [Hperm _]].
    split; [|split].
    + intros k Hk. destruct (Hmust k Hk) as [c [Hc Hid]].
      rewrite Hsel, map_app, in_app_iff. left. rewrite <- Hid. apply in_map.
      apply filter_In. split; [exact Hc|]. apply includes_In. now rewrite Hid.
    + intros k Hk. apply in_map_iff in Hk. destruct Hk as [c [Hid Hc]].
      exists c. split; [|exact Hid].
      apply (Permutation_in c Hperm). apply in_or_app. now left.
    + rewrite calculateTimeGaps_gapsOf. apply reportedGaps_positive.
Qed.

(** X27: the confidence score of every analysis lies between 20 and 100:
    the lower clamp at 0 is never reached. *)
Theorem confidence_score_is_between_20_and_100 (analysis : DayAnalysis) :
  20 <= calculateConfidenceScore analysis <= 100.
Proof.
  rewrite calculateConfidenceScore_spec. unfold Spec.confidenceScore.
  pose proof (requiredFound_nonneg analysis) as Hfound.
  pose proof (efficiencyAdjustment_bounds (Spec.onCampusMinutes analysis)) as Heff.
  assert (Hclamp : forall c, 35 <= c -> 20 <= Spec.clamp c <= 100).
  { intros c Hc. unfold Spec.clamp.
    destruct (Z.ltb_spec c 0); [lia|]. destruct (Z.ltb_spec 100 c); lia. }
  destruct (shouldGo analysis), (scheduledClasses analysis),
    (recommendedClasses analysis); try lia; apply Hclamp;
    destruct (180 <? Spec.largestGap (timeGaps analysis)); lia.
Qed.

(** X28: [analyzeDay], [shouldGoToday] and [getCourseSummary] leave the
    data manager as they found it. *)
Theorem engine_queries_leave_the_store_unchanged (getDay : string -> nat)
    (datesBetween : string -> string -> list string)
    (thirtyDaysAfter : string -> string) (today : string) (showNumber : Q -> string)
    (date : string) (dm : DataManager) :
  after (analyzeDay getDay datesBetween thirtyDaysAfter showNumber date) dm = dm
  /\ after (shouldGoToday getDay datesBetween thirtyDaysAfter today showNumber) dm = dm
  /\ after getCourseSummary dm = dm.
Proof.
  split; [apply readOnly_analyzeDay|].
  split; [apply readOnly_shouldGoToday|apply readOnly_getCourseSummary].
Qed.

(** X29: [getCourseSummary] returns one row per stored course, in order,
    under the id of the course; the row of a course without cancelled
    classes has the status critical exactly when it needs classes
    (classesNeeded > 0). *)
Theorem course_summary_is_critical_when_classes_are_needed (dm : DataManager) :
  Forall2
    (fun course row =>
       summary_courseId row = id course
       /\ (classesCancelled course = 0 ->
           (summary_status row = "critical" <-> 0 < classesNeeded row)))
    (courses dm) (result getCourseSummary dm).
Proof.
  unfold result, getCourseSummary, getAttendanceStatusSummary, getAllCourses,
    getAttendanceSummary, bind, reads, ret.
  simpl. rewrite map_map.
  induction (courses dm) as [|course rest IH]; constructor; [|exact IH].
  cbn [summary_courseId summary_status classesNeeded]. split; [reflexivity|].
  intros Hnone.
  pose proof (status_isAtRisk course) as Hrisk. rewrite Hnone in Hrisk.
  assert (Hzero : (inject_Z 0 * (8 # 10) == inject_Z 0)%Q) by reflexivity.
  rewrite Hzero, <- Zlt_Qlt in Hrisk. rewrite <- Hrisk.
  destruct (isAtRisk (calculateAttendanceStatus course)).
  - split; reflexivity.
  - destruct (JS.ltb _ 80); split; discriminate.
Qed.

End EngineProps.
